(** * ETL pipelines for bank market capitalisation and national GDP

    A shallow embedding of the two scripts of the repository,
    [ETL_BankData.py] and [ETL_GDP.py], and the properties their
    specification states about them.

    Conventions of the embedding.
    - Text is a byte string, the UTF-8 encoding of the Python string:
      the em-dash of the GDP page is the three bytes E2 80 94.  Where
      Python works on characters ([str.strip], [float], [repr]) the
      bytes are decoded first.
    - A Python [float] is a binary64 number, as are the cells of a
      column of dtype float64; the arithmetic is that of IEEE 754,
      rounding to nearest with ties to even.  A literal such as
      [0.79%float] is the binary64 number nearest to it.
    - A parsed page is a tree of [node]s, as BeautifulSoup hands it out.
    - A [DataFrame] is an ordered list of named columns, each of dtype
      float64 or object.
    - Everything outside the process (the web, the clock, the conversion
      file, failures of the disk and of the database engine, the answers
      of the engine to SQL text) is read from an environment [env]; what
      the scripts write (log file, CSV file, database tables, standard
      output) is the [world] they thread.  Writing a line to a log file
      is taken not to fail. *)

From Stdlib Require Import PrimFloat FloatOps SpecFloat Uint63.
From Stdlib Require FloatAxioms.
From Stdlib Require Import ZArith NArith String Ascii List Bool Lia DecimalString.
From stdpp Require Import base gmap strings list.

Local Open Scope string_scope.
Local Set Warnings "-inexact-float".

(** ** Python strings *)

Module PyStr.

(** A byte as a number. *)
Definition code (c : ascii) : N := N_of_ascii c.

Definition is_continuation (c : ascii) : bool :=
  ((128 <=? code c) && (code c <=? 191))%N.

(** The first character of a text that is not empty: its code point and
    the number of bytes that encode it.  A byte that begins no
    well-formed sequence is taken alone and stands for a character
    beyond U+10FFFF. *)
Definition alone (c : ascii) : N * nat := ((1114112 + code c)%N, 1).

Definition decode1 (s : string) : N * nat :=
  match s with
  | EmptyString => (0%N, 0)
  | String c0 r0 =>
      let b0 := code c0 in
      if (b0 <? 128)%N then (b0, 1)
      else
        match r0 with
        | String c1 r1 =>
            if is_continuation c1 then
              let b1 := code c1 in
              if ((194 <=? b0) && (b0 <=? 223))%N then
                (((b0 - 192) * 64 + (b1 - 128))%N, 2)
              else
                match r1 with
                | String c2 r2 =>
                    if is_continuation c2 then
                      let b2 := code c2 in
                      if ((224 <=? b0) && (b0 <=? 239))%N then
                        let cp := ((b0 - 224) * 4096 + (b1 - 128) * 64 + (b2 - 128))%N in
                        if ((2048 <=? cp) && negb ((55296 <=? cp) && (cp <=? 57343)))%N
                        then (cp, 3) else alone c0
                      else
                        match r2 with
                        | String c3 _ =>
                            if is_continuation c3 && ((240 <=? b0) && (b0 <=? 244))%N then
                              let cp := ((b0 - 240) * 262144 + (b1 - 128) * 4096 +
                                         (b2 - 128) * 64 + (code c3 - 128))%N in
                              if ((65536 <=? cp) && (cp <=? 1114111))%N
                              then (cp, 4) else alone c0
                            else alone c0
                        | EmptyString => alone c0
                        end
                    else alone c0
                | EmptyString => alone c0
                end
            else alone c0
        | EmptyString => alone c0
        end
  end.

(** The characters of a text, each with the bytes that encode it;
    [skip] bytes belong to the character before. *)
Fixpoint chars_from (skip : nat) (s : string) : list (N * string) :=
  match s with
  | EmptyString => []
  | String _ r =>
      match skip with
      | S k => chars_from k r
      | O => let '(cp, n) := decode1 s in (cp, substring 0 n s) :: chars_from (n - 1) r
      end
  end.

Definition chars (s : string) : list (N * string) := chars_from 0 s.

(** The first [k] bytes of [s], as far as it has them, are continuation
    bytes. *)
Fixpoint continued (k : nat) (s : string) : bool :=
  match k, s with
  | S k', String a r => is_continuation a && continued k' r
  | _, _ => true
  end.

(** [s] without its first [k] bytes. *)
Fixpoint tail_from (k : nat) (s : string) : string :=
  match k, s with
  | S k', String _ r => tail_from k' r
  | _, _ => s
  end.

(** [s] is empty or begins with a byte that is no continuation byte. *)
Definition boundary (s : string) : bool :=
  match s with
  | EmptyString => true
  | String a _ => negb (is_continuation a)
  end.

(** The text of a list of characters. *)
Fixpoint join (l : list (N * string)) : string :=
  match l with
  | [] => EmptyString
  | c :: r => snd c ++ join r
  end.

(** [c.isspace()] *)
Definition is_space (cp : N) : bool :=
  (((9 <=? cp) && (cp <=? 13)) || ((28 <=? cp) && (cp <=? 32)) || (cp =? 133) ||
   (cp =? 160) || (cp =? 5760) || ((8192 <=? cp) && (cp <=? 8202)) || (cp =? 8232) ||
   (cp =? 8233) || (cp =? 8239) || (cp =? 8287) || (cp =? 12288))%N.

Fixpoint lstrip (l : list (N * string)) : list (N * string) :=
  match l with
  | [] => []
  | c :: r => if is_space (fst c) then lstrip r else l
  end.

Definition rstrip (l : list (N * string)) : list (N * string) := rev (lstrip (rev l)).

(** [s.strip()] *)
Definition strip (s : string) : string := join (rstrip (lstrip (chars s))).

(** [s.replace(old, new)] for a one-character [old]. *)
Fixpoint replace (old : ascii) (new : string) (s : string) : string :=
  match s with
  | EmptyString => EmptyString
  | String c s' =>
      if Ascii.eqb c old then new ++ replace old new s'
      else String c (replace old new s')
  end.

(** [sub in s] *)
Fixpoint contains (sub s : string) : bool :=
  String.prefix sub s ||
  match s with
  | EmptyString => false
  | String _ s' => contains sub s'
  end.

(** [c] occurs in [s]. *)
Fixpoint has_char (c : ascii) (s : string) : bool :=
  match s with
  | EmptyString => false
  | String d s' => Ascii.eqb d c || has_char c s'
  end.

Definition lower (c : ascii) : ascii :=
  let n := nat_of_ascii c in
  if ((65 <=? n)%nat && (n <=? 90)%nat) then ascii_of_nat (n + 32) else c.

Fixpoint lowercase (s : string) : string :=
  match s with
  | EmptyString => EmptyString
  | String c s' => String (lower c) (lowercase s')
  end.

(** The "no data" marker of the GDP table, U+2014. *)
Definition em_dash : string := "—".

(** *** [repr(s)] *)

(** The characters above U+007F that are not printable, in ranges
    (Unicode 14.0, as CPython 3.11 has it). *)
Definition unprintable : list (N * N) :=
  [(128, 160); (173, 173); (888, 889); (896, 899); (907, 907); (909, 909); (930, 930);
   (1328, 1328); (1367, 1368); (1419, 1420); (1424, 1424); (1480, 1487); (1515, 1518);
   (1525, 1541); (1564, 1564); (1757, 1757); (1806, 1807); (1867, 1868); (1970, 1983);
   (2043, 2044); (2094, 2095); (2111, 2111); (2140, 2141); (2143, 2143); (2155, 2159);
   (2191, 2199); (2274, 2274); (2436, 2436); (2445, 2446); (2449, 2450); (2473, 2473);
   (2481, 2481); (2483, 2485); (2490, 2491); (2501, 2502); (2505, 2506); (2511, 2518);
   (2520, 2523); (2526, 2526); (2532, 2533); (2559, 2560); (2564, 2564); (2571, 2574);
   (2577, 2578); (2601, 2601); (2609, 2609); (2612, 2612); (2615, 2615); (2618, 2619);
   (2621, 2621); (2627, 2630); (2633, 2634); (2638, 2640); (2642, 2648); (2653, 2653);
   (2655, 2661); (2679, 2688); (2692, 2692); (2702, 2702); (2706, 2706); (2729, 2729);
   (2737, 2737); (2740, 2740); (2746, 2747); (2758, 2758); (2762, 2762); (2766, 2767);
   (2769, 2783); (2788, 2789); (2802, 2808); (2816, 2816); (2820, 2820); (2829, 2830);
   (2833, 2834); (2857, 2857); (2865, 2865); (2868, 2868); (2874, 2875); (2885, 2886);
   (2889, 2890); (2894, 2900); (2904, 2907); (2910, 2910); (2916, 2917); (2936, 2945);
   (2948, 2948); (2955, 2957); (2961, 2961); (2966, 2968); (2971, 2971); (2973, 2973);
   (2976, 2978); (2981, 2983); (2987, 2989); (3002, 3005); (3011, 3013); (3017, 3017);
   (3022, 3023); (3025, 3030); (3032, 3045); (3067, 3071); (3085, 3085); (3089, 3089);
   (3113, 3113); (3130, 3131); (3141, 3141); (3145, 3145); (3150, 3156); (3159, 3159);
   (3163, 3164); (3166, 3167); (3172, 3173); (3184, 3190); (3213, 3213); (3217, 3217);
   (3241, 3241); (3252, 3252); (3258, 3259); (3269, 3269); (3273, 3273); (3278, 3284);
   (3287, 3292); (3295, 3295); (3300, 3301); (3312, 3312); (3315, 3327); (3341, 3341);
   (3345, 3345); (3397, 3397); (3401, 3401); (3408, 3411); (3428, 3429); (3456, 3456);
   (3460, 3460); (3479, 3481); (3506, 3506); (3516, 3516); (3518, 3519); (3527, 3529);
   (3531, 3534); (3541, 3541); (3543, 3543); (3552, 3557); (3568, 3569); (3573, 3584);
   (3643, 3646); (3676, 3712); (3715, 3715); (3717, 3717); (3723, 3723); (3748, 3748);
   (3750, 3750); (3774, 3775); (3781, 3781); (3783, 3783); (3790, 3791); (3802, 3803);
   (3808, 3839); (3912, 3912); (3949, 3952); (3992, 3992); (4029, 4029); (4045, 4045);
   (4059, 4095); (4294, 4294); (4296, 4300); (4302, 4303); (4681, 4681); (4686, 4687);
   (4695, 4695); (4697, 4697); (4702, 4703); (4745, 4745); (4750, 4751); (4785, 4785);
   (4790, 4791); (4799, 4799); (4801, 4801); (4806, 4807); (4823, 4823); (4881, 4881);
   (4886, 4887); (4955, 4956); (4989, 4991); (5018, 5023); (5110, 5111); (5118, 5119);
   (5760, 5760); (5789, 5791); (5881, 5887); (5910, 5918); (5943, 5951); (5972, 5983);
   (5997, 5997); (6001, 6001); (6004, 6015); (6110, 6111); (6122, 6127); (6138, 6143);
   (6158, 6158); (6170, 6175); (6265, 6271); (6315, 6319); (6390, 6399); (6431, 6431);
   (6444, 6447); (6460, 6463); (6465, 6467); (6510, 6511); (6517, 6527); (6572, 6575);
   (6602, 6607); (6619, 6621); (6684, 6685); (6751, 6751); (6781, 6782); (6794, 6799);
   (6810, 6815); (6830, 6831); (6863, 6911); (6989, 6991); (7039, 7039); (7156, 7163);
   (7224, 7226); (7242, 7244); (7305, 7311); (7355, 7356); (7368, 7375); (7419, 7423);
   (7958, 7959); (7966, 7967); (8006, 8007); (8014, 8015); (8024, 8024); (8026, 8026);
   (8028, 8028); (8030, 8030); (8062, 8063); (8117, 8117); (8133, 8133); (8148, 8149);
   (8156, 8156); (8176, 8177); (8181, 8181); (8191, 8207); (8232, 8239); (8287, 8303);
   (8306, 8307); (8335, 8335); (8349, 8351); (8385, 8399); (8433, 8447); (8588, 8591);
   (9255, 9279); (9291, 9311); (11124, 11125); (11158, 11158); (11508, 11512); (11558, 11558);
   (11560, 11564); (11566, 11567); (11624, 11630); (11633, 11646); (11671, 11679);
   (11687, 11687); (11695, 11695); (11703, 11703); (11711, 11711); (11719, 11719);
   (11727, 11727); (11735, 11735); (11743, 11743); (11870, 11903); (11930, 11930);
   (12020, 12031); (12246, 12271); (12284, 12288); (12352, 12352); (12439, 12440);
   (12544, 12548); (12592, 12592); (12687, 12687); (12772, 12783); (12831, 12831);
   (42125, 42127); (42183, 42191); (42540, 42559); (42744, 42751); (42955, 42959);
   (42962, 42962); (42964, 42964); (42970, 42993); (43053, 43055); (43066, 43071);
   (43128, 43135); (43206, 43213); (43226, 43231); (43348, 43358); (43389, 43391);
   (43470, 43470); (43482, 43485); (43519, 43519); (43575, 43583); (43598, 43599);
   (43610, 43611); (43715, 43738); (43767, 43776); (43783, 43784); (43791, 43792);
   (43799, 43807); (43815, 43815); (43823, 43823); (43884, 43887); (44014, 44015);
   (44026, 44031); (55204, 55215); (55239, 55242); (55292, 63743); (64110, 64111);
   (64218, 64255); (64263, 64274); (64280, 64284); (64311, 64311); (64317, 64317);
   (64319, 64319); (64322, 64322); (64325, 64325); (64451, 64466); (64912, 64913);
   (64968, 64974); (64976, 65007); (65050, 65055); (65107, 65107); (65127, 65127);
   (65132, 65135); (65141, 65141); (65277, 65280); (65471, 65473); (65480, 65481);
   (65488, 65489); (65496, 65497); (65501, 65503); (65511, 65511); (65519, 65531);
   (65534, 65535); (65548, 65548); (65575, 65575); (65595, 65595); (65598, 65598);
   (65614, 65615); (65630, 65663); (65787, 65791); (65795, 65798); (65844, 65846);
   (65935, 65935); (65949, 65951); (65953, 65999); (66046, 66175); (66205, 66207);
   (66257, 66271); (66300, 66303); (66340, 66348); (66379, 66383); (66427, 66431);
   (66462, 66462); (66500, 66503); (66518, 66559); (66718, 66719); (66730, 66735);
   (66772, 66775); (66812, 66815); (66856, 66863); (66916, 66926); (66939, 66939);
   (66955, 66955); (66963, 66963); (66966, 66966); (66978, 66978); (66994, 66994);
   (67002, 67002); (67005, 67071); (67383, 67391); (67414, 67423); (67432, 67455);
   (67462, 67462); (67505, 67505); (67515, 67583); (67590, 67591); (67593, 67593);
   (67638, 67638); (67641, 67643); (67645, 67646); (67670, 67670); (67743, 67750);
   (67760, 67807); (67827, 67827); (67830, 67834); (67868, 67870); (67898, 67902);
   (67904, 67967); (68024, 68027); (68048, 68049); (68100, 68100); (68103, 68107);
   (68116, 68116); (68120, 68120); (68150, 68151); (68155, 68158); (68169, 68175);
   (68185, 68191); (68256, 68287); (68327, 68330); (68343, 68351); (68406, 68408);
   (68438, 68439); (68467, 68471); (68498, 68504); (68509, 68520); (68528, 68607);
   (68681, 68735); (68787, 68799); (68851, 68857); (68904, 68911); (68922, 69215);
   (69247, 69247); (69290, 69290); (69294, 69295); (69298, 69375); (69416, 69423);
   (69466, 69487); (69514, 69551); (69580, 69599); (69623, 69631); (69710, 69713);
   (69750, 69758); (69821, 69821); (69827, 69839); (69865, 69871); (69882, 69887);
   (69941, 69941); (69960, 69967); (70007, 70015); (70112, 70112); (70133, 70143);
   (70162, 70162); (70207, 70271); (70279, 70279); (70281, 70281); (70286, 70286);
   (70302, 70302); (70314, 70319); (70379, 70383); (70394, 70399); (70404, 70404);
   (70413, 70414); (70417, 70418); (70441, 70441); (70449, 70449); (70452, 70452);
   (70458, 70458); (70469, 70470); (70473, 70474); (70478, 70479); (70481, 70486);
   (70488, 70492); (70500, 70501); (70509, 70511); (70517, 70655); (70748, 70748);
   (70754, 70783); (70856, 70863); (70874, 71039); (71094, 71095); (71134, 71167);
   (71237, 71247); (71258, 71263); (71277, 71295); (71354, 71359); (71370, 71423);
   (71451, 71452); (71468, 71471); (71495, 71679); (71740, 71839); (71923, 71934);
   (71943, 71944); (71946, 71947); (71956, 71956); (71959, 71959); (71990, 71990);
   (71993, 71994); (72007, 72015); (72026, 72095); (72104, 72105); (72152, 72153);
   (72165, 72191); (72264, 72271); (72355, 72367); (72441, 72703); (72713, 72713);
   (72759, 72759); (72774, 72783); (72813, 72815); (72848, 72849); (72872, 72872);
   (72887, 72959); (72967, 72967); (72970, 72970); (73015, 73017); (73019, 73019);
   (73022, 73022); (73032, 73039); (73050, 73055); (73062, 73062); (73065, 73065);
   (73103, 73103); (73106, 73106); (73113, 73119); (73130, 73439); (73465, 73647);
   (73649, 73663); (73714, 73726); (74650, 74751); (74863, 74863); (74869, 74879);
   (75076, 77711); (77811, 77823); (78895, 82943); (83527, 92159); (92729, 92735);
   (92767, 92767); (92778, 92781); (92863, 92863); (92874, 92879); (92910, 92911);
   (92918, 92927); (92998, 93007); (93018, 93018); (93026, 93026); (93048, 93052);
   (93072, 93759); (93851, 93951); (94027, 94030); (94088, 94094); (94112, 94175);
   (94181, 94191); (94194, 94207); (100344, 100351); (101590, 101631); (101641, 110575);
   (110580, 110580); (110588, 110588); (110591, 110591); (110883, 110927); (110931, 110947);
   (110952, 110959); (111356, 113663); (113771, 113775); (113789, 113791); (113801, 113807);
   (113818, 113819); (113824, 118527); (118574, 118575); (118599, 118607); (118724, 118783);
   (119030, 119039); (119079, 119080); (119155, 119162); (119275, 119295); (119366, 119519);
   (119540, 119551); (119639, 119647); (119673, 119807); (119893, 119893); (119965, 119965);
   (119968, 119969); (119971, 119972); (119975, 119976); (119981, 119981); (119994, 119994);
   (119996, 119996); (120004, 120004); (120070, 120070); (120075, 120076); (120085, 120085);
   (120093, 120093); (120122, 120122); (120127, 120127); (120133, 120133); (120135, 120137);
   (120145, 120145); (120486, 120487); (120780, 120781); (121484, 121498); (121504, 121504);
   (121520, 122623); (122655, 122879); (122887, 122887); (122905, 122906); (122914, 122914);
   (122917, 122917); (122923, 123135); (123181, 123183); (123198, 123199); (123210, 123213);
   (123216, 123535); (123567, 123583); (123642, 123646); (123648, 124895); (124903, 124903);
   (124908, 124908); (124911, 124911); (124927, 124927); (125125, 125126); (125143, 125183);
   (125260, 125263); (125274, 125277); (125280, 126064); (126133, 126208); (126270, 126463);
   (126468, 126468); (126496, 126496); (126499, 126499); (126501, 126502); (126504, 126504);
   (126515, 126515); (126520, 126520); (126522, 126522); (126524, 126529); (126531, 126534);
   (126536, 126536); (126538, 126538); (126540, 126540); (126544, 126544); (126547, 126547);
   (126549, 126550); (126552, 126552); (126554, 126554); (126556, 126556); (126558, 126558);
   (126560, 126560); (126563, 126563); (126565, 126566); (126571, 126571); (126579, 126579);
   (126584, 126584); (126589, 126589); (126591, 126591); (126602, 126602); (126620, 126624);
   (126628, 126628); (126634, 126634); (126652, 126703); (126706, 126975); (127020, 127023);
   (127124, 127135); (127151, 127152); (127168, 127168); (127184, 127184); (127222, 127231);
   (127406, 127461); (127491, 127503); (127548, 127551); (127561, 127567); (127570, 127583);
   (127590, 127743); (128728, 128732); (128749, 128751); (128765, 128767); (128884, 128895);
   (128985, 128991); (129004, 129007); (129009, 129023); (129036, 129039); (129096, 129103);
   (129114, 129119); (129160, 129167); (129198, 129199); (129202, 129279); (129620, 129631);
   (129646, 129647); (129653, 129655); (129661, 129663); (129671, 129679); (129709, 129711);
   (129723, 129727); (129734, 129743); (129754, 129759); (129768, 129775); (129783, 129791);
   (129939, 129939); (129995, 130031); (130042, 131071); (173792, 173823); (177977, 177983);
   (178206, 178207); (183970, 183983); (191457, 194559); (195102, 196607); (201547, 917759);
   (918000, 1114111)]%N.

Definition is_printable (cp : N) : bool :=
  negb (existsb (fun '(lo, hi) => (lo <=? cp) && (cp <=? hi))%N unprintable).

Definition hex_digit (n : N) : ascii :=
  ascii_of_N (if (n <? 10)%N then 48 + n else 87 + n)%N.

Fixpoint hex (width : nat) (n : N) : string :=
  match width with
  | O => EmptyString
  | S w => hex w (n / 16) ++ String (hex_digit (n mod 16)) EmptyString
  end.

Definition double_quote : ascii := ascii_of_nat 34.
Definition single_quote : ascii := ascii_of_nat 39.
Definition backslash : ascii := ascii_of_nat 92.

Definition escape (quote : ascii) (c : N * string) : string :=
  let cp := fst c in
  if ((cp =? code quote) || (cp =? 92))%N then String backslash (snd c)
  else if (cp =? 9)%N then String backslash "t"
  else if (cp =? 10)%N then String backslash "n"
  else if (cp =? 13)%N then String backslash "r"
  else if ((cp <? 32) || (cp =? 127))%N then String backslash ("x" ++ hex 2 cp)
  else if (cp <? 127)%N then snd c
  else if (1114111 <? cp)%N then String backslash ("x" ++ hex 2 (cp - 1114112))
  else if is_printable cp then snd c
  else if (cp <=? 255)%N then String backslash ("x" ++ hex 2 cp)
  else if (cp <=? 65535)%N then String backslash ("u" ++ hex 4 cp)
  else String backslash ("U" ++ hex 8 cp).

Definition repr (s : string) : string :=
  let quote :=
    if has_char single_quote s && negb (has_char double_quote s)
    then double_quote else single_quote in
  String quote (String.concat "" (map (escape quote) (chars s)) ++ String quote EmptyString).

End PyStr.

(** ** Python floats *)

Module PyFloat.

(** A [float] is a binary64 number; the operations are those of IEEE
    754 in the default rounding, to nearest with ties to even. *)
Definition pyfloat : Set := PrimFloat.float.

(** [float(n)] of an integer below 2^63 in magnitude. *)
Definition of_Z (z : Z) : pyfloat :=
  if (z <? 0)%Z then PrimFloat.opp (PrimFloat.of_uint63 (Uint63.of_Z (- z)))
  else PrimFloat.of_uint63 (Uint63.of_Z z).

(** [x * y] and [x / y], as numpy computes them on arrays. *)
Definition mul (x y : pyfloat) : pyfloat := PrimFloat.mul x y.
Definition truediv (x y : pyfloat) : pyfloat := PrimFloat.div x y.

(** [rint]: the nearest integer, a tie going to the even one, as the C
    library computes it: adding and taking away 2^52 leaves no room for
    a fraction. *)
Definition two52 : pyfloat := 4503599627370496%float.

Definition rint (x : pyfloat) : pyfloat :=
  if PrimFloat.ltb (PrimFloat.abs x) two52 then
    if PrimFloat.ltb x PrimFloat.zero then
      PrimFloat.opp (PrimFloat.sub (PrimFloat.add (PrimFloat.opp x) two52) two52)
    else if PrimFloat.ltb PrimFloat.zero x then
      PrimFloat.sub (PrimFloat.add x two52) two52
    else x
  else x.

(** [x.round(2)], as numpy rounds: [rint(x * 100) / 100]. *)
Definition round2 (x : pyfloat) : pyfloat :=
  truediv (rint (mul x 100%float)) 100%float.

(** *** [float(s)] *)

(** The decimal digits of Unicode above U+007F: the code point of the
    zero of each run of ten (Unicode 14.0, as CPython 3.11 has it). *)
Definition decimal_zeros : list N :=
  [1632; 1776; 1984; 2406; 2534; 2662; 2790; 2918; 3046; 3174; 3302; 3430; 3558; 3664; 3792;
   3872; 4160; 4240; 6112; 6160; 6470; 6608; 6784; 6800; 6992; 7088; 7232; 7248; 42528; 43216;
   43264; 43472; 43504; 43600; 44016; 65296; 66720; 68912; 69734; 69872; 69942; 70096; 70384;
   70736; 70864; 71248; 71360; 71472; 71904; 72016; 72784; 73040; 73120; 92768; 92864; 93008;
   120782; 120792; 120802; 120812; 120822; 123200; 123632; 125264; 130032]%N.

Definition decimal (cp : N) : option N :=
  match List.find (fun z => (z <=? cp) && (cp <? z + 10))%N decimal_zeros with
  | Some z => Some (cp - z)%N
  | None => None
  end.

Definition is_ascii (s : string) : bool :=
  negb (existsb (fun c => (127 <? PyStr.code c)%N) (list_ascii_of_string s)).

(** What [float] makes of a text that is not ASCII before it reads it:
    a space of every white space, the ASCII digit of every decimal
    digit, and a question mark, where the text ends, of anything
    else. *)
Fixpoint transform (l : list (N * string)) : string :=
  match l with
  | [] => EmptyString
  | c :: r =>
      let cp := fst c in
      if (cp <? 127)%N then snd c ++ transform r
      else if PyStr.is_space cp then String " " (transform r)
      else match decimal cp with
           | Some d => String (ascii_of_N (48 + d)) (transform r)
           | None => "?"
           end
  end.

(** The white space of C: what [float] skips at both ends. *)
Definition is_pyspace (c : ascii) : bool :=
  let n := nat_of_ascii c in
  ((9 <=? n)%nat && (n <=? 13)%nat) || (n =? 32)%nat.

Fixpoint ltrim (s : string) : string :=
  match s with
  | EmptyString => EmptyString
  | String c s' => if is_pyspace c then ltrim s' else s
  end.

Fixpoint rtrim (s : string) : string :=
  match s with
  | EmptyString => EmptyString
  | String c s' =>
      match rtrim s' with
      | EmptyString => if is_pyspace c then EmptyString else String c EmptyString
      | r => String c r
      end
  end.

Definition trim (s : string) : string := rtrim (ltrim s).

(** The grammar of the Python reference:
<<
    floatvalue  ::= [sign] (floatnumber | "inf" | "infinity" | "nan")
    floatnumber ::= number [("e" | "E") [sign] digitpart]
    number      ::= [digitpart] "." digitpart | digitpart ["."]
    digitpart   ::= digit (["_"] digit)*
>>
    the words read in any case. *)

Definition digit_of (c : ascii) : option Z :=
  let n := nat_of_ascii c in
  if ((48 <=? n)%nat && (n <=? 57)%nat) then Some (Z.of_nat (n - 48)) else None.

(** [(["_"] digit)*]: the digits read and what is left. *)
Fixpoint digits_tail (s : string) : list Z * string :=
  match s with
  | EmptyString => ([], s)
  | String c s1 =>
      match digit_of c with
      | Some d => let '(ds, r) := digits_tail s1 in (d :: ds, r)
      | None =>
          if Ascii.eqb c "_" then
            match s1 with
            | String c2 s2 =>
                match digit_of c2 with
                | Some d => let '(ds, r) := digits_tail s2 in (d :: ds, r)
                | None => ([], s)
                end
            | EmptyString => ([], s)
            end
          else ([], s)
      end
  end.

Definition digitpart (s : string) : option (list Z * string) :=
  match s with
  | String c s1 =>
      match digit_of c with
      | Some d => let '(ds, r) := digits_tail s1 in Some (d :: ds, r)
      | None => None
      end
  | EmptyString => None
  end.

Definition Z_of_digits (ds : list Z) : Z :=
  fold_left (fun acc d => (10 * acc + d)%Z) ds 0%Z.

(** [number]: the digits before the point, those after it, the rest. *)
Definition number (s : string) : option (list Z * list Z * string) :=
  match digitpart s with
  | Some (ip, r) =>
      match r with
      | String "." r1 =>
          match digitpart r1 with
          | Some (fp, r2) => Some (ip, fp, r2)
          | None => Some (ip, [], r1)
          end
      | _ => Some (ip, [], r)
      end
  | None =>
      match s with
      | String "." r1 =>
          match digitpart r1 with
          | Some (fp, r2) => Some ([], fp, r2)
          | None => None
          end
      | _ => None
      end
  end.

(** An optional sign: whether it is a minus, and the rest. *)
Definition sign (s : string) : bool * string :=
  match s with
  | String "-" r => (true, r)
  | String "+" r => (false, r)
  | _ => (false, s)
  end.

(** The exponent part, which must end the string. *)
Definition exponent (s : string) : option Z :=
  match s with
  | EmptyString => Some 0%Z
  | String c r =>
      if Ascii.eqb c "e" || Ascii.eqb c "E" then
        let '(neg, r1) := sign r in
        match digitpart r1 with
        | Some (ds, EmptyString) =>
            Some (if neg then (- Z_of_digits ds)%Z else Z_of_digits ds)
        | _ => None
        end
      else None
  end.

(** The binary64 number nearest to [m * 10 ^ e], a tie going to the
    even one, an infinity beyond the largest. *)
Definition scale10 (m e : Z) : pyfloat :=
  match m with
  | Zpos p =>
      match e with
      | Zneg q =>
          FloatOps.SF2Prim
            (SpecFloat.SFdiv FloatOps.prec FloatOps.emax
               (SpecFloat.S754_finite false p 0) (SpecFloat.S754_finite false (Pos.pow 10 q) 0))
      | _ =>
          FloatOps.SF2Prim
            (SpecFloat.binary_normalize FloatOps.prec FloatOps.emax (m * 10 ^ e) 0 false)
      end
  | _ => PrimFloat.zero
  end.

Definition floatnumber (s : string) : option pyfloat :=
  match number s with
  | Some (ip, fp, r) =>
      match exponent r with
      | Some e =>
          Some (scale10 (Z_of_digits (ip ++ fp)) (e - Z.of_nat (length fp)))
      | None => None
      end
  | None => None
  end.

Definition absfloatvalue (s : string) : option pyfloat :=
  let w := PyStr.lowercase s in
  if String.eqb w "inf" || String.eqb w "infinity" then Some PrimFloat.infinity
  else if String.eqb w "nan" then Some PrimFloat.nan
  else floatnumber s.

(** The text [float] reads: the string itself when it is ASCII, else
    what is made of its characters. *)
Definition ascii_text (s : string) : string :=
  if is_ascii s then s else transform (PyStr.chars s).

(** The number of an ASCII text: white space at the ends is skipped,
    the rest is a signed value of the grammar. *)
Definition from_ascii (s : string) : option pyfloat :=
  let '(negative, r) := sign (trim s) in
  option_map (fun x => if negative then PrimFloat.opp x else x) (absfloatvalue r).

(** [float(s)]; [None] is Python's [ValueError]. *)
Definition float (s : string) : option pyfloat := from_ascii (ascii_text s).

(** Decidable tests on values. *)
Definition is_finite (x : pyfloat) : bool :=
  PrimFloat.ltb (PrimFloat.abs x) PrimFloat.infinity.

Definition is_nonneg (x : pyfloat) : bool := PrimFloat.leb PrimFloat.zero x.

End PyFloat.

Import PyFloat.


(** ** BeautifulSoup: the parsed page *)

Module BS4.

Local Set Warnings "-register-all".

Inductive node : Type :=
| NavigableString (s : string)
| Tag (name : string) (contents : list node).

(** Everything below [n], in document order. *)
Fixpoint descendants (n : node) : list node :=
  match n with
  | NavigableString _ => []
  | Tag _ kids => flat_map (fun k => k :: descendants k) kids
  end.

Definition is_tag (name : string) (n : node) : bool :=
  match n with
  | Tag nm _ => String.eqb nm name
  | NavigableString _ => false
  end.

(** [n.find_all(name)] *)
Definition find_all (name : string) (n : node) : list node :=
  List.filter (is_tag name) (descendants n).

(** [n.find(name)], also written [n.name]; [None] is Python's. *)
Definition find (name : string) (n : node) : option node :=
  head (find_all name n).

(** [n.text] *)
Fixpoint text (n : node) : string :=
  match n with
  | NavigableString s => s
  | Tag _ kids => String.concat "" (map text kids)
  end.

(** [n.contents] *)
Definition contents (n : node) : list node :=
  match n with
  | Tag _ kids => kids
  | NavigableString _ => []
  end.

End BS4.

Import BS4.

(** ** Exceptions *)

Record exn : Type := Exception { kind : string; message : string }.

Definition IndexError : exn := Exception "IndexError" "list index out of range".
(** The [ValueError] of [float(s)] and the [KeyError] of a key: the
    text of either shows the string as [repr] writes it. *)
Definition ValueError (s : string) : exn :=
  Exception "ValueError" ("could not convert string to float: " ++ PyStr.repr s).
Definition KeyError (k : string) : exn := Exception "KeyError" (PyStr.repr k).
Definition TypeError (m : string) : exn := Exception "TypeError" m.

(** [l[i]] *)
Definition getitem {A : Type} (l : list A) (i : nat) : exn + A :=
  match nth_error l i with
  | Some a => inr a
  | None => inl IndexError
  end.

(** ** pandas: series and frames *)

Module Pandas.

(** What a cell of dtype [object] holds. *)
Inductive pyobj : Type :=
| OStr (s : string)
| OFloat (x : pyfloat)
| ONode (n : node).

Inductive Series : Type :=
| Float64 (xs : list pyfloat)
| Object (vs : list pyobj).

(** The columns in their order, each with its name. *)
Definition DataFrame : Type := list (string * Series).

Definition columns (df : DataFrame) : list string := map fst df.

Definition series_len (s : Series) : nat :=
  match s with
  | Float64 xs => length xs
  | Object vs => length vs
  end.

(** [len(df)] *)
Definition len (df : DataFrame) : nat :=
  match df with
  | [] => 0
  | (_, s) :: _ => series_len s
  end.

(** [df[name]] read. *)
Fixpoint lookup_column (name : string) (df : DataFrame) : option Series :=
  match df with
  | [] => None
  | (n, s) :: rest => if String.eqb n name then Some s else lookup_column name rest
  end.

Definition get_column (df : DataFrame) (name : string) : exn + Series :=
  match lookup_column name df with
  | Some s => inr s
  | None => inl (KeyError name)
  end.

(** [df[name] = s]: an existing column keeps its place, a new one goes
    last. *)
Fixpoint set_column (df : DataFrame) (name : string) (s : Series) : DataFrame :=
  match df with
  | [] => [(name, s)]
  | (n, s0) :: rest =>
      if String.eqb n name then (n, s) :: rest
      else (n, s0) :: set_column rest name s
  end.

(** [df.rename(columns={old: new})]: names change where they stand. *)
Definition rename (df : DataFrame) (old new : string) : DataFrame :=
  map (fun '(n, s) => (if String.eqb n old then new else n, s)) df.

(** [df.drop(columns=[name])] *)
Definition drop (df : DataFrame) (name : string) : exn + DataFrame :=
  match lookup_column name df with
  | Some _ => inr (List.filter (fun '(n, _) => negb (String.eqb n name)) df)
  | None => inl (KeyError ("['" ++ name ++ "'] not found in axis"))
  end.

(** [s * rate] and [s / d]: arithmetic needs numbers. *)
Definition series_mul (s : Series) (rate : pyfloat) : exn + Series :=
  match s with
  | Float64 xs => inr (Float64 (map (fun x => mul x rate) xs))
  | Object _ => inl (TypeError "can't multiply sequence by non-int of type 'float'")
  end.

Definition series_truediv (s : Series) (d : pyfloat) : exn + Series :=
  match s with
  | Float64 xs => inr (Float64 (map (fun x => truediv x d) xs))
  | Object _ => inl (TypeError "unsupported operand type(s) for /: 'str' and 'float'")
  end.

(** [s.round(2)] *)
Definition series_round2 (s : Series) : Series :=
  match s with
  | Float64 xs => Float64 (map round2 xs)
  | Object vs => Object vs
  end.

(** [s.replace({',': ''}, regex=True)]: in the strings of the series. *)
Definition series_remove_commas (s : Series) : Series :=
  match s with
  | Float64 xs => Float64 xs
  | Object vs =>
      Object (map (fun v => match v with
                            | OStr t => OStr (PyStr.replace "," "" t)
                            | _ => v
                            end) vs)
  end.

Definition astype_float_obj (v : pyobj) : exn + pyfloat :=
  match v with
  | OStr t => match float t with
              | Some x => inr x
              | None => inl (ValueError t)
              end
  | OFloat x => inr x
  | ONode _ => inl (TypeError "float() argument must be a string or a real number, not 'Tag'")
  end.

Fixpoint astype_float_list (vs : list pyobj) : exn + list pyfloat :=
  match vs with
  | [] => inr []
  | v :: rest =>
      match astype_float_obj v with
      | inl e => inl e
      | inr x => match astype_float_list rest with
                 | inl e => inl e
                 | inr xs => inr (x :: xs)
                 end
      end
  end.

(** [s.astype(float)] *)
Definition series_astype_float (s : Series) : exn + Series :=
  match s with
  | Float64 xs => inr (Float64 xs)
  | Object vs => match astype_float_list vs with
                 | inl e => inl e
                 | inr xs => inr (Float64 xs)
                 end
  end.

(** The cells of a series as objects, and the rows of a frame. *)
Definition series_cells (s : Series) : list pyobj :=
  match s with
  | Float64 xs => map OFloat xs
  | Object vs => vs
  end.

Definition row (df : DataFrame) (i : nat) : list (option pyobj) :=
  map (fun '(_, s) => nth_error (series_cells s) i) df.

Definition rows (df : DataFrame) : list (list (option pyobj)) :=
  map (row df) (seq 0 (len df)).

(** [df[name][i]] *)
Definition cell (df : DataFrame) (name : string) (i : nat) : option pyobj :=
  match lookup_column name df with
  | Some s => nth_error (series_cells s) i
  | None => None
  end.

End Pandas.

Import Pandas.

(** ** The clock *)

Record datetime : Type :=
  { year : nat; month : nat; day : nat; hour : nat; minute : nat; second : nat }.

Definition str_nat (n : nat) : string := NilZero.string_of_uint (Nat.to_uint n).

(** [%d], [%H], [%M], [%S] and [%m]: two digits. *)
Definition pad2 (n : nat) : string :=
  if (n <? 10)%nat then "0" ++ str_nat n else str_nat n.

(** [%h]: the abbreviated name of the month. *)
Definition month_abbr (m : nat) : string :=
  nth (m - 1)
    ["Jan"; "Feb"; "Mar"; "Apr"; "May"; "Jun"; "Jul"; "Aug"; "Sep"; "Oct"; "Nov"; "Dec"] "".

(** [now.strftime('%Y-%h-%d-%H:%M:%S')] *)
Definition strftime_Yhd_HMS (t : datetime) : string :=
  str_nat (year t) ++ "-" ++ month_abbr (month t) ++ "-" ++ pad2 (day t) ++ "-" ++
  pad2 (hour t) ++ ":" ++ pad2 (minute t) ++ ":" ++ pad2 (second t).

(** [asctime] under [datefmt="%Y-%m-%d %H:%M:%S"] *)
Definition strftime_Ymd_HMS (t : datetime) : string :=
  str_nat (year t) ++ "-" ++ pad2 (month t) ++ "-" ++ pad2 (day t) ++ " " ++
  pad2 (hour t) ++ ":" ++ pad2 (minute t) ++ ":" ++ pad2 (second t).

(** ** The environment and the world *)

(** What [print] was given. *)
Inductive printed : Type :=
| PText (s : string)
| PFrame (df : DataFrame).

(** A CSV file: the header and the records below it. *)
Definition csv_file : Type := list string * list (list (option pyobj)).

(** The tables of one database file, by name. *)
Abbreviation database := (gmap string DataFrame).

Record env : Type :=
  { (** [BeautifulSoup(requests.get(url).text, 'html.parser')] *)
    http_get : string -> exn + node;
    (** [pd.read_csv(path)] of the conversion file: its (Currency, Rate)
        rows *)
    read_rates : string -> exn + list (string * pyfloat);
    (** the clock at its n-th reading *)
    clock : nat -> datetime;
    (** the failure, if any, of writing the file at a path *)
    write_error : string -> option exn;
    (** the failure, if any, of [sqlite3.connect] *)
    connect_error : string -> option exn;
    (** the failure, if any, of writing a table of a database *)
    to_sql_error : string -> string -> option exn;
    (** the engine's answer to a statement over the tables it holds *)
    read_sql : string -> database -> exn + DataFrame }.

Record world : Type :=
  { (** text files written line by line *)
    logs : gmap string (list string);
    csvs : gmap string csv_file;
    databases : gmap string database;
    stdout : list printed;
    (** how often the clock was read *)
    ticks : nat }.

(** ** The monad of the scripts: environment, state and exceptions *)

Definition M (A : Type) : Type := env -> world -> (exn + A) * world.

Definition ret {A : Type} (a : A) : M A := fun _ w => (inr a, w).

Definition bind {A B : Type} (m : M A) (k : A -> M B) : M B :=
  fun e w =>
    match m e w with
    | (inl x, w') => (inl x, w')
    | (inr a, w') => k a e w'
    end.

(** [raise x] *)
Definition raise {A : Type} (x : exn) : M A := fun _ w => (inl x, w).

(** [try: m  except Exception as e: h e] *)
Definition try_except {A : Type} (m : M A) (h : exn -> M A) : M A :=
  fun e w =>
    match m e w with
    | (inl x, w') => h x e w'
    | (inr a, w') => (inr a, w')
    end.

(** A pure step that may raise. *)
Definition lift {A : Type} (r : exn + A) : M A := fun _ w => (r, w).

Declare Scope py_scope.
Delimit Scope py_scope with py.
Notation "x <- m ;; k" := (bind m (fun x => k))
  (at level 100, m at next level, right associativity) : py_scope.
Notation "m ;; k" := (bind m (fun _ => k))
  (at level 100, right associativity) : py_scope.
Local Open Scope py_scope.

(** [except Exception as e: log (prefix + str(e)); raise] *)
Definition logged {A : Type} (log : string -> M unit) (prefix : string) (m : M A) : M A :=
  try_except m (fun x => log (prefix ++ message x) ;; raise x).

(** *** Effects shared by the two scripts *)

(** [datetime.now()] *)
Definition now : M datetime :=
  fun e w =>
    (inr (clock e (ticks w)),
     {| logs := logs w; csvs := csvs w; databases := databases w;
        stdout := stdout w; ticks := S (ticks w) |}).

(** The lines of a text file; a file that does not exist has none. *)
Definition read_lines (path : string) (w : world) : list string :=
  default [] (logs w !! path).

(** A line written to a file opened for appending. *)
Definition append_line (path line : string) : M unit :=
  fun _ w =>
    (inr tt,
     {| logs := <[path := (read_lines path w ++ [line])%list]> (logs w); csvs := csvs w;
        databases := databases w; stdout := stdout w; ticks := ticks w |}).

(** [print(x)] *)
Definition print (x : printed) : M unit :=
  fun _ w =>
    (inr tt,
     {| logs := logs w; csvs := csvs w; databases := databases w;
        stdout := (stdout w ++ [x])%list; ticks := ticks w |}).

(** [requests.get(url)] and the parse of its text. *)
Definition fetch (url : string) : M node :=
  fun e w => (http_get e url, w).

(** [df.to_csv(path, index=index)]: the file is written anew, the header
    first; with [index] the row labels come as a first, unnamed column. *)
Definition csv_of (df : DataFrame) (index : bool) : csv_file :=
  if index then
    ("" :: columns df,
     map (fun i => Some (OStr (str_nat i)) :: row df i) (seq 0 (len df)))
  else (columns df, rows df).

Definition to_csv (df : DataFrame) (path : string) (index : bool) : M unit :=
  fun e w =>
    match write_error e path with
    | Some x => (inl x, w)
    | None =>
        (inr tt,
         {| logs := logs w; csvs := <[path := csv_of df index]> (csvs w);
            databases := databases w; stdout := stdout w; ticks := ticks w |})
    end.

(** A connection is the database file it was opened on. *)
Definition connection : Type := string.

Definition tables_of (db : string) (w : world) : database :=
  default ∅ (databases w !! db).

(** [sqlite3.connect(db)]: the file is created when it is not there. *)
Definition connect (db : string) : M connection :=
  fun e w =>
    match connect_error e db with
    | Some x => (inl x, w)
    | None =>
        (inr db,
         {| logs := logs w; csvs := csvs w;
            databases := <[db := tables_of db w]> (databases w);
            stdout := stdout w; ticks := ticks w |})
    end.

(** [conn.close()] *)
Definition close (conn : connection) : M unit := ret tt.

(** What [df.to_sql] does with a table that exists. *)
Inductive if_exists : Type := if_exists_fail | if_exists_replace | if_exists_append.

(** [pd.concat] of two frames of the same columns, row-wise. *)
Definition series_append (s t : Series) : Series :=
  match s, t with
  | Float64 xs, Float64 ys => Float64 (xs ++ ys)%list
  | _, _ => Object (series_cells s ++ series_cells t)%list
  end.

Definition append_rows (old new : DataFrame) : DataFrame :=
  map (fun '(n, s) => (n, match lookup_column n new with
                          | Some t => series_append s t
                          | None => s
                          end)) old.

(** [df.to_sql(table, conn, if_exists=mode, index=False)] *)
Definition to_sql (df : DataFrame) (table : string) (conn : connection)
    (mode : if_exists) : M unit :=
  fun e w =>
    match to_sql_error e conn table with
    | Some x => (inl x, w)
    | None =>
        let tables := tables_of conn w in
        let written :=
          match tables !! table, mode with
          | None, _ => inr df
          | Some _, if_exists_replace => inr df
          | Some old, if_exists_append => inr (append_rows old df)
          | Some _, if_exists_fail =>
              inl (Exception "ValueError" ("Table '" ++ table ++ "' already exists."))
          end in
        match written with
        | inl x => (inl x, w)
        | inr t =>
            (inr tt,
             {| logs := logs w; csvs := csvs w;
                databases := <[conn := <[table := t]> tables]> (databases w);
                stdout := stdout w; ticks := ticks w |})
        end
    end.

(** [pd.read_sql(statement, conn)] *)
Definition read_sql_query (statement : string) (conn : connection) : M DataFrame :=
  fun e w => (read_sql e statement (tables_of conn w), w).

(** ** [ETL_BankData.py] *)

Module Bank.

(** *** Logging, as [logging.basicConfig] sets it up *)

Definition log_file : string := "code_log.txt".

Inductive level : Type := INFO | WARNING | ERROR | CRITICAL.

Definition levelname (l : level) : string :=
  match l with
  | INFO => "INFO"
  | WARNING => "WARNING"
  | ERROR => "ERROR"
  | CRITICAL => "CRITICAL"
  end.

(** [format="%(asctime)s - %(levelname)s - %(message)s"] *)
Definition format (t : datetime) (l : level) (msg : string) : string :=
  strftime_Ymd_HMS t ++ " - " ++ levelname l ++ " - " ++ msg.

(** Every level used is at or above [level=logging.INFO]; the handler
    appends to the file. *)
Definition log (l : level) (msg : string) : M unit :=
  t <- now ;;
  append_line log_file (format t l msg).

Definition info := log INFO.
Definition warning := log WARNING.
Definition error := log ERROR.
Definition critical := log CRITICAL.

(** *** Configurations *)

Definition url : string :=
  "https://web.archive.org/web/20230908091635/https://en.wikipedia.org/wiki/List_of_largest_banks".
Definition database_file : string := "bank.db".
Definition db_table : string := "Largest_banks".
Definition csv_file_path : string := "./bank.csv".
Definition conversion_file : string := "./exchange_rate.csv".

(** *** [extract_data] *)

(** One appended dictionary: "Bank Name" and "Market Cap (USD)". *)
Abbreviation bank := (string * pyfloat)%type.

(** The body of the loop for one row: nothing for a row without cells,
    else the dictionary to append, or the exception. *)
Definition extract_row (row : node) : exn + option bank :=
  let cols := find_all "td" row in
  match cols with
  | [] => inr None
  | _ =>
      match getitem cols 1 with
      | inl x => inl x
      | inr c1 =>
          let bank_name := PyStr.strip (text c1) in
          match getitem cols 2 with
          | inl x => inl x
          | inr c2 =>
              let cleaned := PyStr.replace "," "" (PyStr.strip (text c2)) in
              match float cleaned with
              | Some market_cap_usd => inr (Some (bank_name, market_cap_usd))
              | None => inl (ValueError cleaned)
              end
          end
      end
  end.

(** [for row in rows: ...], from the list [banks] so far. *)
Fixpoint extract_rows (rows : list node) (banks : list bank) : exn + list bank :=
  match rows with
  | [] => inr banks
  | row :: rest =>
      match extract_row row with
      | inl x => inl x
      | inr None => extract_rows rest banks
      | inr (Some b) => extract_rows rest (banks ++ [b])
      end
  end.

(** [pd.DataFrame(banks)]: the keys of the dictionaries are the columns;
    of no dictionary, there is none. *)
Definition frame_of (banks : list bank) : DataFrame :=
  match banks with
  | [] => []
  | _ => [("Bank Name", Object (map (fun b => OStr (fst b)) banks));
          ("Market Cap (USD)", Float64 (map snd banks))]
  end.

(** The first table body of the page and its rows, read to the list of
    dictionaries. *)
Definition extract_banks (soup : node) : exn + list bank :=
  match getitem (find_all "tbody" soup) 0 with
  | inl x => inl x
  | inr tbody => extract_rows (find_all "tr" tbody) []
  end.

Definition extract_data (url : string) : M DataFrame :=
  info "Starting data extraction." ;;
  logged error "Error during extraction: "
    (soup <- fetch url ;;
     banks <- lift (extract_banks soup) ;;
     let df := frame_of banks in
     print (PFrame df) ;;
     info ("Extracted " ++ str_nat (len df) ++ " rows successfully.") ;;
     ret df).

(** *** [transform_data] *)

Definition currencies : list string := ["GBP"; "EUR"; "INR"].

(** [conversion_rates.loc[conversion_rates["Currency"] == currency, "Rate"]]
    and, of a selection that is not empty, [.values[0]]. *)
Fixpoint rate_of (rates : list (string * pyfloat)) (currency : string) : option pyfloat :=
  match rates with
  | [] => None
  | (c, r) :: rest => if String.eqb c currency then Some r else rate_of rest currency
  end.

Definition derived_name (currency : string) : string :=
  "Market Cap (" ++ currency ++ ")".

(** The body of the loop for one currency. *)
Definition convert (rates : list (string * pyfloat)) (df : DataFrame)
    (currency : string) : M DataFrame :=
  match rate_of rates currency with
  | Some rate =>
      usd <- lift (get_column df "Market Cap (USD)") ;;
      converted <- lift (series_mul usd rate) ;;
      ret (set_column df (derived_name currency) (series_round2 converted))
  | None =>
      warning ("No conversion rate found for " ++ currency ++ ". Skipping.") ;;
      ret df
  end.

Fixpoint convert_all (rates : list (string * pyfloat)) (df : DataFrame)
    (cs : list string) : M DataFrame :=
  match cs with
  | [] => ret df
  | c :: rest =>
      df' <- convert rates df c ;;
      convert_all rates df' rest
  end.

(** The frame is changed in place in the script; here each step hands
    on the changed frame. *)
Definition transform_data (df : DataFrame) (conversion_file : string) : M DataFrame :=
  info "Starting data transformation." ;;
  logged error "Error during transformation: "
    (conversion_rates <- (fun e w => (read_rates e conversion_file, w)) ;;
     df <- convert_all conversion_rates df currencies ;;
     usd <- lift (get_column df "Market Cap (USD)") ;;
     billions <- lift (series_truediv usd (of_Z 1000)) ;;
     let df := set_column df "Market Cap (USD)" (series_round2 billions) in
     let df := rename df "Market Cap (USD)" "MC_USD_Billion" in
     info "Data transformation completed successfully." ;;
     ret df).

(** *** Loading and querying *)

Definition load_to_csv (df : DataFrame) (file_path : string) : M unit :=
  info "Starting CSV loading." ;;
  logged error "Error during CSV loading: "
    (to_csv df file_path false ;;
     info ("Data saved to CSV file at " ++ file_path ++ ".")).

Definition load_to_db (df : DataFrame) (database_file table_name : string) : M unit :=
  info "Starting database loading." ;;
  logged error "Error during database loading: "
    (conn <- connect database_file ;;
     to_sql df table_name conn if_exists_replace ;;
     close conn ;;
     info ("Data loaded to database table '" ++ table_name ++ "'.")).

Definition run_queries (query_statement : string) (conn : connection) : M unit :=
  info ("Running query: " ++ query_statement) ;;
  logged error "Error executing query: "
    (print (PText ("Query: " ++ query_statement)) ;;
     query_result <- read_sql_query query_statement conn ;;
     print (PFrame query_result) ;;
     info "Query executed successfully.").

(** The statements under [try] in [main]. *)
Definition etl : M unit :=
  df <- extract_data url ;;
  df <- transform_data df conversion_file ;;
  load_to_csv df csv_file_path ;;
  load_to_db df database_file db_table ;;
  conn <- connect database_file ;;
  info "SQL Connection established for running queries." ;;
  run_queries "SELECT * FROM Largest_banks" conn ;;
  run_queries "SELECT AVG(`Market Cap (GBP)`) AS Avg_MC_GBP_Billion FROM Largest_banks" conn ;;
  run_queries "SELECT `Bank Name` FROM Largest_banks LIMIT 5" conn ;;
  close conn ;;
  info "ETL process and queries completed successfully.".

Definition main : M unit :=
  info "ETL process initiated." ;;
  try_except etl (fun x => critical ("ETL process failed: " ++ message x)).

End Bank.

(** ** [ETL_GDP.py] *)

Module GDP.

Definition log_file : string := "./etl_project_log.txt".

(** [log_progress]: the file is opened for appending and one line is
    written. *)
Definition log_progress (message : string) : M unit :=
  t <- now ;;
  let timestamp := strftime_Yhd_HMS t in
  append_line log_file (timestamp ++ " : " ++ message).

(** *** [extract] *)

(** [pd.DataFrame(columns=table_attribs)] *)
Definition empty_frame (table_attribs : list string) : DataFrame :=
  map (fun c => (c, Object [])) table_attribs.

(** A node as the cell of a frame: a [NavigableString] is a string, as
    the names of the countries are; a tag is kept as the object it
    is. *)
Definition obj_of_node (n : node) : pyobj :=
  match n with
  | NavigableString s => OStr s
  | Tag _ _ => ONode n
  end.

(** A value of the dictionary as [pd.DataFrame(data_dict, index=[0])]
    makes a column of it.  A string is a scalar and fills the one row.
    A tag is list-like to pandas, which takes its children for the
    values of the column: of one child that child is the cell, of none
    or of more than one the lengths of values and index differ and
    pandas raises [ValueError]. *)
Definition length_mismatch (n : nat) : exn :=
  Exception "ValueError"
    ("Length of values (" ++ str_nat n ++ ") does not match length of index (1)").

Definition cell_of (v : node) : exn + pyobj :=
  match v with
  | NavigableString s => inr (OStr s)
  | Tag _ [k] => inr (obj_of_node k)
  | Tag _ kids => inl (length_mismatch (length kids))
  end.

(** [pd.concat([df, pd.DataFrame(data_dict, index=[0])], ignore_index=True)]:
    a column of [df] takes the value of its key, or NaN when the
    dictionary has none; a key that is no column of [df] becomes a new
    last column, NaN above the new row. *)
Fixpoint dict_get (d : list (string * pyobj)) (k : string) : option pyobj :=
  match d with
  | [] => None
  | (k', v) :: rest => if String.eqb k' k then Some v else dict_get rest k
  end.

Definition concat_row (df : DataFrame) (data_dict : list (string * pyobj)) : DataFrame :=
  let n := len df in
  (map (fun '(c, s) =>
          (c, Object (series_cells s ++ [default (OFloat nan) (dict_get data_dict c)])%list))
       df
   ++
   map (fun '(k, v) => (k, Object (repeat (OFloat nan) n ++ [v])%list))
       (List.filter (fun '(k, _) => negb (existsb (String.eqb k) (columns df))) data_dict))%list.

(** The body of the loop for one row: the dictionary to append, if
    any. *)
Definition extract_row (row : node) : exn + option (list (string * pyobj)) :=
  let col := find_all "td" row in
  if (length col =? 0)%nat then inr None
  else
    match getitem col 0 with
    | inl x => inl x
    | inr c0 =>
        match find "a" c0 with
        | None => inr None
        | Some a =>
            match getitem col 2 with
            | inl x => inl x
            | inr c2 =>
                if PyStr.contains PyStr.em_dash (PyStr.strip (text c2)) then inr None
                else
                  match getitem (contents a) 0 with
                  | inl x => inl x
                  | inr first =>
                      match cell_of first with
                      | inl x => inl x
                      | inr country =>
                          inr (Some [("Country", country);
                                     ("GDP_USD_millions", OStr (PyStr.strip (text c2)))])
                      end
                  end
            end
        end
    end.

Fixpoint extract_rows (rows : list node) (df : DataFrame) : exn + DataFrame :=
  match rows with
  | [] => inr df
  | row :: rest =>
      match extract_row row with
      | inl x => inl x
      | inr None => extract_rows rest df
      | inr (Some data_dict) => extract_rows rest (concat_row df data_dict)
      end
  end.

(** The third table body of the page, read into the frame. *)
Definition extract_frame (soup : node) (table_attribs : list string) : exn + DataFrame :=
  match getitem (find_all "tbody" soup) 2 with
  | inl x => inl x
  | inr tbody => extract_rows (find_all "tr" tbody) (empty_frame table_attribs)
  end.

Definition extract (url : string) (table_attribs : list string) : M DataFrame :=
  logged log_progress "Error in data extraction: "
    (soup <- fetch url ;;
     lift (extract_frame soup table_attribs)).

(** *** [transform] *)

Definition transform (df : DataFrame) : M DataFrame :=
  logged log_progress "Error in transformation: "
    (millions <- lift (get_column df "GDP_USD_millions") ;;
     numbers <- lift (series_astype_float (series_remove_commas millions)) ;;
     billions <- lift (series_truediv numbers (of_Z 1000)) ;;
     let df := set_column df "GDP_USD_billions" billions in
     df <- lift (drop df "GDP_USD_millions") ;;
     rounded <- lift (get_column df "GDP_USD_billions") ;;
     ret (set_column df "GDP_USD_billions" (series_round2 rounded))).

(** *** Loading and querying *)

Definition load_to_csv (df : DataFrame) (csv_path : string) : M unit :=
  logged log_progress "Error in saving to CSV: "
    (to_csv df csv_path false ;;
     log_progress ("Data saved to CSV file: " ++ csv_path)).

Definition load_to_db (df : DataFrame) (sql_connection : connection)
    (table_name : string) : M unit :=
  logged log_progress "Error in saving to Database: "
    (to_sql df table_name sql_connection if_exists_replace ;;
     log_progress ("Data loaded to Database as table: " ++ table_name)).

Definition run_query (query_statement : string) (sql_connection : connection) : M unit :=
  logged log_progress "Error in running query: "
    (query_output <- read_sql_query query_statement sql_connection ;;
     print (PFrame query_output)).

Definition url : string :=
  "https://web.archive.org/web/20230902185326/https://en.wikipedia.org/wiki/List_of_countries_by_GDP_%28nominal%29".
Definition table_attribs : list string := ["Country"; "GDP_USD_millions"].
Definition db_name : string := "World_Economies.db".
Definition table_name : string := "Countries_by_GDP".
Definition csv_path : string := "./Countries_by_GDP.csv".

Definition main : M unit :=
  log_progress "Preliminaries complete. Initiating ETL process" ;;
  df <- extract url table_attribs ;;
  log_progress "Data extraction complete. Initiating Transformation process" ;;
  df <- transform df ;;
  log_progress "Data transformation complete. Initiating loading process" ;;
  load_to_csv df csv_path ;;
  sql_connection <- connect db_name ;;
  log_progress "SQL Connection initiated." ;;
  load_to_db df sql_connection table_name ;;
  let query_statement :=
    "SELECT * from " ++ table_name ++ " WHERE GDP_USD_billions >= 100" in
  run_query query_statement sql_connection ;;
  log_progress "Process Complete." ;;
  close sql_connection.

End GDP.

(** * The vocabulary of the properties *)

(** ** The log of the bank script *)

Module BankLog.
Import Bank.

(** The world once a record was logged. *)
Definition logged_world (l : level) (msg : string) (e : env) (w : world) : world :=
  snd (log l msg e w).

(** Records logged one after the other, and their lines: each carries
    the time of its own reading of the clock. *)
Fixpoint logged_all (entries : list (level * string)) (e : env) (w : world) : world :=
  match entries with
  | [] => w
  | (l, msg) :: rest => logged_all rest e (logged_world l msg e w)
  end.

Fixpoint stamp (e : env) (n : nat) (entries : list (level * string)) : list string :=
  match entries with
  | [] => []
  | (l, msg) :: rest => format (clock e n) l msg :: stamp e (S n) rest
  end.

End BankLog.

Arguments BankLog.logged_world : simpl never.

(** ** The frame [transform_data] returns *)

Module BankFrame.
Import Bank.

(** The step of the loop on the frame alone, for the column [usd] of
    magnitudes. *)
Definition apply_rate (rates : list (string * pyfloat)) (usd : list pyfloat)
    (df : DataFrame) (currency : string) : DataFrame :=
  match rate_of rates currency with
  | Some rate =>
      set_column df (derived_name currency)
        (Float64 (map (fun m => round2 (mul m rate)) usd))
  | None => df
  end.

(** The warnings of the loop. *)
Definition warnings (rates : list (string * pyfloat)) (cs : list string)
  : list (level * string) :=
  flat_map (fun c => match rate_of rates c with
                     | Some _ => []
                     | None => [(WARNING, "No conversion rate found for " ++ c ++ ". Skipping.")]
                     end) cs.

(** The frame [transform_data] returns for the dictionaries [banks] and
    the rows [rates] of the conversion file, and the records it logs on
    the way. *)
Definition transformed (banks : list bank) (rates : list (string * pyfloat)) : DataFrame :=
  let usd := map snd banks in
  rename
    (set_column (fold_left (apply_rate rates usd) currencies (frame_of banks))
       "Market Cap (USD)"
       (Float64 (map (fun m => round2 (truediv m (of_Z 1000))) usd)))
    "Market Cap (USD)" "MC_USD_Billion".

Definition transform_entries (rates : list (string * pyfloat)) : list (level * string) :=
  ((INFO, "Starting data transformation.") :: warnings rates currencies ++
   [(INFO, "Data transformation completed successfully.")])%list.

(** The conversion file has a rate for the currency. *)
Definition found (rates : list (string * pyfloat)) (c : string) : bool :=
  match rate_of rates c with
  | Some _ => true
  | None => false
  end.

End BankFrame.

(** ** The frame [extract] builds *)

Module GDPFrame.
Import GDP.

(** A record of the extracted frame: the country and the text of the
    numeric cell. *)
Abbreviation record := (pyobj * string)%type.

Definition frame_of (records : list record) : DataFrame :=
  [("Country", Object (map fst records));
   ("GDP_USD_millions", Object (map (fun r => OStr (snd r)) records))].

(** The text [transform] hands to [float]. *)
Definition cleaned (r : record) : string := PyStr.replace "," "" (snd r).

End GDPFrame.

(** ** Rows and the records read from them *)

Module Rows.

(** The numeric cell of a row is its third, in both scripts. *)
Definition numeric_cell (row : node) : option node :=
  nth_error (find_all "td" row) 2.

(** The numeric cell holds the "no data" marker. *)
Definition has_sentinel (row : node) : bool :=
  match numeric_cell row with
  | Some c => PyStr.contains PyStr.em_dash (PyStr.strip (text c))
  | None => false
  end.

(** The row a dictionary of the bank script was read from. *)
Definition bank_from_row (row : node) (b : Bank.bank) : Prop :=
  exists c1 c2,
    nth_error (find_all "td" row) 1 = Some c1 /\
    nth_error (find_all "td" row) 2 = Some c2 /\
    fst b = PyStr.strip (text c1) /\
    float (PyStr.replace "," "" (PyStr.strip (text c2))) = Some (snd b).

(** The row a record of the GDP script was read from. *)
Definition gdp_from_row (row : node) (r : GDPFrame.record) : Prop :=
  exists c0 c2 a first,
    nth_error (find_all "td" row) 0 = Some c0 /\
    nth_error (find_all "td" row) 2 = Some c2 /\
    find "a" c0 = Some a /\
    nth_error (contents a) 0 = Some first /\
    PyStr.contains PyStr.em_dash (PyStr.strip (text c2)) = false /\
    GDP.cell_of first = inr (fst r) /\
    snd r = PyStr.strip (text c2).

(** What the specification asks of a record: a name that is not blank
    and a finite number that is not negative. *)
Definition record_invariant (b : Bank.bank) : Prop :=
  PyStr.strip (fst b) <> "" /\ is_finite (snd b) = true /\ is_nonneg (snd b) = true.

End Rows.

(** ** The discipline of the log files *)

Module LogDiscipline.

(** [m] appends lines of the form [P] to the file at [path] and leaves
    every other text file as it is. *)
Definition appends (path : string) (P : string -> Prop) {A : Type} (m : M A) : Prop :=
  forall e w, exists added,
    read_lines path (snd (m e w)) = (read_lines path w ++ added)%list /\
    Forall P added /\
    forall p, p <> path -> logs (snd (m e w)) !! p = logs w !! p.

(** The lines of the two scripts. *)
Definition gdp_line (line : string) : Prop :=
  exists t message, line = strftime_Yhd_HMS t ++ " : " ++ message.

Definition bank_line (line : string) : Prop :=
  exists t l message,
    line = strftime_Ymd_HMS t ++ " - " ++ Bank.levelname l ++ " - " ++ message.

(** The form the specification gives every line. *)
Definition timestamp_colon_message (line : string) : Prop :=
  exists timestamp message, line = timestamp ++ " : " ++ message.

End LogDiscipline.

(** ** The store *)

Module Store.

(** The databases once [df] was written as [table] of [db]. *)
Definition written (df : DataFrame) (db table : string) (w : world)
  : gmap string database :=
  <[db := <[table := df]> (tables_of db w)]> (databases w).

End Store.

(** ** Pages, environments and worlds to run the scripts on *)

Module Scenario.

Definition td (s : string) : node := Tag "td" [NavigableString s].
Definition th (s : string) : node := Tag "th" [NavigableString s].
Definition tr (cells : list string) : node := Tag "tr" (map td cells).
Definition tbody (rows : list node) : node := Tag "table" [Tag "tbody" rows].
Definition page (tables : list node) : node :=
  Tag "[document]" [Tag "html" [Tag "body" tables]].

(** The three rows of the specification's scenario, each behind the
    rank the bank table has as first cell. *)
Definition bank_a : node := tr ["1"; "Bank A"; "1,000.00"].
Definition bank_b : node := tr ["2"; "Bank B"; "—"].
Definition bank_c : node := tr ["3"; "Bank C"; "500.50"].
Definition heading : node := Tag "tr" [th "Rank"; th "Bank name"; th "Market cap"].

(** U+00A0, the no-break space, and a row whose name and number stand
    between two of them. *)
Definition nbsp : string := String (ascii_of_nat 194) (String (ascii_of_nat 160) "").

Definition padded : node :=
  tr ["1"; nbsp ++ " Bank A" ++ nbsp; nbsp ++ "1,234" ++ nbsp].

(** A row with a blank name and a negative number. *)
Definition blank_negative : node := tr ["7"; "  "; "-5"].

(** Rows of the GDP table: the country is a link in the first cell. *)
Definition country (name estimate : string) : node :=
  Tag "tr" [Tag "td" [Tag "a" [NavigableString name]]; td "Region"; td estimate].

Definition gdp_page (rows : list node) : node :=
  page [tbody []; tbody []; tbody rows].

(** Rows whose link begins with a tag: the picture of a flag, which has
    no child, and a name set in bold. *)
Definition flag_only (estimate : string) : node :=
  Tag "tr" [Tag "td" [Tag "a" [Tag "img" []]]; td "Region"; td estimate].

Definition bold (name estimate : string) : node :=
  Tag "tr" [Tag "td" [Tag "a" [Tag "b" [NavigableString name]]]; td "Region"; td estimate].

Definition noon : datetime :=
  {| year := 2023; month := 9; day := 8; hour := 12; minute := 0; second := 0 |}.

(** The page is served, the conversion file holds [rates], nothing
    fails. *)
Definition env_of (doc : node) (rates : list (string * pyfloat)) : env :=
  {| http_get := fun _ => inr doc;
     read_rates := fun _ => inr rates;
     clock := fun _ => noon;
     write_error := fun _ => None;
     connect_error := fun _ => None;
     to_sql_error := fun _ _ => None;
     read_sql := fun _ _ => inr [] |}.

(** The archive does not answer. *)
Definition unreachable : exn :=
  Exception "ConnectionError" "Max retries exceeded".

Definition env_down : env :=
  {| http_get := fun _ => inl unreachable;
     read_rates := fun _ => inr [];
     clock := fun _ => noon;
     write_error := fun _ => None;
     connect_error := fun _ => None;
     to_sql_error := fun _ _ => None;
     read_sql := fun _ _ => inr [] |}.

(** Nothing written yet. *)
Definition nothing : world :=
  {| logs := ∅; csvs := ∅; databases := ∅; stdout := []; ticks := 0 |}.

Definition gbp_only : list (string * pyfloat) := [("GBP", 0.79%float)].

End Scenario.

(** ** The log of the GDP script *)

Module GDPLog.

(** The world once [log_progress] wrote a line. *)
Definition logged_world (message : string) (e : env) (w : world) : world :=
  snd (GDP.log_progress message e w).

End GDPLog.

Arguments GDPLog.logged_world : simpl never.

(** ** The rows the extractors make records of *)

Module Selection.

(** The row has cells: the test [if cols:] of the bank script. *)
Definition has_cells (row : node) : bool :=
  match find_all "td" row with
  | [] => false
  | _ :: _ => true
  end.

(** The row passes the tests of the GDP script: it has cells, its first
    cell holds a link and its numeric cell has no em-dash. *)
Definition qualifies (row : node) : bool :=
  match find_all "td" row with
  | [] => false
  | c0 :: _ =>
      match find "a" c0 with
      | None => false
      | Some _ => negb (Rows.has_sentinel row)
      end
  end.

End Selection.

(** ** What a step leaves as it is *)

Module Effects.

(** Whatever the environment and the world [m] starts in, the world it
    ends in is related to that one by [R]. *)
Definition keeps (R : world -> world -> Prop) {A : Type} (m : M A) : Prop :=
  forall e w, R w (snd (m e w)).

(** The files and the tables of [w'] are those of [w]. *)
Definition same_store (w w' : world) : Prop :=
  csvs w' = csvs w /\ forall db, tables_of db w' = tables_of db w.

(** The same but for the table [table] of the database [db]. *)
Definition same_but_table (db table : string) (w w' : world) : Prop :=
  csvs w' = csvs w /\
  forall db' table', db' <> db \/ table' <> table ->
    tables_of db' w' !! table' = tables_of db' w !! table'.

(** The same but for the file at [path]. *)
Definition same_but_file (path : string) (w w' : world) : Prop :=
  (forall p, p <> path -> csvs w' !! p = csvs w !! p) /\
  forall db, tables_of db w' = tables_of db w.

(** The last line of a text file. *)
Definition last_line (path : string) (w : world) : option string :=
  last (read_lines path w).

(** No line was written and the clock was not read. *)
Definition same_log (w w' : world) : Prop :=
  logs w' = logs w /\ ticks w' = ticks w.

(** The lines of the records [xs], each with its own reading of the
    clock, the first with the [n]-th. *)
Fixpoint stamped {X : Type} (line : datetime -> X -> string) (e : env) (n : nat)
    (xs : list X) : list string :=
  match xs with
  | [] => []
  | x :: rest => line (clock e n) x :: stamped line e (S n) rest
  end.

(** From [w] to [w'] the records [xs] were appended to the file at
    [path], and nothing else was written to it. *)
Definition wrote {X : Type} (path : string) (line : datetime -> X -> string) (e : env)
    (xs : list X) (w w' : world) : Prop :=
  read_lines path w' = (read_lines path w ++ stamped line e (ticks w) xs)%list /\
  ticks w' = ticks w + length xs.

End Effects.

(** ** Texts without white space at their ends *)

Module Trimmed.

(** No white space at either end of [s]. *)
Definition trimmed (s : string) : Prop :=
  (forall c, head (PyStr.chars s) = Some c -> PyStr.is_space (fst c) = false) /\
  (forall c, last (PyStr.chars s) = Some c -> PyStr.is_space (fst c) = false).

End Trimmed.

(** ** Values in hundredths *)

Module Hundredths.







End Hundredths.

(** ** The messages of the stages *)

Module Stages.

(** What the handlers of the GDP script put before the text of the
    exception. *)
Definition gdp_prefixes : list string :=
  ["Error in data extraction: "; "Error in transformation: "; "Error in saving to CSV: ";
   "Error in saving to Database: "; "Error in running query: "].

(** A record of the bank script and a message of the GDP script, as
    the line written at the time [t]. *)
Definition bank_record (t : datetime) (entry : Bank.level * string) : string :=
  Bank.format t (fst entry) (snd entry).

Definition gdp_message (t : datetime) (message : string) : string :=
  strftime_Yhd_HMS t ++ " : " ++ message.

(** The records, or the messages, appended to the log of a script. *)
Abbreviation bank_wrote := (Effects.wrote Bank.log_file bank_record).
Abbreviation gdp_wrote := (Effects.wrote GDP.log_file gdp_message).

(** The records of a run of the bank script in which nothing fails,
    for [n] rows extracted and the rows [rates] of the conversion
    file. *)
Definition bank_entries (n : nat) (rates : list (string * pyfloat))
  : list (Bank.level * string) :=
  ([(Bank.INFO, "ETL process initiated.");
    (Bank.INFO, "Starting data extraction.");
    (Bank.INFO, ("Extracted " ++ str_nat n ++ " rows successfully.")%string)] ++
   BankFrame.transform_entries rates ++
   [(Bank.INFO, "Starting CSV loading.");
    (Bank.INFO, ("Data saved to CSV file at " ++ Bank.csv_file_path ++ ".")%string);
    (Bank.INFO, "Starting database loading.");
    (Bank.INFO, ("Data loaded to database table '" ++ Bank.db_table ++ "'.")%string);
    (Bank.INFO, "SQL Connection established for running queries.");
    (Bank.INFO, "Running query: SELECT * FROM Largest_banks");
    (Bank.INFO, "Query executed successfully.");
    (Bank.INFO,
     "Running query: SELECT AVG(`Market Cap (GBP)`) AS Avg_MC_GBP_Billion FROM Largest_banks");
    (Bank.INFO, "Query executed successfully.");
    (Bank.INFO, "Running query: SELECT `Bank Name` FROM Largest_banks LIMIT 5");
    (Bank.INFO, "Query executed successfully.");
    (Bank.INFO, "ETL process and queries completed successfully.")])%list.

(** The messages of a run of the GDP script in which nothing fails. *)
Definition gdp_messages : list string :=
  ["Preliminaries complete. Initiating ETL process";
   "Data extraction complete. Initiating Transformation process";
   "Data transformation complete. Initiating loading process";
   "Data saved to CSV file: " ++ GDP.csv_path;
   "SQL Connection initiated.";
   "Data loaded to Database as table: " ++ GDP.table_name;
   "Process Complete."].

End Stages.

(** * Lemmas *)

Local Open Scope py_scope.

(** ** Running the monad *)

Section Run.
Context {A B : Type}.

Lemma bind_inr (m : M A) (k : A -> M B) e w a w1 :
  m e w = (inr a, w1) -> bind m k e w = k a e w1.
Proof. intros H. unfold bind. now rewrite H. Qed.

Lemma bind_inl (m : M A) (k : A -> M B) e w x w1 :
  m e w = (inl x, w1) -> bind m k e w = (inl x, w1).
Proof. intros H. unfold bind. now rewrite H. Qed.

Lemma try_except_inr (m : M A) h e w a w1 :
  m e w = (inr a, w1) -> try_except m h e w = (inr a, w1).
Proof. intros H. unfold try_except. now rewrite H. Qed.

Lemma try_except_inl (m : M A) h e w x w1 :
  m e w = (inl x, w1) -> try_except m h e w = h x e w1.
Proof. intros H. unfold try_except. now rewrite H. Qed.

End Run.

Lemma getitem_inr {A : Type} (l : list A) i a :
  getitem l i = inr a -> nth_error l i = Some a.
Proof. unfold getitem. destruct (nth_error l i); congruence. Qed.

Lemma getitem_Some {A : Type} (l : list A) i a :
  nth_error l i = Some a -> getitem l i = inr a.
Proof. unfold getitem. now intros ->. Qed.

(** ** The log of the bank script *)

Section BankLogLemmas.
Import Bank BankLog.

Lemma log_run l msg e w : log l msg e w = (inr tt, logged_world l msg e w).
Proof. reflexivity. Qed.

Lemma read_lines_logged l msg e w :
  read_lines log_file (logged_world l msg e w) =
  (read_lines log_file w ++ [format (clock e (ticks w)) l msg])%list.
Proof.
  unfold logged_world, log, bind, now, append_line, read_lines. cbn.
  now rewrite lookup_insert_eq.
Qed.

Lemma ticks_logged l msg e w : ticks (logged_world l msg e w) = S (ticks w).
Proof. reflexivity. Qed.

Lemma read_lines_logged_all entries e w :
  read_lines log_file (logged_all entries e w) =
  (read_lines log_file w ++ stamp e (ticks w) entries)%list.
Proof.
  revert w. induction entries as [|[l msg] rest IH]; intros w; simpl.
  - now rewrite app_nil_r.
  - rewrite IH, read_lines_logged, ticks_logged, <- app_assoc. reflexivity.
Qed.

Lemma logged_all_app es1 es2 e w :
  logged_all (es1 ++ es2) e w = logged_all es2 e (logged_all es1 e w).
Proof.
  revert w. induction es1 as [|[l msg] rest IH]; intros w; simpl; [reflexivity|apply IH].
Qed.

Lemma stamp_In e n entries l msg :
  In (l, msg) entries -> exists t, In (format t l msg) (stamp e n entries).
Proof.
  revert n. induction entries as [|[l' msg'] rest IH]; intros n; simpl; [tauto|].
  intros [H|H].
  - inversion H; subst. eauto.
  - destruct (IH (S n) H) as [t Ht]. eauto.
Qed.

End BankLogLemmas.

(** ** Frames *)

Section Frames.

Lemma lookup_set_column_eq df name s :
  lookup_column name (set_column df name s) = Some s.
Proof.
  induction df as [|[n s0] rest IH]; simpl.
  - now rewrite String.eqb_refl.
  - destruct (String.eqb n name) eqn:E; simpl; rewrite E; [reflexivity|apply IH].
Qed.

Lemma lookup_set_column_ne df name name' s :
  name <> name' ->
  lookup_column name' (set_column df name s) = lookup_column name' df.
Proof.
  intros Hne. induction df as [|[n s0] rest IH]; simpl.
  - destruct (String.eqb name name') eqn:E; [|reflexivity].
    apply String.eqb_eq in E. contradiction.
  - destruct (String.eqb n name) eqn:E; simpl.
    + apply String.eqb_eq in E. subst n.
      destruct (String.eqb name name') eqn:E'; [|reflexivity].
      apply String.eqb_eq in E'. contradiction.
    + now rewrite IH.
Qed.

Lemma lookup_column_None name df :
  lookup_column name df = None -> ~ In name (columns df).
Proof.
  induction df as [|[n s] rest IH]; simpl; [tauto|].
  destruct (String.eqb n name) eqn:E; [discriminate|].
  intros H [Hn|Hn]; [|now apply IH].
  subst n. now rewrite String.eqb_refl in E.
Qed.

End Frames.

(** ** [transform_data] on the frame [extract_data] returns *)

Section BankTransform.
Import Bank BankLog BankFrame.

Lemma derived_name_not_usd c : c <> "USD" -> derived_name c <> "Market Cap (USD)".
Proof.
  intros Hc H. apply Hc. unfold derived_name in H. simpl in H.
  injection H as H. simpl in H.
  do 3 (destruct c as [|? c]; [discriminate|]; simpl in H; injection H as -> H).
  destruct c as [|? c]; [reflexivity|].
  simpl in H. injection H as _ H. destruct c; discriminate.
Qed.

Lemma convert_all_run rates usd cs : forall df e w,
  lookup_column "Market Cap (USD)" df = Some (Float64 usd) ->
  ~ In "USD" cs ->
  convert_all rates df cs e w =
  (inr (fold_left (apply_rate rates usd) cs df), logged_all (warnings rates cs) e w).
Proof.
  induction cs as [|c rest IH]; intros df e w Hdf Hcs; [reflexivity|].
  simpl in Hcs. simpl convert_all. unfold warnings. simpl flat_map. simpl fold_left.
  unfold apply_rate at 2. unfold convert at 1.
  destruct (rate_of rates c) as [rate|] eqn:Hr.
  - unfold get_column. rewrite Hdf.
    unfold bind, lift, ret. cbn [series_mul series_round2]. rewrite map_map.
    apply IH; [|tauto].
    rewrite lookup_set_column_ne; [assumption|].
    apply derived_name_not_usd. intros ->. tauto.
  - unfold warning. erewrite bind_inr; [|erewrite bind_inr; [reflexivity|apply log_run]].
    rewrite logged_all_app. simpl logged_all at 2. apply IH; [assumption|tauto].
Qed.

Lemma lookup_usd_apply_rates rates usd cs : forall df,
  ~ In "USD" cs ->
  lookup_column "Market Cap (USD)" (fold_left (apply_rate rates usd) cs df) =
  lookup_column "Market Cap (USD)" df.
Proof.
  induction cs as [|c rest IH]; intros df Hcs; [reflexivity|].
  simpl in Hcs. simpl. rewrite IH by tauto.
  unfold apply_rate. destruct (rate_of rates c); [|reflexivity].
  apply lookup_set_column_ne, derived_name_not_usd. intros ->. tauto.
Qed.

Lemma usd_not_requested : ~ In "USD" currencies.
Proof. simpl. intros [H|[H|[H|[]]]]; discriminate. Qed.

Lemma lookup_usd_frame_of b banks :
  lookup_column "Market Cap (USD)" (frame_of (b :: banks)) =
  Some (Float64 (map snd (b :: banks))).
Proof. reflexivity. Qed.

(** The run of [transform_data] on a frame of at least one dictionary. *)
Lemma transform_data_run banks rates e w :
  banks <> [] ->
  read_rates e conversion_file = inr rates ->
  transform_data (frame_of banks) conversion_file e w =
  (inr (transformed banks rates), logged_all (transform_entries rates) e w).
Proof.
  intros Hne Hrates. destruct banks as [|b banks]; [contradiction|].
  unfold transform_data, info, logged.
  erewrite bind_inr by apply log_run.
  erewrite try_except_inr; [reflexivity|].
  erewrite bind_inr by (rewrite Hrates; reflexivity).
  erewrite bind_inr
    by (apply convert_all_run; [apply lookup_usd_frame_of|apply usd_not_requested]).
  unfold get_column.
  rewrite lookup_usd_apply_rates, lookup_usd_frame_of by apply usd_not_requested.
  unfold bind at 1. unfold lift at 1. cbv beta iota.
  unfold bind at 1. unfold lift at 1. cbn [series_truediv]. cbv beta iota.
  erewrite bind_inr by apply log_run.
  unfold ret, transformed, transform_entries.
  cbn [series_round2]. rewrite map_map.
  change ((INFO, "Starting data transformation.") ::
          warnings rates currencies ++ [(INFO, "Data transformation completed successfully.")])%list
    with ([(INFO, "Starting data transformation.")] ++
          warnings rates currencies ++ [(INFO, "Data transformation completed successfully.")])%list.
  rewrite !logged_all_app. reflexivity.
Qed.

(** The frame of no dictionary has no column to convert: [KeyError],
    unless the conversion file itself cannot be read. *)
Lemma transform_data_empty e w :
  exists w', transform_data (frame_of []) conversion_file e w =
             (inl (match read_rates e conversion_file with
                   | inl x => x
                   | inr _ => KeyError "Market Cap (USD)"
                   end), w').
Proof.
  unfold transform_data, info, logged.
  erewrite bind_inr by apply log_run.
  destruct (read_rates e conversion_file) as [x|rates] eqn:Hrates.
  - erewrite try_except_inl by (erewrite bind_inl by (rewrite Hrates; reflexivity); reflexivity).
    unfold error. erewrite bind_inr by apply log_run. unfold raise. eauto.
  - unfold currencies, convert_all, convert.
    unfold try_except, bind. rewrite Hrates.
    destruct (rate_of rates "GBP"), (rate_of rates "EUR"), (rate_of rates "INR");
      cbn; eauto.
Qed.

Lemma columns_transformed b banks rates :
  columns (transformed (b :: banks) rates) =
  "Bank Name" :: "MC_USD_Billion" ::
    map derived_name (List.filter (found rates) currencies).
Proof.
  unfold transformed, currencies, found, apply_rate. simpl fold_left. simpl List.filter.
  destruct (rate_of rates "GBP"), (rate_of rates "EUR"), (rate_of rates "INR");
    reflexivity.
Qed.

Lemma lookup_transformed_name b banks rates :
  lookup_column "Bank Name" (transformed (b :: banks) rates) =
  Some (Object (map (fun b => OStr (fst b)) (b :: banks))).
Proof.
  unfold transformed, currencies, apply_rate. simpl fold_left.
  destruct (rate_of rates "GBP"), (rate_of rates "EUR"), (rate_of rates "INR");
    reflexivity.
Qed.

Lemma lookup_transformed_usd b banks rates :
  lookup_column "MC_USD_Billion" (transformed (b :: banks) rates) =
  Some (Float64 (map (fun m => round2 (truediv m (of_Z 1000))) (map snd (b :: banks)))).
Proof.
  unfold transformed, currencies, apply_rate. simpl fold_left.
  destruct (rate_of rates "GBP"), (rate_of rates "EUR"), (rate_of rates "INR");
    reflexivity.
Qed.

Lemma lookup_transformed_found b banks rates c r :
  In c currencies ->
  rate_of rates c = Some r ->
  lookup_column (derived_name c) (transformed (b :: banks) rates) =
  Some (Float64 (map (fun m => round2 (mul m r)) (map snd (b :: banks)))).
Proof.
  intros Hc Hr. unfold transformed, currencies, apply_rate. simpl fold_left.
  simpl in Hc. destruct Hc as [<-|[<-|[<-|[]]]]; rewrite Hr;
    repeat match goal with
           | |- context [rate_of rates ?c] => destruct (rate_of rates c)
           end; reflexivity.
Qed.

Lemma lookup_transformed_missing b banks rates c :
  In c currencies ->
  rate_of rates c = None ->
  lookup_column (derived_name c) (transformed (b :: banks) rates) = None.
Proof.
  intros Hc Hr. unfold transformed, currencies, apply_rate. simpl fold_left.
  simpl in Hc. destruct Hc as [<-|[<-|[<-|[]]]]; rewrite Hr;
    repeat match goal with
           | |- context [rate_of rates ?c] => destruct (rate_of rates c)
           end; reflexivity.
Qed.

Lemma nth_error_cells_float (f : pyfloat -> pyfloat) (banks : list bank) i name m :
  nth_error banks i = Some (name, m) ->
  nth_error (series_cells (Float64 (map f (map snd banks)))) i = Some (OFloat (f m)).
Proof.
  intros H. simpl. rewrite !nth_error_map, H. reflexivity.
Qed.

Lemma warning_logged rates c :
  In c currencies -> rate_of rates c = None ->
  In (WARNING, "No conversion rate found for " ++ c ++ ". Skipping.")
     (transform_entries rates).
Proof.
  intros Hc Hr. unfold transform_entries. right. apply in_or_app. left.
  unfold warnings. apply in_flat_map. exists c. split; [assumption|].
  rewrite Hr. now left.
Qed.

End BankTransform.

(** ** The GDP script on its own frame *)

Section GDPFrameLemmas.
Import GDP GDPFrame Rows.

Lemma empty_frame_attribs : empty_frame table_attribs = frame_of [].
Proof. reflexivity. Qed.

Lemma concat_row_frame_of records country millions :
  concat_row (frame_of records)
    [("Country", country); ("GDP_USD_millions", OStr millions)] =
  frame_of (records ++ [(country, millions)]).
Proof. unfold frame_of. rewrite !map_app. reflexivity. Qed.

Lemma gdp_extract_row_Some row d :
  extract_row row = inr (Some d) ->
  exists r, gdp_from_row row r /\
            d = [("Country", fst r); ("GDP_USD_millions", OStr (snd r))].
Proof.
  unfold extract_row.
  destruct (length (find_all "td" row) =? 0)%nat; [discriminate|].
  destruct (getitem (find_all "td" row) 0) as [|c0] eqn:H0; [discriminate|].
  destruct (find "a" c0) as [a|] eqn:Ha; [|discriminate].
  destruct (getitem (find_all "td" row) 2) as [|c2] eqn:H2; [discriminate|].
  destruct (PyStr.contains _ _) eqn:Hd; [discriminate|].
  destruct (getitem (contents a) 0) as [|first] eqn:Hf; [discriminate|].
  destruct (cell_of first) as [|country] eqn:Hc; [discriminate|].
  intros H. injection H as <-.
  exists (country, PyStr.strip (text c2)). split; [|reflexivity].
  exists c0, c2, a, first. repeat split; auto using getitem_inr.
Qed.

Lemma gdp_extract_rows_frame_of rows : forall records df,
  extract_rows rows (frame_of records) = inr df ->
  exists new, df = frame_of (records ++ new) /\
              Forall (fun r => exists row, In row rows /\ gdp_from_row row r) new.
Proof.
  induction rows as [|row rest IH]; intros records df H; simpl in H.
  - injection H as <-. exists []. rewrite app_nil_r. split; [reflexivity|constructor].
  - destruct (extract_row row) as [x|[d|]] eqn:Hrow; [discriminate| |].
    + destruct (gdp_extract_row_Some _ _ Hrow) as [[country millions] [Hfrom ->]].
      simpl in H. rewrite concat_row_frame_of in H.
      destruct (IH _ _ H) as [new [-> Hnew]].
      exists ((country, millions) :: new). split.
      * now rewrite <- app_assoc.
      * constructor; [exists row; split; [now left|assumption]|].
        eapply Forall_impl; [exact Hnew|].
        intros r [row' [Hin Hr]]. exists row'. split; [now right|assumption].
    + destruct (IH _ _ H) as [new [-> Hnew]]. exists new. split; [reflexivity|].
      eapply Forall_impl; [exact Hnew|].
      intros r [row' [Hin Hr]]. exists row'. split; [now right|assumption].
Qed.

(** [astype(float)] over the texts of a column. *)
Lemma astype_float_texts texts : forall ms,
  Forall2 (fun t m => float t = Some m) texts ms ->
  astype_float_list (map OStr texts) = inr ms.
Proof.
  induction texts as [|t rest IH]; intros ms H; inversion H; subst; simpl.
  - reflexivity.
  - match goal with Hf : float t = Some _ |- _ => rewrite Hf end.
    now rewrite (IH _ ltac:(eassumption)).
Qed.

(** [transform] on an extracted frame whose numeric texts all read as
    numbers. *)
Lemma gdp_transform_run records ms e w :
  Forall2 (fun r m => float (cleaned r) = Some m) records ms ->
  transform (frame_of records) e w =
  (inr [("Country", Object (map fst records));
        ("GDP_USD_billions",
         Float64 (map (fun m => round2 (truediv m (of_Z 1000))) ms))], w).
Proof.
  intros H. unfold transform, logged.
  erewrite try_except_inr; [reflexivity|].
  unfold bind, lift, ret.
  change (get_column (frame_of records) "GDP_USD_millions")
    with (@inr exn _ (Object (map (fun r : record => OStr (snd r)) records))).
  unfold series_remove_commas, series_astype_float. cbv beta iota.
  rewrite map_map.
  assert (Ht : astype_float_list
                 (map (fun x : record => OStr (PyStr.replace "," "" (snd x))) records)
               = inr ms).
  { rewrite <- (map_map cleaned OStr). apply astype_float_texts.
    clear -H. induction H; simpl; constructor; auto. }
  rewrite Ht. cbn. rewrite map_map. reflexivity.
Qed.

(** A sentinel row is passed over. *)
Lemma gdp_extract_row_sentinel row :
  has_sentinel row = true -> extract_row row = inr None.
Proof.
  unfold has_sentinel, numeric_cell, extract_row.
  destruct (nth_error (find_all "td" row) 2) as [c2|] eqn:H2; [|discriminate].
  intros Hd.
  destruct (find_all "td" row) as [|c0 rest] eqn:Hcols; [discriminate|].
  simpl length. simpl Nat.eqb. cbv iota.
  change (getitem (c0 :: rest) 0) with (@inr exn _ c0). cbv iota.
  destruct (find "a" c0); [|reflexivity].
  rewrite (getitem_Some _ _ _ H2). now rewrite Hd.
Qed.

Lemma gdp_extract_rows_filter rows : forall df,
  extract_rows rows df =
  extract_rows (List.filter (fun r => negb (has_sentinel r)) rows) df.
Proof.
  induction rows as [|row rest IH]; intros df; [reflexivity|].
  simpl. destruct (has_sentinel row) eqn:Hs; simpl.
  - rewrite (gdp_extract_row_sentinel _ Hs). apply IH.
  - destruct (extract_row row) as [x|[d|]]; [reflexivity|apply IH|apply IH].
Qed.

End GDPFrameLemmas.

(** ** What [float] does not read *)

Section FloatSyntax.
Import PyStr.

Lemma contains_has_char a sub s :
  contains (String a sub) s = true -> has_char a s = true.
Proof.
  induction s as [|b s IH]; simpl; [discriminate|].
  destruct (Ascii.ascii_dec a b) as [->|Hne].
  - now rewrite Ascii.eqb_refl.
  - rewrite orb_true_iff. intros [H|H]; [exfalso|rewrite (IH H); apply orb_true_r].
    destruct (Ascii.ascii_dec a b); [contradiction|discriminate].
Qed.

(** A character that is no part of the syntax of a float, such as the
    bytes of the em-dash. *)
Section Foreign.
Variable c : ascii.
Hypothesis c_not_space : is_pyspace c = false.
Hypothesis c_not_digit : digit_of c = None.
Hypothesis c_not_mark : has_char c "_.eE+-" = false.
Hypothesis c_lower : lower c = c.
Hypothesis c_not_letter : has_char c "infinityan" = false.

Lemma head_not_foreign a s (P : ascii -> bool) :
  P c = false -> P a = true ->
  has_char c (String a s) = true -> has_char c s = true.
Proof.
  intros Hc Ha. simpl. destruct (Ascii.eqb a c) eqn:E; [|trivial].
  apply Ascii.eqb_eq in E. subst a. congruence.
Qed.

Lemma has_char_ltrim s : has_char c s = true -> has_char c (ltrim s) = true.
Proof.
  induction s as [|a s IH]; simpl; [trivial|].
  destruct (is_pyspace a) eqn:Ha; [|trivial].
  intros H. apply IH. revert H. apply (head_not_foreign a s is_pyspace); assumption.
Qed.

Lemma has_char_rtrim s : has_char c s = true -> has_char c (rtrim s) = true.
Proof.
  induction s as [|a s IH]; simpl; [trivial|].
  destruct (Ascii.eqb a c) eqn:E; simpl.
  - intros _. apply Ascii.eqb_eq in E. subst a.
    destruct (rtrim s); [rewrite c_not_space|]; simpl; now rewrite Ascii.eqb_refl.
  - intros H. specialize (IH H).
    destruct (rtrim s); [discriminate|]. simpl. simpl in IH. rewrite IH.
    apply orb_true_r.
Qed.

Lemma has_char_trim s : has_char c s = true -> has_char c (trim s) = true.
Proof. intros H. apply has_char_rtrim, has_char_ltrim, H. Qed.

Lemma digit_not_foreign a d s :
  digit_of a = Some d -> has_char c (String a s) = true -> has_char c s = true.
Proof.
  intros Hd.
  apply (head_not_foreign a s
           (fun a => match digit_of a with Some _ => true | None => false end)).
  - now rewrite c_not_digit.
  - now rewrite Hd.
Qed.

Lemma mark_not_foreign m a s :
  has_char m "_.eE+-" = true -> Ascii.eqb a m = true ->
  has_char c (String a s) = true -> has_char c s = true.
Proof.
  intros Hm Ha. apply Ascii.eqb_eq in Ha. subst a.
  apply (head_not_foreign m s (fun a => has_char a "_.eE+-")); assumption.
Qed.

Lemma digits_tail_keeps n : forall s,
  String.length s <= n ->
  has_char c s = true -> has_char c (snd (digits_tail s)) = true.
Proof.
  induction n as [|n IH]; intros [|a s1] Hlen Hs; simpl in Hlen;
    try discriminate; try lia.
  simpl digits_tail.
  destruct (digit_of a) as [d|] eqn:Hd.
  - apply (digit_not_foreign _ _ _ Hd) in Hs.
    specialize (IH s1 ltac:(lia) Hs).
    destruct (digits_tail s1). exact IH.
  - destruct (Ascii.eqb a "_") eqn:Hu; [|exact Hs].
    destruct s1 as [|a2 s2]; [exact Hs|].
    destruct (digit_of a2) as [d|] eqn:Hd2; [|exact Hs].
    apply (mark_not_foreign "_" _ _ eq_refl Hu) in Hs.
    apply (digit_not_foreign _ _ _ Hd2) in Hs.
    simpl in Hlen. specialize (IH s2 ltac:(lia) Hs).
    destruct (digits_tail s2). exact IH.
Qed.

Lemma digitpart_keeps s ds r :
  digitpart s = Some (ds, r) -> has_char c s = true -> has_char c r = true.
Proof.
  destruct s as [|a s1]; simpl; [discriminate|].
  destruct (digit_of a) as [d|] eqn:Hd; [|discriminate].
  intros H Hs. apply (digit_not_foreign _ _ _ Hd) in Hs.
  pose proof (digits_tail_keeps _ s1 (le_n _) Hs) as Hk.
  destruct (digits_tail s1). injection H as _ <-. exact Hk.
Qed.

Lemma point_not_foreign s :
  has_char c (String "." s) = true -> has_char c s = true.
Proof. apply (mark_not_foreign "." "." s eq_refl eq_refl). Qed.

Lemma number_keeps s ip fp r :
  number s = Some (ip, fp, r) -> has_char c s = true -> has_char c r = true.
Proof.
  unfold number. intros H Hs.
  destruct (digitpart s) as [[ip' r']|] eqn:Hip.
  - pose proof (digitpart_keeps _ _ _ Hip Hs) as Hr'.
    destruct r' as [|a r1]; [discriminate|].
    destruct (Ascii.ascii_dec a ".") as [->|Hne].
    + apply point_not_foreign in Hr'.
      destruct (digitpart r1) as [[fp' r2]|] eqn:Hfp.
      * injection H as _ _ <-. eapply digitpart_keeps; eassumption.
      * injection H as _ _ <-. exact Hr'.
    + assert (Some (ip', @nil Z, String a r1) = Some (ip, fp, r)) as H'.
      { destruct a as [[] [] [] [] [] [] [] []]; try exact H. contradiction. }
      injection H' as _ _ <-. exact Hr'.
  - destruct s as [|a r1]; [discriminate|].
    destruct (Ascii.ascii_dec a ".") as [->|Hne].
    + apply point_not_foreign in Hs.
      destruct (digitpart r1) as [[fp' r2]|] eqn:Hfp; [|discriminate].
      injection H as _ _ <-. eapply digitpart_keeps; eassumption.
    + destruct a as [[] [] [] [] [] [] [] []]; try discriminate. contradiction.
Qed.

Lemma sign_keeps s :
  has_char c s = true -> has_char c (snd (sign s)) = true.
Proof.
  destruct s as [|a s1]; [trivial|]. intros Hs.
  destruct (Ascii.ascii_dec a "-") as [->|Hm].
  { simpl. apply (mark_not_foreign "-" "-" s1 eq_refl eq_refl Hs). }
  destruct (Ascii.ascii_dec a "+") as [->|Hp].
  { simpl. apply (mark_not_foreign "+" "+" s1 eq_refl eq_refl Hs). }
  destruct a as [[] [] [] [] [] [] [] []]; try exact Hs; contradiction.
Qed.

Lemma exponent_rejects s : has_char c s = true -> exponent s = None.
Proof.
  destruct s as [|a r]; [discriminate|]. intros Hs. simpl.
  destruct (Ascii.eqb a "e") eqn:He; simpl.
  - apply (mark_not_foreign "e" _ _ eq_refl He) in Hs.
    apply sign_keeps in Hs. destruct (sign r) as [neg r1]. simpl in Hs.
    destruct (digitpart r1) as [[ds [|]]|] eqn:Hd; try reflexivity.
    pose proof (digitpart_keeps _ _ _ Hd Hs). discriminate.
  - destruct (Ascii.eqb a "E") eqn:HE; [|reflexivity].
    apply (mark_not_foreign "E" _ _ eq_refl HE) in Hs.
    apply sign_keeps in Hs. destruct (sign r) as [neg r1]. simpl in Hs.
    destruct (digitpart r1) as [[ds [|]]|] eqn:Hd; try reflexivity.
    pose proof (digitpart_keeps _ _ _ Hd Hs). discriminate.
Qed.

Lemma floatnumber_rejects s : has_char c s = true -> floatnumber s = None.
Proof.
  intros Hs. unfold floatnumber.
  destruct (number s) as [[[ip fp] r]|] eqn:Hn; [|reflexivity].
  now rewrite (exponent_rejects r (number_keeps _ _ _ _ Hn Hs)).
Qed.

Lemma has_char_lowercase s : has_char c s = true -> has_char c (lowercase s) = true.
Proof.
  induction s as [|a s IH]; simpl; [trivial|].
  destruct (Ascii.eqb a c) eqn:E; simpl.
  - apply Ascii.eqb_eq in E. subst a. now rewrite c_lower, Ascii.eqb_refl.
  - intros H. rewrite (IH H). apply orb_true_r.
Qed.

Lemma word_rejects s word :
  has_char c s = true -> has_char c word = false ->
  String.eqb (lowercase s) word = false.
Proof.
  intros Hs Hw. apply has_char_lowercase in Hs.
  destruct (String.eqb (lowercase s) word) eqn:E; [|reflexivity].
  apply String.eqb_eq in E. congruence.
Qed.

Lemma letters_not_foreign word :
  forallb (fun a => has_char a "infinityan") (list_ascii_of_string word) = true ->
  has_char c word = false.
Proof.
  induction word as [|a word IH]; simpl; [reflexivity|].
  rewrite andb_true_iff. intros [Ha Hw]. rewrite (IH Hw), orb_false_r.
  destruct (Ascii.eqb a c) eqn:E; [|reflexivity].
  apply Ascii.eqb_eq in E. subst a.
  destruct (eq_true_false_abs _ Ha c_not_letter).
Qed.

Lemma absfloatvalue_rejects s : has_char c s = true -> absfloatvalue s = None.
Proof.
  intros Hs. unfold absfloatvalue.
  rewrite (word_rejects s "inf"), (word_rejects s "infinity"), (word_rejects s "nan");
    try assumption; try (apply letters_not_foreign; reflexivity).
  simpl. now rewrite floatnumber_rejects.
Qed.

(** No ASCII text that holds the character is read as a number. *)
Lemma from_ascii_rejects s : has_char c s = true -> from_ascii s = None.
Proof.
  intros Hs. unfold from_ascii.
  pose proof (sign_keeps _ (has_char_trim _ Hs)) as Hr.
  destruct (sign (trim s)) as [neg r]. simpl in Hr.
  now rewrite absfloatvalue_rejects.
Qed.

End Foreign.

(** The bytes of the em-dash stay together when the commas go. *)
Lemma prefix_app p s : String.prefix p s = true -> exists r, s = p ++ r.
Proof.
  revert s. induction p as [|a p IH]; intros s H; [now exists s|].
  destruct s as [|b s]; [discriminate|]. simpl in H.
  destruct (Ascii.ascii_dec a b) as [->|]; [|discriminate].
  destruct (IH _ H) as [r ->]. now exists r.
Qed.

Lemma starts_with_em_dash s :
  String.prefix em_dash s = true ->
  exists r, s = String (ascii_of_nat 226) (String (ascii_of_nat 128)
                  (String (ascii_of_nat 148) r)).
Proof. intros H. destruct (prefix_app _ _ H) as [r ->]. now exists r. Qed.

Lemma contains_em_dash_replace_comma s :
  contains em_dash s = true -> contains em_dash (replace "," "" s) = true.
Proof.
  induction s as [|a s IH]; [discriminate|].
  cbn [contains]. destruct (String.prefix em_dash (String a s)) eqn:Hp.
  - intros _. destruct (starts_with_em_dash _ Hp) as [r Hr].
    injection Hr as -> ->. simpl. now destruct (replace "," "" r).
  - cbn [orb]. intros H. cbn [replace].
    destruct (Ascii.eqb a ","); [now apply IH|].
    cbn [contains]. rewrite (IH H). apply orb_true_r.
Qed.

(** A text that holds a byte above 127 is not ASCII. *)
Lemma has_char_not_ascii a s :
  (127 <? code a)%N = true -> has_char a s = true -> is_ascii s = false.
Proof.
  intros Ha H. unfold is_ascii. apply negb_false_iff.
  induction s as [|b s IH]; [discriminate|].
  simpl in *. destruct (Ascii.eqb b a) eqn:E.
  - apply Ascii.eqb_eq in E. subst b. now rewrite Ha.
  - rewrite (IH H). apply orb_true_r.
Qed.

Lemma decode1_continued a r cp n :
  decode1 (String a r) = (cp, n) -> continued (n - 1) r = true.
Proof.
  unfold decode1, alone.
  repeat match goal with
         | |- context [if ?b then _ else _] => destruct b eqn:?
         | |- context [match ?r with EmptyString => _ | String _ _ => _ end] => destruct r
         end;
    intros H; injection H as <- <-; simpl;
    repeat match goal with
           | H : _ && _ = true |- _ => apply andb_true_iff in H; destruct H
           | H : is_continuation _ = true |- _ => rewrite H
           end; reflexivity.
Qed.

(** The em-dash in a text is one of its characters. *)
Lemma chars_from_em_dash s : forall k,
  continued k s = true -> contains em_dash s = true ->
  Exists (fun c => fst c = 8212%N) (chars_from k s).
Proof.
  induction s as [|a r IH]; intros k Hk H; [discriminate|].
  cbn [contains] in H. apply orb_true_iff in H.
  destruct k as [|k].
  - cbn [chars_from]. destruct (decode1 (String a r)) as [cp n] eqn:Hd.
    destruct H as [H|H].
    + apply Exists_cons_hd. simpl.
      destruct (starts_with_em_dash _ H) as [r' Hr]. rewrite Hr in Hd.
      vm_compute in Hd. now injection Hd as <- _.
    + apply Exists_cons_tl. apply IH; [|exact H].
      eapply decode1_continued. exact Hd.
  - cbn [chars_from]. simpl in Hk. apply andb_true_iff in Hk. destruct Hk as [Ha Hk].
    destruct H as [H|H].
    + exfalso. destruct (starts_with_em_dash _ H) as [r' Hr].
      injection Hr as -> _. discriminate.
    + now apply IH.
Qed.

Lemma has_char_app a s t : has_char a t = true -> has_char a (s ++ t) = true.
Proof.
  intros H. induction s as [|b s IH]; simpl; [exact H|]. rewrite IH. apply orb_true_r.
Qed.

(** [float] makes a question mark of the em-dash. *)
Lemma transform_em_dash l :
  Exists (fun c => fst c = 8212%N) l -> has_char "?" (transform l) = true.
Proof.
  induction l as [|c l IH]; intros H; [inversion H|].
  cbn [transform].
  destruct (N.eq_dec (fst c) 8212%N) as [E|E].
  - rewrite E. reflexivity.
  - assert (Hl : has_char "?" (transform l) = true).
    { apply IH. inversion H; subst; [contradiction|assumption]. }
    destruct (fst c <? 127)%N; [now apply has_char_app|].
    destruct (is_space (fst c)); [simpl; exact Hl|].
    destruct (decimal (fst c)); [|reflexivity].
    simpl. rewrite Hl. apply orb_true_r.
Qed.

(** A text with the "no data" marker in it is no float, with or without
    its commas. *)
Lemma float_rejects_em_dash s :
  contains em_dash s = true -> float (replace "," "" s) = None.
Proof.
  intros H. apply contains_em_dash_replace_comma in H.
  unfold float, ascii_text.
  rewrite (has_char_not_ascii (ascii_of_nat 226) _ eq_refl
             (contains_has_char _ _ _ H)).
  apply (from_ascii_rejects "?"); try reflexivity.
  apply transform_em_dash. now apply (chars_from_em_dash _ 0).
Qed.

End FloatSyntax.

(** ** The rows of the bank table *)

Section BankRows.
Import Bank Rows.

Lemma bank_extract_row_Some row b :
  extract_row row = inr (Some b) -> bank_from_row row b.
Proof.
  unfold extract_row, bank_from_row.
  destruct (find_all "td" row) as [|c0 rest] eqn:Hcols; [discriminate|].
  destruct (getitem (c0 :: rest) 1) as [|c1] eqn:H1; [discriminate|].
  destruct (getitem (c0 :: rest) 2) as [|c2] eqn:H2; [discriminate|].
  destruct (float _) as [m|] eqn:Hf; [|discriminate].
  intros H. injection H as <-.
  exists c1, c2. repeat split; auto using getitem_inr.
Qed.

Lemma bank_extract_rows_from rows : forall banks0 banks,
  extract_rows rows banks0 = inr banks ->
  exists new, banks = (banks0 ++ new)%list /\
              Forall (fun b => exists row, In row rows /\ bank_from_row row b) new.
Proof.
  induction rows as [|row rest IH]; intros banks0 banks H; simpl in H.
  - injection H as <-. exists []. rewrite app_nil_r. split; [reflexivity|constructor].
  - destruct (extract_row row) as [x|[b|]] eqn:Hrow; [discriminate| |].
    + destruct (IH _ _ H) as [new [-> Hnew]].
      exists (b :: new). split; [now rewrite <- app_assoc|].
      constructor.
      * exists row. split; [now left|now apply bank_extract_row_Some].
      * eapply Forall_impl; [exact Hnew|].
        intros r [row' [Hin Hr]]. exists row'. split; [now right|assumption].
    + destruct (IH _ _ H) as [new [-> Hnew]]. exists new. split; [reflexivity|].
      eapply Forall_impl; [exact Hnew|].
      intros r [row' [Hin Hr]]. exists row'. split; [now right|assumption].
Qed.

(** A sentinel row makes [float] raise. *)
Lemma bank_extract_row_sentinel row :
  has_sentinel row = true -> exists t, extract_row row = inl (ValueError t).
Proof.
  unfold has_sentinel, numeric_cell, extract_row.
  destruct (nth_error (find_all "td" row) 2) as [c2|] eqn:H2; [|discriminate].
  intros Hd.
  destruct (find_all "td" row) as [|c0 [|c1 rest]] eqn:Hcols; try discriminate.
  rewrite (getitem_Some _ _ _ H2).
  change (getitem (c0 :: c1 :: rest) 1) with (@inr exn _ c1). cbv iota.
  rewrite (float_rejects_em_dash _ Hd). eauto.
Qed.

Lemma bank_extract_rows_sentinel rows : forall banks,
  Exists (fun r => has_sentinel r = true) rows ->
  exists x, extract_rows rows banks = inl x.
Proof.
  induction rows as [|row rest IH]; intros banks H; inversion H; subst; simpl.
  - destruct (bank_extract_row_sentinel _ ltac:(eassumption)) as [t ->]. eauto.
  - destruct (extract_row row) as [x|[b|]]; eauto.
Qed.

End BankRows.

(** ** Rounding *)

Section Rounding.
Import Hundredths.






End Rounding.

(** ** The log files only grow *)

Section LogRules.
Import LogDiscipline.
Variable path : string.
Variable P : string -> Prop.

Lemma appends_silent {A : Type} (m : M A) :
  (forall e w, logs (snd (m e w)) = logs w) -> appends path P m.
Proof.
  intros H e w. exists []. unfold read_lines. rewrite H, app_nil_r. auto.
Qed.

Lemma appends_bind {A B : Type} (m : M A) (k : A -> M B) :
  appends path P m -> (forall a, appends path P (k a)) -> appends path P (bind m k).
Proof.
  intros Hm Hk e w. unfold bind.
  destruct (Hm e w) as [a1 [H1 [HP1 Ho1]]].
  destruct (m e w) as [[x|a] w1]; simpl in *.
  - exists a1. auto.
  - destruct (Hk a e w1) as [a2 [H2 [HP2 Ho2]]].
    exists (a1 ++ a2)%list. rewrite H2, H1, app_assoc. repeat split.
    + apply Forall_app. auto.
    + intros p Hp. now rewrite Ho2, Ho1.
Qed.

Lemma appends_try_except {A : Type} (m : M A) (h : exn -> M A) :
  appends path P m -> (forall x, appends path P (h x)) -> appends path P (try_except m h).
Proof.
  intros Hm Hh e w. unfold try_except.
  destruct (Hm e w) as [a1 [H1 [HP1 Ho1]]].
  destruct (m e w) as [[x|a] w1]; simpl in *.
  - destruct (Hh x e w1) as [a2 [H2 [HP2 Ho2]]].
    exists (a1 ++ a2)%list. rewrite H2, H1, app_assoc. repeat split.
    + apply Forall_app. auto.
    + intros p Hp. now rewrite Ho2, Ho1.
  - exists a1. auto.
Qed.

Lemma appends_ret {A : Type} (a : A) : appends path P (ret a).
Proof. now apply appends_silent. Qed.

Lemma appends_raise {A : Type} (x : exn) : appends path P (@raise A x).
Proof. now apply appends_silent. Qed.

Lemma appends_lift {A : Type} (r : exn + A) : appends path P (lift r).
Proof. now apply appends_silent. Qed.

Lemma appends_fetch url : appends path P (fetch url).
Proof. now apply appends_silent. Qed.

Lemma appends_print x : appends path P (print x).
Proof. now apply appends_silent. Qed.

Lemma appends_close conn : appends path P (close conn).
Proof. now apply appends_silent. Qed.

Lemma appends_read_sql_query statement conn :
  appends path P (read_sql_query statement conn).
Proof. now apply appends_silent. Qed.

Lemma appends_to_csv df file index : appends path P (to_csv df file index).
Proof.
  apply appends_silent. intros e w. unfold to_csv.
  now destruct (write_error e file).
Qed.

Lemma appends_connect db : appends path P (connect db).
Proof.
  apply appends_silent. intros e w. unfold connect.
  now destruct (connect_error e db).
Qed.

Lemma appends_to_sql df table conn mode : appends path P (to_sql df table conn mode).
Proof.
  apply appends_silent. intros e w. unfold to_sql.
  destruct (to_sql_error e conn table); [reflexivity|].
  destruct (tables_of conn w !! table), mode; reflexivity.
Qed.

Lemma appends_line line : P line -> appends path P (append_line path line).
Proof.
  intros HP e w. exists [line]. unfold append_line, read_lines. simpl.
  rewrite lookup_insert_eq. repeat split; [auto|].
  intros p Hp. now rewrite lookup_insert_ne.
Qed.

Lemma appends_now_line (line : datetime -> string) :
  (forall t, P (line t)) -> appends path P (bind now (fun t => append_line path (line t))).
Proof.
  intros HP. apply appends_bind.
  - now apply appends_silent.
  - intros t. apply appends_line, HP.
Qed.

Lemma appends_logged {A : Type} (log : string -> M unit) prefix (m : M A) :
  (forall msg, appends path P (log msg)) -> appends path P m ->
  appends path P (logged log prefix m).
Proof.
  intros Hlog Hm. apply appends_try_except; [assumption|].
  intros x. apply appends_bind; [apply Hlog|]. intros _. apply appends_raise.
Qed.

End LogRules.

Section LogOfTheScripts.
Import LogDiscipline.

Lemma appends_log_progress message :
  appends GDP.log_file gdp_line (GDP.log_progress message).
Proof. apply appends_now_line. intros t. exists t, message. reflexivity. Qed.

Lemma appends_bank_log l message :
  appends Bank.log_file bank_line (Bank.log l message).
Proof. apply appends_now_line. intros t. exists t, l, message. reflexivity. Qed.

End LogOfTheScripts.

Create HintDb appends.
#[export] Hint Resolve appends_ret appends_raise appends_lift appends_fetch appends_print
  appends_close appends_read_sql_query appends_to_csv appends_connect appends_to_sql
  appends_log_progress appends_bank_log : appends.

Ltac appends_step :=
  lazymatch goal with
  | |- LogDiscipline.appends _ _ (bind _ _) => apply appends_bind; [|intros ?]
  | |- LogDiscipline.appends _ _ (logged _ _ _) => apply appends_logged; [intros ?|]
  | |- LogDiscipline.appends _ _ (try_except _ _) => apply appends_try_except; [|intros ?]
  | |- LogDiscipline.appends _ _ (Bank.info _) => apply appends_bank_log
  | |- LogDiscipline.appends _ _ (Bank.warning _) => apply appends_bank_log
  | |- LogDiscipline.appends _ _ (Bank.error _) => apply appends_bank_log
  | |- LogDiscipline.appends _ _ (Bank.critical _) => apply appends_bank_log
  | |- LogDiscipline.appends _ _ _ => solve [auto with appends]
  end.

Section LogOfMain.
Import LogDiscipline.

Lemma appends_gdp_main : appends GDP.log_file gdp_line GDP.main.
Proof.
  unfold GDP.main, GDP.extract, GDP.transform, GDP.load_to_csv, GDP.load_to_db,
    GDP.run_query.
  repeat appends_step.
Qed.

Lemma appends_convert_all rates cs : forall df,
  appends Bank.log_file bank_line (Bank.convert_all rates df cs).
Proof.
  induction cs as [|c rest IH]; intros df; simpl; [auto with appends|].
  apply appends_bind; [|intros ?; apply IH].
  unfold Bank.convert. destruct (Bank.rate_of rates c); repeat appends_step.
Qed.

Lemma appends_bank_main : appends Bank.log_file bank_line Bank.main.
Proof.
  unfold Bank.main, Bank.etl, Bank.extract_data, Bank.transform_data, Bank.load_to_csv,
    Bank.load_to_db, Bank.run_queries.
  repeat appends_step; try apply appends_convert_all.
  now apply appends_silent.
Qed.

(** A line of the bank script has no [" : "] in it when its message has
    none: it is not of the form the GDP script writes. *)
Lemma colon_form_contains line :
  timestamp_colon_message line -> PyStr.contains " : " line = true.
Proof.
  intros [ts [msg ->]]. induction ts as [|a ts IH].
  - destruct msg; reflexivity.
  - simpl. simpl in IH. rewrite IH. apply orb_true_r.
Qed.

End LogOfMain.

(** ** Loading a table twice *)

Section StoreLemmas.
Import Store.

Lemma bank_load_to_db_ok df db table e w :
  connect_error e db = None -> to_sql_error e db table = None ->
  fst (Bank.load_to_db df db table e w) = inr tt /\
  databases (snd (Bank.load_to_db df db table e w)) = written df db table w.
Proof.
  intros Hc Hs.
  unfold Bank.load_to_db, logged, try_except, bind, Bank.info, Bank.log, now,
    append_line, connect, to_sql, close, ret, written. cbn.
  rewrite Hc. cbn. rewrite Hs. unfold tables_of. cbn.
  rewrite lookup_insert_eq. cbn.
  destruct (default ∅ (databases w !! db) !! table); cbn;
    now rewrite insert_insert_eq.
Qed.

Lemma tables_of_written df db table w (w' : world) :
  databases w' = written df db table w ->
  tables_of db w' = <[table := df]> (tables_of db w).
Proof.
  intros H. unfold tables_of at 1. rewrite H. unfold written.
  now rewrite lookup_insert_eq.
Qed.

Lemma written_twice df db table w (w' : world) :
  databases w' = written df db table w ->
  written df db table w' = written df db table w.
Proof.
  intros H. unfold written at 1.
  rewrite (tables_of_written _ _ _ _ _ H), H. unfold written.
  now rewrite !insert_insert_eq.
Qed.

Lemma bank_twice df db table e w :
  databases (snd (bind (Bank.load_to_db df db table)
                       (fun _ => Bank.load_to_db df db table) e w)) =
  databases (snd (Bank.load_to_db df db table e w)).
Proof.
  unfold bind at 1.
  destruct (Bank.load_to_db df db table e w) as [[x|[]] w1] eqn:H1; [reflexivity|].
  destruct (connect_error e db) as [y|] eqn:Hc.
  { pose proof (f_equal fst H1) as Hf. exfalso. revert Hf.
    unfold Bank.load_to_db, logged, try_except, bind, Bank.info, Bank.log, Bank.error, now,
      append_line, connect, raise. cbn. rewrite Hc. discriminate. }
  destruct (to_sql_error e db table) as [y|] eqn:Hs.
  { pose proof (f_equal fst H1) as Hf. exfalso. revert Hf.
    unfold Bank.load_to_db, logged, try_except, bind, Bank.info, Bank.log, Bank.error, now,
      append_line, connect, to_sql, raise. cbn. rewrite Hc. cbn. rewrite Hs. discriminate. }
  destruct (bank_load_to_db_ok df db table e w Hc Hs) as [_ Hw].
  destruct (bank_load_to_db_ok df db table e w1 Hc Hs) as [_ Hw1].
  rewrite H1 in Hw. simpl in Hw. simpl. rewrite Hw1, Hw. now apply written_twice.
Qed.

Lemma gdp_load_to_db_ok df conn table e w :
  to_sql_error e conn table = None ->
  fst (GDP.load_to_db df conn table e w) = inr tt /\
  databases (snd (GDP.load_to_db df conn table e w)) = written df conn table w.
Proof.
  intros Hs.
  unfold GDP.load_to_db, logged, try_except, bind, GDP.log_progress, now,
    append_line, to_sql, ret, written. cbn.
  rewrite Hs. destruct (tables_of conn w !! table); cbn; auto.
Qed.

Lemma gdp_twice df conn table e w :
  databases (snd (bind (GDP.load_to_db df conn table)
                       (fun _ => GDP.load_to_db df conn table) e w)) =
  databases (snd (GDP.load_to_db df conn table e w)).
Proof.
  unfold bind at 1.
  destruct (GDP.load_to_db df conn table e w) as [[x|[]] w1] eqn:H1; [reflexivity|].
  destruct (to_sql_error e conn table) as [y|] eqn:Hs.
  { pose proof (f_equal fst H1) as Hf. exfalso. revert Hf.
    unfold GDP.load_to_db, logged, try_except, bind, GDP.log_progress, now,
      append_line, to_sql, raise. cbn. rewrite Hs. discriminate. }
  destruct (gdp_load_to_db_ok df conn table e w Hs) as [_ Hw].
  destruct (gdp_load_to_db_ok df conn table e w1 Hs) as [_ Hw1].
  rewrite H1 in Hw. simpl in Hw. simpl. rewrite Hw1, Hw. now apply written_twice.
Qed.

Lemma lookup_written df db table w :
  default ∅ (written df db table w !! db) !! table = Some df.
Proof. unfold written. rewrite lookup_insert_eq. simpl. apply lookup_insert_eq. Qed.

End StoreLemmas.

(** ** The outputs of the transformers are rounded *)

Section Rounded.
Import Bank BankFrame.

Lemma lookup_column_Some_In name df s :
  lookup_column name df = Some s -> In name (columns df).
Proof.
  induction df as [|[n s0] rest IH]; simpl; [discriminate|].
  destruct (String.eqb n name) eqn:E.
  - apply String.eqb_eq in E. now left.
  - intros H. right. now apply IH.
Qed.


End Rounded.

(** ** [main] and the exceptions of the stages *)

Section Main.

Lemma gdp_log_run message e w :
  GDP.log_progress message e w = (inr tt, GDPLog.logged_world message e w).
Proof. reflexivity. Qed.

Lemma bank_main_catches e w x w1 :
  Bank.etl e (BankLog.logged_world Bank.INFO "ETL process initiated." e w) = (inl x, w1) ->
  Bank.main e w =
  (inr tt, BankLog.logged_world Bank.CRITICAL ("ETL process failed: " ++ message x) e w1).
Proof.
  intros H. unfold Bank.main, Bank.info.
  erewrite bind_inr by apply log_run.
  erewrite try_except_inl by exact H. apply log_run.
Qed.

Lemma bank_main_returns e w : fst (Bank.main e w) = inr tt.
Proof.
  destruct (Bank.etl e (BankLog.logged_world Bank.INFO "ETL process initiated." e w))
    as [[x|[]] w1] eqn:H.
  - now rewrite (bank_main_catches _ _ _ _ H).
  - unfold Bank.main, Bank.info. erewrite bind_inr by apply log_run.
    now erewrite try_except_inr by exact H.
Qed.

(** A failure of the fetch reaches the caller of [etl]. *)
Lemma bank_extract_data_fetch_fails e w x :
  http_get e Bank.url = inl x ->
  Bank.extract_data Bank.url e w =
  (inl x,
   BankLog.logged_world Bank.ERROR ("Error during extraction: " ++ message x) e
     (BankLog.logged_world Bank.INFO "Starting data extraction." e w)).
Proof.
  intros H. unfold Bank.extract_data, Bank.info, Bank.error, logged.
  erewrite bind_inr by apply log_run.
  erewrite try_except_inl
    by (erewrite bind_inl; [reflexivity|unfold fetch; rewrite H; reflexivity]).
  erewrite bind_inr by apply log_run. reflexivity.
Qed.

Lemma bank_etl_fetch_fails e w x :
  http_get e Bank.url = inl x -> fst (Bank.etl e w) = inl x.
Proof.
  intros H. unfold Bank.etl.
  now erewrite bind_inl by (apply bank_extract_data_fetch_fails; exact H).
Qed.

End Main.

(** * Lemmas for the further properties *)

(** ** Taking a run apart *)

Section Inversion.
Context {A B : Type}.

Lemma bind_inr_inv (m : M A) (k : A -> M B) e w b w2 :
  bind m k e w = (inr b, w2) ->
  exists a w1, m e w = (inr a, w1) /\ k a e w1 = (inr b, w2).
Proof. unfold bind. destruct (m e w) as [[x|a] w1]; [discriminate|]. eauto. Qed.

Lemma bind_inl_inv (m : M A) (k : A -> M B) e w x w2 :
  bind m k e w = (inl x, w2) ->
  m e w = (inl x, w2) \/
  exists a w1, m e w = (inr a, w1) /\ k a e w1 = (inl x, w2).
Proof.
  unfold bind. destruct (m e w) as [[y|a] w1]; intros H.
  - left. injection H as -> ->. reflexivity.
  - right. exists a, w1. split; [reflexivity|exact H].
Qed.

Lemma logged_inr_inv (log : string -> M unit) prefix (m : M A) e w a w2 :
  logged log prefix m e w = (inr a, w2) -> m e w = (inr a, w2).
Proof.
  unfold logged, try_except. destruct (m e w) as [[x|a'] w1]; [|auto].
  unfold bind, raise. destruct (log _ e w1) as [[?|?] ?]; discriminate.
Qed.

Lemma logged_inl_inv (log : string -> M unit) prefix (m : M A) e w x w2 :
  (forall msg e w, fst (log msg e w) = inr tt) ->
  logged log prefix m e w = (inl x, w2) ->
  exists w1, m e w = (inl x, w1) /\ w2 = snd (log (prefix ++ message x) e w1).
Proof.
  intros Hlog. unfold logged, try_except. destruct (m e w) as [[y|a'] w1]; [|discriminate].
  unfold bind, raise. specialize (Hlog (prefix ++ message y) e w1).
  destruct (log (prefix ++ message y) e w1) as [[z|[]] w3] eqn:E; simpl in Hlog; [discriminate|].
  intros H. injection H as <- <-. exists w1. rewrite E. split; reflexivity.
Qed.

End Inversion.

(** ** The rows behind the records, in their order *)

Section RowsInOrder.
Import Rows Selection.

Lemma bank_extract_row_has_cells row :
  match Bank.extract_row row with
  | inl _ => has_cells row = true
  | inr (Some _) => has_cells row = true
  | inr None => has_cells row = false
  end.
Proof.
  unfold Bank.extract_row, has_cells.
  destruct (find_all "td" row) as [|c0 rest]; [reflexivity|].
  destruct (getitem (c0 :: rest) 1); [reflexivity|].
  destruct (getitem (c0 :: rest) 2); [reflexivity|].
  destruct (float _); reflexivity.
Qed.

Lemma bank_rows_in_order rows : forall banks0 banks,
  Bank.extract_rows rows banks0 = inr banks ->
  exists new, banks = (banks0 ++ new)%list /\
              Forall2 bank_from_row (List.filter has_cells rows) new.
Proof.
  induction rows as [|row rest IH]; intros banks0 banks H; simpl in H.
  - injection H as <-. exists []. rewrite app_nil_r. split; [reflexivity|constructor].
  - pose proof (bank_extract_row_has_cells row) as Hc. simpl.
    destruct (Bank.extract_row row) as [x|[b|]] eqn:Hrow; [discriminate| |].
    + rewrite Hc. destruct (IH _ _ H) as [new [-> Hnew]].
      exists (b :: new). split; [now rewrite <- app_assoc|].
      constructor; [now apply bank_extract_row_Some|assumption].
    + rewrite Hc. apply IH, H.
Qed.

Lemma gdp_extract_row_qualifies row :
  match GDP.extract_row row with
  | inl _ => True
  | inr (Some _) => qualifies row = true
  | inr None => qualifies row = false
  end.
Proof.
  unfold GDP.extract_row, qualifies, has_sentinel, numeric_cell.
  destruct (find_all "td" row) as [|c0 rest] eqn:Hcols; [reflexivity|].
  simpl length. simpl Nat.eqb. cbv iota.
  change (getitem (c0 :: rest) 0) with (@inr exn _ c0). cbv iota.
  destruct (find "a" c0) as [a|]; [|reflexivity].
  unfold getitem at 1.
  destruct (nth_error (c0 :: rest) 2) as [c2|]; [|exact I].
  destruct (PyStr.contains _ _); [reflexivity|].
  destruct (getitem (contents a) 0) as [|first]; [exact I|].
  destruct (GDP.cell_of first); [exact I|reflexivity].
Qed.

Lemma gdp_rows_in_order rows : forall records df,
  GDP.extract_rows rows (GDPFrame.frame_of records) = inr df ->
  exists new, df = GDPFrame.frame_of (records ++ new) /\
              Forall2 gdp_from_row (List.filter qualifies rows) new.
Proof.
  induction rows as [|row rest IH]; intros records df H; simpl in H.
  - injection H as <-. exists []. rewrite app_nil_r. split; [reflexivity|constructor].
  - pose proof (gdp_extract_row_qualifies row) as Hq. simpl.
    destruct (GDP.extract_row row) as [x|[d|]] eqn:Hrow; [discriminate| |].
    + rewrite Hq.
      destruct (gdp_extract_row_Some _ _ Hrow) as [[country millions] [Hfrom ->]].
      simpl in H. rewrite concat_row_frame_of in H.
      destruct (IH _ _ H) as [new [-> Hnew]].
      exists ((country, millions) :: new). split; [now rewrite <- app_assoc|].
      constructor; assumption.
    + rewrite Hq. apply IH, H.
Qed.

End RowsInOrder.

(** ** The exceptions of the extractors *)

Section ExtractorsRaise.

Lemma bank_extract_row_raises row x :
  Bank.extract_row row = inl x -> x = IndexError \/ exists t, x = ValueError t.
Proof.
  unfold Bank.extract_row, getitem.
  destruct (find_all "td" row) as [|c0 rest]; [discriminate|].
  destruct (nth_error (c0 :: rest) 1); [|intros H; injection H as <-; now left].
  destruct (nth_error (c0 :: rest) 2); [|intros H; injection H as <-; now left].
  destruct (float _); [discriminate|].
  intros H; injection H as <-. right. eauto.
Qed.

Lemma bank_extract_rows_raises rows : forall banks x,
  Bank.extract_rows rows banks = inl x -> x = IndexError \/ exists t, x = ValueError t.
Proof.
  induction rows as [|row rest IH]; intros banks x H; simpl in H; [discriminate|].
  destruct (Bank.extract_row row) as [y|[b|]] eqn:Hrow.
  - injection H as <-. now apply (bank_extract_row_raises row).
  - now apply (IH _ _ H).
  - now apply (IH _ _ H).
Qed.

Lemma bank_extract_banks_raises soup x :
  Bank.extract_banks soup = inl x -> x = IndexError \/ exists t, x = ValueError t.
Proof.
  unfold Bank.extract_banks, getitem.
  destruct (nth_error (find_all "tbody" soup) 0).
  - apply bank_extract_rows_raises.
  - intros H; injection H as <-; now left.
Qed.

Lemma cell_of_raises v x :
  GDP.cell_of v = inl x -> exists n, n <> 1 /\ x = GDP.length_mismatch n.
Proof.
  destruct v as [t|name [|k [|k' kids]]]; simpl; intros H; try discriminate;
    injection H as <-; eexists; (split; [|reflexivity]); simpl; lia.
Qed.

Lemma gdp_extract_row_raises row x :
  GDP.extract_row row = inl x ->
  x = IndexError \/ exists n, n <> 1 /\ x = GDP.length_mismatch n.
Proof.
  unfold GDP.extract_row, getitem.
  destruct (length (find_all "td" row) =? 0)%nat; [discriminate|].
  destruct (nth_error (find_all "td" row) 0) as [c0|];
    [|now intros H; injection H as <-; left].
  destruct (find "a" c0) as [a|]; [|discriminate].
  destruct (nth_error (find_all "td" row) 2) as [c2|];
    [|now intros H; injection H as <-; left].
  destruct (PyStr.contains _ _); [discriminate|].
  destruct (nth_error (contents a) 0) as [first|];
    [|now intros H; injection H as <-; left].
  destruct (GDP.cell_of first) as [y|country] eqn:Hc; [|discriminate].
  intros H. injection H as <-. right. now apply (cell_of_raises first).
Qed.

Lemma gdp_extract_rows_raises rows : forall df x,
  GDP.extract_rows rows df = inl x ->
  x = IndexError \/ exists n, n <> 1 /\ x = GDP.length_mismatch n.
Proof.
  induction rows as [|row rest IH]; intros df x H; simpl in H; [discriminate|].
  destruct (GDP.extract_row row) as [y|[d|]] eqn:Hrow.
  - injection H as <-. now apply (gdp_extract_row_raises row).
  - now apply (IH _ _ H).
  - now apply (IH _ _ H).
Qed.

Lemma gdp_extract_frame_raises soup attribs x :
  GDP.extract_frame soup attribs = inl x ->
  x = IndexError \/ exists n, n <> 1 /\ x = GDP.length_mismatch n.
Proof.
  unfold GDP.extract_frame, getitem.
  destruct (nth_error (find_all "tbody" soup) 2).
  - apply gdp_extract_rows_raises.
  - now intros H; injection H as <-; left.
Qed.

Lemma bank_log_returns l msg e w : fst (Bank.log l msg e w) = inr tt.
Proof. reflexivity. Qed.

Lemma gdp_log_returns msg e w : fst (GDP.log_progress msg e w) = inr tt.
Proof. reflexivity. Qed.

Lemma bank_log_inl l msg e w x w' : Bank.log l msg e w = (inl x, w') -> False.
Proof. rewrite log_run. discriminate. Qed.

Lemma gdp_log_inl msg e w x w' : GDP.log_progress msg e w = (inl x, w') -> False.
Proof. rewrite gdp_log_run. discriminate. Qed.

(** What the body of [extract_data] raises. *)
Lemma bank_extract_data_inl url e w x w' :
  Bank.extract_data url e w = (inl x, w') ->
  http_get e url = inl x \/ x = IndexError \/ exists t, x = ValueError t.
Proof.
  unfold Bank.extract_data, Bank.info, Bank.error. intros H.
  apply bind_inl_inv in H. destruct H as [H|[[] [w1 [_ H]]]]; [now apply bank_log_inl in H|].
  apply logged_inl_inv in H; [|intros; apply bank_log_returns].
  destruct H as [w2 [H _]].
  apply bind_inl_inv in H. destruct H as [H|[soup [w3 [Hs H]]]].
  { left. unfold fetch in H. now injection H as -> _. }
  right.
  apply bind_inl_inv in H. destruct H as [H|[banks [w4 [_ H]]]].
  { unfold lift in H. injection H as H _. now apply (bank_extract_banks_raises soup). }
  apply bind_inl_inv in H. destruct H as [H|[[] [w5 [_ H]]]]; [discriminate|].
  apply bind_inl_inv in H. destruct H as [H|[[] [w6 [_ H]]]]; [now apply bank_log_inl in H|].
  discriminate.
Qed.

Lemma gdp_extract_inl url attribs e w x w' :
  GDP.extract url attribs e w = (inl x, w') ->
  http_get e url = inl x \/ x = IndexError \/
  exists n, n <> 1 /\ x = GDP.length_mismatch n.
Proof.
  unfold GDP.extract. intros H.
  apply logged_inl_inv in H; [|intros; apply gdp_log_returns].
  destruct H as [w2 [H _]].
  apply bind_inl_inv in H. destruct H as [H|[soup [w3 [Hs H]]]].
  { left. unfold fetch in H. now injection H as -> _. }
  right. unfold lift in H. injection H as H _. now apply (gdp_extract_frame_raises soup attribs).
Qed.

End ExtractorsRaise.

(** ** The characters of a text and its white space *)

Section Characters.
Import PyStr.

Lemma decode1_length a r cp n :
  decode1 (String a r) = (cp, n) -> 1 <= n <= S (String.length r).
Proof.
  unfold decode1, alone.
  repeat match goal with
         | |- context [if ?b then _ else _] => destruct b eqn:?
         | |- context [match ?r with EmptyString => _ | String _ _ => _ end] => destruct r
         end;
    intros H; injection H as <- <-; simpl; lia.
Qed.

Lemma decode1_first a r cp n :
  decode1 (String a r) = (cp, n) -> (cp < 1114112)%N -> is_continuation a = false.
Proof.
  unfold decode1, alone, is_continuation.
  repeat match goal with
         | |- context [if ?b then _ else _] => destruct b eqn:?
         | |- context [match ?r with EmptyString => _ | String _ _ => _ end] => destruct r
         end;
    intros H; injection H as <- <-; intros Hcp; try lia;
    repeat match goal with
           | H : _ && _ = true |- _ => apply andb_true_iff in H; destruct H
           | H : (_ <=? _)%N = true |- _ => apply N.leb_le in H
           | H : (_ <? _)%N = true |- _ => apply N.ltb_lt in H
           end;
    apply andb_false_iff; rewrite N.leb_gt, N.leb_gt; lia.
Qed.

Lemma decode1_app s1 s2 :
  s1 <> "" -> boundary s2 = true -> decode1 (s1 ++ s2) = decode1 s1.
Proof.
  intros Hne Hb.
  destruct s1 as [|c0 [|c1 [|c2 [|c3 r]]]]; [contradiction|..];
    destruct s2 as [|b s2]; simpl in Hb; rewrite ?negb_true_iff in Hb;
    cbv [String.append]; unfold decode1; rewrite ?Hb; try reflexivity;
    repeat match goal with
           | |- context [if ?b then _ else _] => destruct b eqn:?
           end; try reflexivity; try discriminate.
Qed.

(** Bytes taken from the front and left behind. *)
Lemma substring_tail_from m : forall r, substring 0 m r ++ tail_from m r = r.
Proof.
  induction m as [|m IH]; intros [|a r]; try reflexivity.
  change (String a (substring 0 m r ++ tail_from m r) = String a r). now rewrite IH.
Qed.

Lemma substring_length m : forall r, m <= String.length r -> String.length (substring 0 m r) = m.
Proof.
  induction m as [|m IH]; intros [|a r] H; simpl in *; try reflexivity; try lia.
  rewrite IH; lia.
Qed.

Lemma substring_app p q : substring 0 (String.length p) (p ++ q) = p.
Proof.
  induction p as [|a p IH]; [now destruct q|].
  change (String a (substring 0 (String.length p) (p ++ q)) = String a p). now rewrite IH.
Qed.

Lemma tail_from_app p q : tail_from (String.length p) (p ++ q) = q.
Proof. induction p as [|a p IH]; [reflexivity|exact IH]. Qed.

Lemma join_app l1 l2 : join (l1 ++ l2)%list = join l1 ++ join l2.
Proof.
  induction l1 as [|c l1 IH]; [reflexivity|].
  cbn [join app]. rewrite IH. clear. induction (snd c) as [|a s IH]; [reflexivity|].
  change (String a (s ++ join l1 ++ join l2) = String a ((s ++ join l1) ++ join l2)).
  now rewrite IH.
Qed.

(** The characters of a text are its bytes, in pieces. *)
Lemma join_chars_from s : forall k, join (chars_from k s) = tail_from k s.
Proof.
  induction s as [|a r IH]; intros k; [now destruct k|].
  destruct k as [|k]; [|apply IH].
  cbn [chars_from tail_from]. destruct (decode1 (String a r)) as [cp n] eqn:Hd.
  cbn [join snd]. rewrite IH.
  destruct (decode1_length _ _ _ _ Hd) as [Hn _].
  destruct n as [|m]; [lia|]. replace (S m - 1) with m by lia.
  change (String a (substring 0 m r ++ tail_from m r) = String a r).
  now rewrite substring_tail_from.
Qed.

Lemma chars_from_tail s : forall k, chars_from k s = chars (tail_from k s).
Proof.
  induction s as [|a r IH]; intros [|k]; try reflexivity. apply IH.
Qed.

(** The characters after the first are those of the bytes after
    it. *)
Lemma chars_cons s c l :
  chars s = c :: l ->
  exists a r n, s = String a r /\ decode1 s = (fst c, S n) /\ n <= String.length r /\
                snd c = String a (substring 0 n r) /\ l = chars (tail_from n r).
Proof.
  destruct s as [|a r]; [discriminate|]. unfold chars. cbn [chars_from].
  destruct (decode1 (String a r)) as [cp n] eqn:Hd.
  destruct (decode1_length _ _ _ _ Hd) as [Hn Hl].
  destruct n as [|m]; [lia|]. replace (S m - 1) with m by lia.
  intros H. injection H as <- <-.
  exists a, r, m. repeat split; try reflexivity; [lia|]. apply chars_from_tail.
Qed.

(** A character that is no stray byte begins with a byte that is no
    continuation byte. *)
Lemma chars_boundary s c l l' :
  chars s = (l ++ c :: l')%list -> (fst c < 1114112)%N -> forall t, boundary (snd c ++ t) = true.
Proof.
  revert s. induction l as [|d l IH]; intros s H Hc t.
  - destruct (chars_cons _ _ _ H) as [a [r [n [-> [Hd [_ [-> _]]]]]]].
    simpl. now rewrite (decode1_first _ _ _ _ Hd Hc).
  - destruct (chars_cons _ _ _ H) as [a [r [n [_ [_ [_ [_ Hl]]]]]]].
    now apply (IH _ (eq_sym Hl)).
Qed.

(** The characters of a text cut where a character ends are the
    characters before the cut. *)
Lemma chars_join_prefix l1 : forall s l2,
  chars s = (l1 ++ l2)%list -> boundary (join l2) = true -> chars (join l1) = l1.
Proof.
  induction l1 as [|c l1 IH]; intros s l2 H Hb; [reflexivity|].
  destruct (chars_cons _ _ _ H) as [a [r [n [Hs [Hd [Hn [Hc Hl]]]]]]].
  specialize (IH _ _ (eq_sym Hl) Hb).
  pose proof (join_chars_from (tail_from n r) 0) as Hj.
  fold (chars (tail_from n r)) in Hj. rewrite <- Hl, join_app in Hj. cbn [tail_from] in Hj.
  assert (Hs' : s = (snd c ++ join l1) ++ join l2).
  { rewrite Hs, Hc.
    change (String a r = String a ((substring 0 n r ++ join l1) ++ join l2)).
    f_equal. rewrite <- (substring_tail_from n r) at 1. rewrite <- Hj.
    clear. induction (substring 0 n r) as [|b p IH]; [reflexivity|].
    change (String b (p ++ join l1 ++ join l2) = String b ((p ++ join l1) ++ join l2)).
    now rewrite IH. }
  assert (Hd' : decode1 (snd c ++ join l1) = (fst c, S n)).
  { rewrite <- Hd, Hs'. symmetry. apply decode1_app; [|exact Hb]. rewrite Hc. discriminate. }
  cbn [join]. rewrite Hc in *.
  change (String a (substring 0 n r) ++ join l1)
    with (String a (substring 0 n r ++ join l1)) in *.
  unfold chars. cbn [chars_from]. rewrite Hd'.
  replace (S n - 1) with n by lia.
  rewrite <- (substring_length n r Hn) at 1 3.
  change (substring 0 (S (String.length (substring 0 n r)))
            (String a (substring 0 n r ++ join l1)))
    with (String a (substring 0 (String.length (substring 0 n r))
                      (substring 0 n r ++ join l1))).
  rewrite substring_app, chars_from_tail, tail_from_app.
  fold (chars (join l1)). rewrite IH.
  destruct c as [cp bytes]. simpl in *. now subst bytes.
Qed.

Lemma chars_suffix l0 : forall s l,
  chars s = (l0 ++ l)%list -> exists s', chars s' = l.
Proof.
  induction l0 as [|c l0 IH]; intros s l H; [now exists s|].
  destruct (chars_cons _ _ _ H) as [a [r [n [_ [_ [_ [_ Hl]]]]]]].
  now apply (IH _ _ (eq_sym Hl)).
Qed.

Lemma is_space_valid cp : is_space cp = true -> (cp < 1114112)%N.
Proof.
  unfold is_space.
  rewrite !orb_true_iff, !andb_true_iff, !N.leb_le, !N.eqb_eq. lia.
Qed.

(** White space at the ends of a list of characters. *)
Lemma lstrip_suffix l :
  exists l0, l = (l0 ++ lstrip l)%list /\ Forall (fun c => is_space (fst c) = true) l0.
Proof.
  induction l as [|c l [l0 [IH Hl0]]]; [now exists []|].
  cbn [lstrip]. destruct (is_space (fst c)) eqn:Hc.
  - exists (c :: l0). split; [simpl; now rewrite <- IH|now constructor].
  - now exists [].
Qed.

Lemma lstrip_head l c r : lstrip l = c :: r -> is_space (fst c) = false.
Proof.
  induction l as [|d l IH]; [discriminate|].
  cbn [lstrip]. destruct (is_space (fst d)) eqn:Hd; [exact IH|].
  intros H. now injection H as <- _.
Qed.

Lemma lstrip_fixed c l : is_space (fst c) = false -> lstrip (c :: l) = c :: l.
Proof. intros H. cbn [lstrip]. now rewrite H. Qed.

Lemma rstrip_prefix l :
  exists l2, l = (rstrip l ++ l2)%list /\ Forall (fun c => is_space (fst c) = true) l2.
Proof.
  destruct (lstrip_suffix (rev l)) as [l0 [H Hl0]].
  exists (rev l0). split.
  - unfold rstrip. rewrite <- rev_app_distr, <- H. now rewrite rev_involutive.
  - now apply List.Forall_rev.
Qed.

Lemma last_rev {A : Type} (l : list A) : last (rev l) = head l.
Proof. destruct l as [|a l]; [reflexivity|]. simpl. apply last_snoc. Qed.

Lemma rstrip_last l c : last (rstrip l) = Some c -> is_space (fst c) = false.
Proof.
  unfold rstrip. rewrite last_rev.
  destruct (lstrip (rev l)) as [|d r] eqn:E; [discriminate|].
  intros H. injection H as <-. now apply (lstrip_head _ _ _ E).
Qed.

Lemma rstrip_head l c : head (rstrip l) = Some c -> head l = Some c.
Proof.
  destruct (rstrip_prefix l) as [l2 [H _]]. rewrite H at 2.
  now destruct (rstrip l).
Qed.

Lemma rstrip_fixed l :
  (forall c, last l = Some c -> is_space (fst c) = false) -> rstrip l = l.
Proof.
  intros H. unfold rstrip. rewrite <- (rev_involutive l) at 2. f_equal.
  destruct (rev l) as [|c r] eqn:E; [reflexivity|].
  apply lstrip_fixed, H. rewrite <- (rev_involutive l), E. now rewrite last_rev.
Qed.

(** The characters of a trimmed text are those of the text, without
    the white space at the two ends. *)
Lemma chars_strip t : chars (strip t) = rstrip (lstrip (chars t)).
Proof.
  unfold strip.
  destruct (lstrip_suffix (chars t)) as [l0 [H0 _]].
  destruct (chars_suffix _ _ _ H0) as [s' Hs'].
  destruct (rstrip_prefix (lstrip (chars t))) as [l2 [H2 Hl2]].
  rewrite H2 in Hs'. apply (chars_join_prefix _ _ _ Hs').
  destruct l2 as [|c l2]; [reflexivity|].
  apply (chars_boundary _ _ _ _ Hs'). apply is_space_valid.
  now inversion Hl2.
Qed.

Lemma trimmed_strip t : Trimmed.trimmed (strip t).
Proof.
  unfold Trimmed.trimmed. rewrite chars_strip. split; intros c H.
  - apply rstrip_head in H.
    destruct (lstrip (chars t)) as [|d r] eqn:E; [discriminate|].
    injection H as <-. now apply (lstrip_head _ _ _ E).
  - now apply (rstrip_last _ _ H).
Qed.

Lemma strip_trimmed s : Trimmed.trimmed s -> strip s = s.
Proof.
  intros [Hh Hl]. unfold strip.
  assert (E : lstrip (chars s) = chars s).
  { destruct (chars s) as [|c l]; [reflexivity|]. now apply lstrip_fixed, Hh. }
  rewrite E, (rstrip_fixed _ Hl). apply (join_chars_from s 0).
Qed.

Lemma strip_idempotent t : strip (strip t) = strip t.
Proof. apply strip_trimmed, trimmed_strip. Qed.

End Characters.

(** ** [transform] of the GDP script, run *)

Section GDPTransform.
Import GDP GDPFrame.

Lemma gdp_transform_cases records e w :
  transform (frame_of records) e w =
  match astype_float_list (map (fun r => OStr (cleaned r)) records) with
  | inr ms =>
      (inr [("Country", Object (map fst records));
            ("GDP_USD_billions",
             Float64 (map (fun m => round2 (truediv m (of_Z 1000))) ms))], w)
  | inl x =>
      (inl x, GDPLog.logged_world ("Error in transformation: " ++ message x) e w)
  end.
Proof.
  unfold transform, logged.
  set (body := bind (lift (get_column (frame_of records) "GDP_USD_millions")) _).
  assert (Hb : body e w =
               match astype_float_list (map (fun r => OStr (cleaned r)) records) with
               | inr ms =>
                   (inr [("Country", Object (map fst records));
                         ("GDP_USD_billions",
                          Float64 (map (fun m => round2 (truediv m (of_Z 1000))) ms))], w)
               | inl x => (inl x, w)
               end).
  { subst body. unfold bind, lift, ret.
    change (get_column (frame_of records) "GDP_USD_millions")
      with (@inr exn _ (Object (map (fun r : record => OStr (snd r)) records))).
    unfold series_remove_commas, series_astype_float. cbv beta iota.
    rewrite map_map.
    change (fun x : record => OStr (PyStr.replace "," "" (snd x)))
      with (fun r : record => OStr (cleaned r)).
    destruct (astype_float_list (map (fun r : record => OStr (cleaned r)) records)) as [x|ms];
      [reflexivity|].
    cbn. rewrite map_map. reflexivity. }
  unfold try_except. rewrite Hb.
  destruct (astype_float_list (map (fun r : record => OStr (cleaned r)) records)) as [x|ms];
    [|reflexivity].
  erewrite bind_inr by apply gdp_log_run. reflexivity.
Qed.

Lemma astype_float_records_inv records : forall ms,
  astype_float_list (map (fun r => OStr (cleaned r)) records) = inr ms ->
  Forall2 (fun r m => float (cleaned r) = Some m) records ms.
Proof.
  induction records as [|r rest IH]; intros ms H; simpl in H.
  - injection H as <-. constructor.
  - destruct (float (cleaned r)) as [m|] eqn:Hm; [|discriminate].
    destruct (astype_float_list _) as [x|ms'] eqn:Hrest; [discriminate|].
    injection H as <-. constructor; [assumption|now apply IH].
Qed.

Lemma astype_float_first_bad before r after : forall ms,
  Forall2 (fun r m => float (cleaned r) = Some m) before ms ->
  float (cleaned r) = None ->
  astype_float_list (map (fun r => OStr (cleaned r)) (before ++ r :: after)) =
  inl (ValueError (cleaned r)).
Proof.
  induction before as [|b rest IH]; intros ms H Hr; inversion H; subst; simpl.
  - now rewrite Hr.
  - match goal with Hf : float (cleaned b) = Some _ |- _ => rewrite Hf end.
    now rewrite (IH _ ltac:(eassumption) Hr).
Qed.

End GDPTransform.

(** ** The last line of the logs *)

Section LastLines.
Import Effects.

Lemma bank_last_line l msg e w :
  last_line Bank.log_file (BankLog.logged_world l msg e w) =
  Some (Bank.format (clock e (ticks w)) l msg).
Proof. unfold last_line. rewrite read_lines_logged. apply last_snoc. Qed.

Lemma gdp_read_lines_logged msg e w :
  read_lines GDP.log_file (GDPLog.logged_world msg e w) =
  (read_lines GDP.log_file w ++
   [(strftime_Yhd_HMS (clock e (ticks w)) ++ " : " ++ msg)%string])%list.
Proof.
  unfold GDPLog.logged_world, GDP.log_progress, bind, now, append_line, read_lines. cbn.
  now rewrite lookup_insert_eq.
Qed.

Lemma gdp_last_line msg e w :
  last_line GDP.log_file (GDPLog.logged_world msg e w) =
  Some (strftime_Yhd_HMS (clock e (ticks w)) ++ " : " ++ msg).
Proof. unfold last_line. rewrite gdp_read_lines_logged. apply last_snoc. Qed.

(** A stage of the bank script: a record at its start, and the body
    under the handler that logs and raises again. *)
Lemma bank_stage_inl {A : Type} start prefix (body : M A) e w x w' :
  bind (Bank.info start) (fun _ => logged Bank.error prefix body) e w = (inl x, w') ->
  exists w1, w' = BankLog.logged_world Bank.ERROR (prefix ++ message x) e w1.
Proof.
  intros H. apply bind_inl_inv in H.
  destruct H as [H|[[] [w0 [_ H]]]]; [now apply bank_log_inl in H|].
  apply logged_inl_inv in H; [|intros; apply bank_log_returns].
  destruct H as [w1 [_ ->]]. now exists w1.
Qed.

Lemma bank_stage_last {A : Type} start prefix (body : M A) e w x w' :
  bind (Bank.info start) (fun _ => logged Bank.error prefix body) e w = (inl x, w') ->
  exists t, last_line Bank.log_file w' =
            Some (Bank.format t Bank.ERROR (prefix ++ message x)).
Proof.
  intros H. destruct (bank_stage_inl _ _ _ _ _ _ _ H) as [w1 ->].
  eexists. apply bank_last_line.
Qed.

Lemma bank_stage_inr {A : Type} start prefix (body : M A) e w a w' :
  bind (Bank.info start) (fun _ => logged Bank.error prefix body) e w = (inr a, w') ->
  body e (BankLog.logged_world Bank.INFO start e w) = (inr a, w').
Proof.
  unfold Bank.info. erewrite bind_inr by apply log_run. apply logged_inr_inv.
Qed.

(** A stage of the GDP script: the body under its handler. *)
Lemma gdp_stage_last {A : Type} prefix (body : M A) e w x w' :
  logged GDP.log_progress prefix body e w = (inl x, w') ->
  exists t, last_line GDP.log_file w' =
            Some (strftime_Yhd_HMS t ++ " : " ++ prefix ++ message x).
Proof.
  intros H. apply logged_inl_inv in H; [|intros; apply gdp_log_returns].
  destruct H as [w1 [_ ->]]. eexists. apply (gdp_last_line (prefix ++ message x) e w1).
Qed.

End LastLines.

(** ** Steps that write no file and no table *)

Section Keeps.
Import Effects.
Variable R : world -> world -> Prop.
Hypothesis R_refl : forall w, R w w.
Hypothesis R_trans : forall w1 w2 w3, R w1 w2 -> R w2 w3 -> R w1 w3.

Lemma keeps_run {A : Type} (m : M A) e w r w' :
  keeps R m -> m e w = (r, w') -> R w w'.
Proof. intros Hm H. specialize (Hm e w). now rewrite H in Hm. Qed.

Lemma keeps_bind {A B : Type} (m : M A) (k : A -> M B) :
  keeps R m -> (forall a, keeps R (k a)) -> keeps R (bind m k).
Proof.
  intros Hm Hk e w. unfold bind. specialize (Hm e w).
  destruct (m e w) as [[x|a] w1]; simpl in *; [assumption|].
  eapply R_trans; [exact Hm|apply Hk].
Qed.

Lemma keeps_try_except {A : Type} (m : M A) (h : exn -> M A) :
  keeps R m -> (forall x, keeps R (h x)) -> keeps R (try_except m h).
Proof.
  intros Hm Hh e w. unfold try_except. specialize (Hm e w).
  destruct (m e w) as [[x|a] w1]; simpl in *; [|assumption].
  eapply R_trans; [exact Hm|apply Hh].
Qed.

Lemma keeps_raise {A : Type} (x : exn) : keeps R (@raise A x).
Proof. intros e w. apply R_refl. Qed.

Lemma keeps_logged {A : Type} (log : string -> M unit) prefix (m : M A) :
  (forall msg, keeps R (log msg)) -> keeps R m -> keeps R (logged log prefix m).
Proof.
  intros Hlog Hm. apply keeps_try_except; [assumption|].
  intros x. apply keeps_bind; [apply Hlog|]. intros _. apply keeps_raise.
Qed.

End Keeps.

Section StoreRelations.
Import Effects.

Lemma keeps_weaken (R R' : world -> world -> Prop) {A : Type} (m : M A) :
  (forall w w', R w w' -> R' w w') -> keeps R m -> keeps R' m.
Proof. intros HR Hm e w. apply HR, Hm. Qed.

Lemma same_store_refl w : same_store w w.
Proof. now split. Qed.

Lemma same_store_trans w1 w2 w3 :
  same_store w1 w2 -> same_store w2 w3 -> same_store w1 w3.
Proof.
  intros [Hc1 Ht1] [Hc2 Ht2]. split; [congruence|].
  intros db. now rewrite Ht2, Ht1.
Qed.

Lemma same_but_table_refl db table w : same_but_table db table w w.
Proof. now split. Qed.

Lemma same_but_table_trans db table w1 w2 w3 :
  same_but_table db table w1 w2 -> same_but_table db table w2 w3 ->
  same_but_table db table w1 w3.
Proof.
  intros [Hc1 Ht1] [Hc2 Ht2]. split; [congruence|].
  intros db' t' H. now rewrite Ht2, Ht1.
Qed.

Lemma same_but_file_refl path w : same_but_file path w w.
Proof. now split. Qed.

Lemma same_but_file_trans path w1 w2 w3 :
  same_but_file path w1 w2 -> same_but_file path w2 w3 -> same_but_file path w1 w3.
Proof.
  intros [Hc1 Ht1] [Hc2 Ht2]. split.
  - intros p Hp. now rewrite Hc2, Hc1.
  - intros db. now rewrite Ht2, Ht1.
Qed.

Lemma same_store_but_table db table w w' :
  same_store w w' -> same_but_table db table w w'.
Proof. intros [Hc Ht]. split; [assumption|]. intros db' t' _. now rewrite Ht. Qed.

Lemma same_store_but_file path w w' :
  same_store w w' -> same_but_file path w w'.
Proof. intros [Hc Ht]. split; [|assumption]. intros p _. now rewrite Hc. Qed.

Lemma keeps_quiet {A : Type} (m : M A) :
  (forall e w, csvs (snd (m e w)) = csvs w /\ databases (snd (m e w)) = databases w) ->
  keeps same_store m.
Proof.
  intros H e w. destruct (H e w) as [Hc Hd]. split; [assumption|].
  intros db. unfold tables_of. now rewrite Hd.
Qed.

Lemma keeps_ret {A : Type} (a : A) : keeps same_store (ret a).
Proof. now apply keeps_quiet. Qed.

Lemma keeps_lift {A : Type} (r : exn + A) : keeps same_store (lift r).
Proof. now apply keeps_quiet. Qed.

Lemma keeps_fetch url : keeps same_store (fetch url).
Proof. now apply keeps_quiet. Qed.

Lemma keeps_print x : keeps same_store (print x).
Proof. now apply keeps_quiet. Qed.

Lemma keeps_close conn : keeps same_store (close conn).
Proof. now apply keeps_quiet. Qed.

Lemma keeps_read_sql_query statement conn :
  keeps same_store (read_sql_query statement conn).
Proof. now apply keeps_quiet. Qed.

Lemma keeps_bank_log l msg : keeps same_store (Bank.log l msg).
Proof. now apply keeps_quiet. Qed.

Lemma keeps_log_progress msg : keeps same_store (GDP.log_progress msg).
Proof. now apply keeps_quiet. Qed.

(** [sqlite3.connect] creates the file when it is not there, with no
    table in it. *)
Lemma keeps_connect db : keeps same_store (connect db).
Proof.
  intros e w. unfold connect. destruct (connect_error e db); [apply same_store_refl|].
  split; [reflexivity|]. intros db'. unfold tables_of. cbn.
  destruct (decide (db = db')) as [->|Hne].
  - now rewrite lookup_insert_eq.
  - now rewrite lookup_insert_ne.
Qed.

(** The connection handed on is the file it was opened on. *)
Lemma keeps_bind_connect (R : world -> world -> Prop) {B : Type} db (k : connection -> M B) :
  (forall w w', same_store w w' -> R w w') ->
  (forall w, R w w) ->
  (forall w1 w2 w3, R w1 w2 -> R w2 w3 -> R w1 w3) ->
  keeps R (k db) -> keeps R (bind (connect db) k).
Proof.
  intros Hweak Hrefl Htrans Hk e w. unfold bind.
  pose proof (keeps_connect db e w) as Hc. unfold connect in *.
  destruct (connect_error e db); [apply Hrefl|].
  eapply Htrans; [apply Hweak, Hc|apply Hk].
Qed.

(** [to_sql] writes its table, [to_csv] its file. *)
Lemma keeps_to_sql df table conn mode :
  keeps (same_but_table conn table) (to_sql df table conn mode).
Proof.
  intros e w. unfold to_sql.
  destruct (to_sql_error e conn table); [apply same_but_table_refl|].
  assert (Hw : forall t,
             same_but_table conn table w
               {| logs := logs w; csvs := csvs w;
                  databases := <[conn := <[table := t]> (tables_of conn w)]> (databases w);
                  stdout := stdout w; ticks := ticks w |}).
  { intros t. split; [reflexivity|]. intros db' t' Hne. unfold tables_of at 1. cbn.
    destruct (decide (conn = db')) as [<-|Hdb].
    - rewrite lookup_insert_eq. cbn. destruct Hne as [Hne|Hne]; [contradiction|].
      now rewrite lookup_insert_ne by congruence.
    - now rewrite lookup_insert_ne. }
  destruct (tables_of conn w !! table), mode; cbn;
    first [apply Hw | apply same_but_table_refl].
Qed.

Lemma keeps_to_csv df path index : keeps (same_but_file path) (to_csv df path index).
Proof.
  intros e w. unfold to_csv. destruct (write_error e path); [apply same_but_file_refl|].
  split; [|reflexivity]. intros p Hp. cbn. now rewrite lookup_insert_ne by congruence.
Qed.

End StoreRelations.

Create HintDb keeps.
#[export] Hint Resolve keeps_ret keeps_lift keeps_fetch keeps_print keeps_close
  keeps_read_sql_query keeps_bank_log keeps_log_progress keeps_connect : keeps.

(** One step through a script, for any of the three relations. *)
Ltac keeps_order :=
  first [ exact same_store_refl | exact same_store_trans
        | exact (same_but_table_refl _ _) | exact (same_but_table_trans _ _)
        | exact (same_but_file_refl _) | exact (same_but_file_trans _) ].

Ltac keeps_weaker :=
  first [ exact (fun _ _ H => H) | exact (same_store_but_table _ _)
        | exact (same_store_but_file _) ].

Ltac keeps_leaf :=
  first [ apply keeps_bank_log
        | solve [auto with keeps]
        | apply keeps_to_sql
        | apply keeps_to_csv
        | apply (keeps_weaken Effects.same_store);
          [keeps_weaker
          |first [apply keeps_bank_log | solve [auto with keeps]]] ].

Ltac keeps_step :=
  lazymatch goal with
  | |- Effects.keeps _ (bind (connect _) _) =>
      apply keeps_bind_connect; [keeps_weaker|keeps_order|keeps_order|]
  | |- Effects.keeps _ (bind _ _) => apply keeps_bind; [keeps_order | |intros ?]
  | |- Effects.keeps _ (logged _ _ _) =>
      apply keeps_logged; [keeps_order|keeps_order|intros ?|]
  | |- Effects.keeps _ (try_except _ _) => apply keeps_try_except; [keeps_order | |intros ?]
  | |- Effects.keeps _ (raise _) => apply keeps_raise; keeps_order
  | |- Effects.keeps _ _ => keeps_leaf
  end.

Section WhatTheStagesWrite.
Import Effects.

Lemma keeps_run_queries q conn : keeps same_store (Bank.run_queries q conn).
Proof. unfold Bank.run_queries, Bank.info, Bank.error. repeat keeps_step. Qed.

Lemma keeps_run_query q conn : keeps same_store (GDP.run_query q conn).
Proof. unfold GDP.run_query. repeat keeps_step. Qed.

Lemma keeps_bank_load_to_db df db table :
  keeps (same_but_table db table) (Bank.load_to_db df db table).
Proof. unfold Bank.load_to_db, Bank.info, Bank.error. repeat keeps_step. Qed.

Lemma keeps_gdp_load_to_db df conn table :
  keeps (same_but_table conn table) (GDP.load_to_db df conn table).
Proof. unfold GDP.load_to_db. repeat keeps_step. Qed.

Lemma keeps_bank_load_to_csv df path :
  keeps (same_but_file path) (Bank.load_to_csv df path).
Proof. unfold Bank.load_to_csv, Bank.info, Bank.error. repeat keeps_step. Qed.

Lemma keeps_gdp_load_to_csv df path :
  keeps (same_but_file path) (GDP.load_to_csv df path).
Proof. unfold GDP.load_to_csv. repeat keeps_step. Qed.

End WhatTheStagesWrite.

(** ** A run that returned, taken apart *)

Section Pipelines.
Import Effects.

Lemma connect_inl db e w x w' :
  connect db e w = (inl x, w') -> connect_error e db = Some x /\ w' = w.
Proof.
  unfold connect. destruct (connect_error e db); intros H; [|discriminate].
  injection H as -> <-. auto.
Qed.

Lemma connect_inr db e w conn w' :
  connect db e w = (inr conn, w') -> conn = db /\ same_store w w'.
Proof.
  intros H. split.
  - unfold connect in H. destruct (connect_error e db); [discriminate|].
    now injection H as <- _.
  - exact (keeps_run _ _ _ _ _ _ (keeps_connect db) H).
Qed.

Lemma to_csv_inr df path index e w w' :
  to_csv df path index e w = (inr tt, w') -> csvs w' !! path = Some (csv_of df index).
Proof.
  unfold to_csv. destruct (write_error e path); [discriminate|].
  intros H. injection H as <-. cbn. apply lookup_insert_eq.
Qed.

Lemma to_sql_replace_inr df table conn e w w' :
  to_sql df table conn if_exists_replace e w = (inr tt, w') ->
  tables_of conn w' !! table = Some df.
Proof.
  unfold to_sql. destruct (to_sql_error e conn table); [discriminate|].
  destruct (tables_of conn w !! table); cbn; intros H; injection H as <-;
    unfold tables_of at 1; cbn; rewrite lookup_insert_eq; cbn; apply lookup_insert_eq.
Qed.

Lemma bank_load_to_csv_inr df path e w w' :
  Bank.load_to_csv df path e w = (inr tt, w') ->
  csvs w' !! path = Some (csv_of df false).
Proof.
  intros H. unfold Bank.load_to_csv in H. apply bank_stage_inr in H.
  apply bind_inr_inv in H. destruct H as [[] [w1 [H1 H2]]].
  apply to_csv_inr in H1.
  destruct (keeps_run _ _ _ _ _ _ (keeps_bank_log _ _) H2) as [Hc _]. now rewrite Hc.
Qed.

Lemma bank_load_to_db_inr df db table e w w' :
  Bank.load_to_db df db table e w = (inr tt, w') ->
  tables_of db w' !! table = Some df.
Proof.
  intros H. unfold Bank.load_to_db in H. apply bank_stage_inr in H.
  apply bind_inr_inv in H. destruct H as [conn [w1 [H1 H]]].
  apply connect_inr in H1. destruct H1 as [-> _].
  apply bind_inr_inv in H. destruct H as [[] [w2 [H2 H]]].
  apply to_sql_replace_inr in H2.
  apply bind_inr_inv in H. destruct H as [[] [w3 [H3 H]]].
  destruct (keeps_run _ _ _ _ _ _ (keeps_close _) H3) as [_ Ht3].
  destruct (keeps_run _ _ _ _ _ _ (keeps_bank_log _ _) H) as [_ Ht].
  now rewrite Ht, Ht3.
Qed.

Lemma gdp_load_to_csv_inr df path e w w' :
  GDP.load_to_csv df path e w = (inr tt, w') ->
  csvs w' !! path = Some (csv_of df false) /\
  exists w1, w' = GDPLog.logged_world ("Data saved to CSV file: " ++ path) e w1.
Proof.
  intros H. unfold GDP.load_to_csv in H. apply logged_inr_inv in H.
  apply bind_inr_inv in H. destruct H as [[] [w1 [H1 H2]]].
  apply to_csv_inr in H1.
  destruct (keeps_run _ _ _ _ _ _ (keeps_log_progress _) H2) as [Hc _].
  rewrite gdp_log_run in H2. injection H2 as <-.
  split; [now rewrite Hc|eauto].
Qed.

Lemma gdp_load_to_db_inr df conn table e w w' :
  GDP.load_to_db df conn table e w = (inr tt, w') ->
  tables_of conn w' !! table = Some df.
Proof.
  intros H. unfold GDP.load_to_db in H. apply logged_inr_inv in H.
  apply bind_inr_inv in H. destruct H as [[] [w1 [H1 H2]]].
  apply to_sql_replace_inr in H1.
  destruct (keeps_run _ _ _ _ _ _ (keeps_log_progress _) H2) as [_ Ht].
  now rewrite Ht.
Qed.

Lemma bank_extract_data_inr url e w df w' :
  Bank.extract_data url e w = (inr df, w') ->
  exists soup banks w1,
    http_get e url = inr soup /\
    Bank.extract_banks soup = inr banks /\
    df = Bank.frame_of banks /\
    w' = BankLog.logged_world Bank.INFO
           ("Extracted " ++ str_nat (len df) ++ " rows successfully.") e w1.
Proof.
  intros H. unfold Bank.extract_data in H. apply bank_stage_inr in H.
  apply bind_inr_inv in H. destruct H as [soup [w1 [Hs H]]].
  unfold fetch in Hs. injection Hs as Hs _.
  apply bind_inr_inv in H. destruct H as [banks [w2 [Hb H]]].
  unfold lift in Hb. injection Hb as Hb _.
  apply bind_inr_inv in H. destruct H as [[] [w3 [_ H]]].
  apply bind_inr_inv in H. destruct H as [[] [w4 [Hl H]]].
  unfold ret in H. injection H as <- <-.
  unfold Bank.info in Hl. rewrite log_run in Hl. injection Hl as <-.
  exists soup, banks, w3. auto.
Qed.

Lemma bank_transform_data_inr banks e w df w' :
  Bank.transform_data (Bank.frame_of banks) Bank.conversion_file e w = (inr df, w') ->
  banks <> [] /\
  exists rates, read_rates e Bank.conversion_file = inr rates /\
                df = BankFrame.transformed banks rates.
Proof.
  intros H. assert (Hne : banks <> []).
  { intros ->. destruct (transform_data_empty e w) as [w1 Hw]. rewrite Hw in H. discriminate. }
  split; [assumption|].
  pose proof H as H0. unfold Bank.transform_data in H0. apply bank_stage_inr in H0.
  apply bind_inr_inv in H0. destruct H0 as [rates [w1 [Hr _]]].
  injection Hr as Hr _. exists rates. split; [assumption|].
  rewrite (transform_data_run banks rates e w Hne Hr) in H. now injection H as <- _.
Qed.

Lemma bank_etl_inr e w w' :
  Bank.etl e w = (inr tt, w') ->
  exists df0 w1 df w2 w3 w4 w5,
    Bank.extract_data Bank.url e w = (inr df0, w1) /\
    Bank.transform_data df0 Bank.conversion_file e w1 = (inr df, w2) /\
    Bank.load_to_csv df Bank.csv_file_path e w2 = (inr tt, w3) /\
    Bank.load_to_db df Bank.database_file Bank.db_table e w3 = (inr tt, w4) /\
    same_store w4 w5 /\
    w' = BankLog.logged_world Bank.INFO
           "ETL process and queries completed successfully." e w5.
Proof.
  unfold Bank.etl. intros H.
  apply bind_inr_inv in H. destruct H as [df0 [w1 [H1 H]]].
  apply bind_inr_inv in H. destruct H as [df [w2 [H2 H]]].
  apply bind_inr_inv in H. destruct H as [[] [w3 [H3 H]]].
  apply bind_inr_inv in H. destruct H as [[] [w4 [H4 H]]].
  apply bind_inr_inv in H. destruct H as [conn [wa [Ha H]]].
  apply bind_inr_inv in H. destruct H as [[] [wb [Hb H]]].
  apply bind_inr_inv in H. destruct H as [[] [wc [Hc H]]].
  apply bind_inr_inv in H. destruct H as [[] [wd [Hd H]]].
  apply bind_inr_inv in H. destruct H as [[] [we [He H]]].
  apply bind_inr_inv in H. destruct H as [[] [wf [Hf H]]].
  unfold Bank.info in H. rewrite log_run in H. injection H as <-.
  exists df0, w1, df, w2, w3, w4, wf.
  split; [exact H1|]. split; [exact H2|]. split; [exact H3|]. split; [exact H4|].
  split; [|reflexivity].
  eapply same_store_trans; [exact (keeps_run _ _ _ _ _ _ (keeps_connect _) Ha)|].
  eapply same_store_trans; [exact (keeps_run _ _ _ _ _ _ (keeps_bank_log _ _) Hb)|].
  eapply same_store_trans; [exact (keeps_run _ _ _ _ _ _ (keeps_run_queries _ _) Hc)|].
  eapply same_store_trans; [exact (keeps_run _ _ _ _ _ _ (keeps_run_queries _ _) Hd)|].
  eapply same_store_trans; [exact (keeps_run _ _ _ _ _ _ (keeps_run_queries _ _) He)|].
  exact (keeps_run _ _ _ _ _ _ (keeps_close _) Hf).
Qed.

Lemma gdp_extract_inr url attribs e w df w' :
  GDP.extract url attribs e w = (inr df, w') ->
  exists soup, http_get e url = inr soup /\ GDP.extract_frame soup attribs = inr df /\ w' = w.
Proof.
  intros H. unfold GDP.extract in H. apply logged_inr_inv in H.
  apply bind_inr_inv in H. destruct H as [soup [w1 [Hs H]]].
  unfold fetch in Hs. injection Hs as Hs <-.
  unfold lift in H. injection H as H <-. eauto.
Qed.

Lemma appends_bank_try :
  LogDiscipline.appends Bank.log_file LogDiscipline.bank_line
    (try_except Bank.etl (fun x => Bank.critical ("ETL process failed: " ++ message x))).
Proof.
  unfold Bank.etl, Bank.extract_data, Bank.transform_data, Bank.load_to_csv,
    Bank.load_to_db, Bank.run_queries.
  repeat appends_step; try apply appends_convert_all.
  now apply appends_silent.
Qed.

End Pipelines.

(** ** The lines of a run in which nothing fails *)

Section Wrote.
Import Effects.
Context {X : Type}.
Variable path : string.
Variable line : datetime -> X -> string.

Lemma stamped_app e n (xs ys : list X) :
  stamped line e n (xs ++ ys) =
  (stamped line e n xs ++ stamped line e (n + length xs) ys)%list.
Proof.
  revert n. induction xs as [|x rest IH]; intros n; simpl.
  - now rewrite Nat.add_0_r.
  - rewrite IH. now replace (S n + length rest) with (n + S (length rest)) by lia.
Qed.

Lemma wrote_nothing e w w' : same_log w w' -> wrote path line e [] w w'.
Proof.
  intros [Hl Ht]. split; simpl.
  - unfold read_lines. now rewrite Hl, app_nil_r.
  - lia.
Qed.

Lemma wrote_app e xs ys w1 w2 w3 :
  wrote path line e xs w1 w2 -> wrote path line e ys w2 w3 ->
  wrote path line e (xs ++ ys) w1 w3.
Proof.
  intros [H1 T1] [H2 T2]. split.
  - rewrite H2, H1, T1, stamped_app, app_assoc. reflexivity.
  - rewrite T2, T1, length_app. lia.
Qed.

Lemma wrote_line e x w :
  wrote path line e [x] w (snd (bind now (fun t => append_line path (line t x)) e w)).
Proof.
  split.
  - unfold bind, now, append_line, read_lines. cbn. now rewrite lookup_insert_eq.
  - cbn. lia.
Qed.

End Wrote.

Section Silent.
Import Effects.

Lemma same_log_refl w : same_log w w.
Proof. now split. Qed.

Lemma same_log_trans w1 w2 w3 : same_log w1 w2 -> same_log w2 w3 -> same_log w1 w3.
Proof. intros [L1 T1] [L2 T2]. split; congruence. Qed.

Lemma silent_fetch url : keeps same_log (fetch url).
Proof. intros e w. apply same_log_refl. Qed.

Lemma silent_lift {A : Type} (r : exn + A) : keeps same_log (lift r).
Proof. intros e w. apply same_log_refl. Qed.

Lemma silent_ret {A : Type} (a : A) : keeps same_log (ret a).
Proof. intros e w. apply same_log_refl. Qed.

Lemma silent_print x : keeps same_log (print x).
Proof. intros e w. now split. Qed.

Lemma silent_close conn : keeps same_log (close conn).
Proof. intros e w. apply same_log_refl. Qed.

Lemma silent_read_sql_query statement conn : keeps same_log (read_sql_query statement conn).
Proof. intros e w. apply same_log_refl. Qed.

Lemma silent_to_csv df path index : keeps same_log (to_csv df path index).
Proof. intros e w. unfold to_csv. now destruct (write_error e path). Qed.

Lemma silent_connect db : keeps same_log (connect db).
Proof. intros e w. unfold connect. now destruct (connect_error e db). Qed.

Lemma silent_to_sql df table conn mode : keeps same_log (to_sql df table conn mode).
Proof.
  intros e w. unfold to_sql. destruct (to_sql_error e conn table); [apply same_log_refl|].
  destruct (tables_of conn w !! table), mode; now split.
Qed.

End Silent.

Section BankLines.
Import Effects Stages.

Lemma bank_wrote_one l msg e w :
  bank_wrote e [(l, msg)] w (BankLog.logged_world l msg e w).
Proof. apply (wrote_line Bank.log_file bank_record e (l, msg) w). Qed.

Lemma bank_info_inr msg e w u w' :
  Bank.info msg e w = (inr u, w') -> bank_wrote e [(Bank.INFO, msg)] w w'.
Proof.
  unfold Bank.info. rewrite log_run. intros H. injection H as _ <-. apply bank_wrote_one.
Qed.

Lemma bank_wrote_all entries : forall e w,
  bank_wrote e entries w (BankLog.logged_all entries e w).
Proof.
  induction entries as [|[l msg] rest IH]; intros e w.
  - apply wrote_nothing, same_log_refl.
  - apply (wrote_app _ _ e [(l, msg)] rest w (BankLog.logged_world l msg e w));
      [apply bank_wrote_one|apply IH].
Qed.

Lemma bank_silent {A : Type} (m : M A) e w r w' :
  keeps same_log m -> m e w = (r, w') -> bank_wrote e [] w w'.
Proof. intros Hm H. apply wrote_nothing. exact (keeps_run _ _ _ _ _ _ Hm H). Qed.

Lemma bank_extract_data_wrote url e w df w' :
  Bank.extract_data url e w = (inr df, w') ->
  bank_wrote e
    [(Bank.INFO, "Starting data extraction.");
     (Bank.INFO, "Extracted " ++ str_nat (len df) ++ " rows successfully.")] w w'.
Proof.
  intros H. unfold Bank.extract_data in H. apply bank_stage_inr in H.
  apply bind_inr_inv in H. destruct H as [soup [w1 [Hs H]]].
  apply bind_inr_inv in H. destruct H as [banks [w2 [Hb H]]].
  apply bind_inr_inv in H. destruct H as [[] [w3 [Hp H]]].
  apply bind_inr_inv in H. destruct H as [[] [w4 [Hl H]]].
  unfold ret in H. injection H as <- <-.
  eapply (wrote_app _ _ e [_] [_]); [apply bank_wrote_one|].
  eapply (wrote_app _ _ e [] [_]); [exact (bank_silent _ _ _ _ _ (silent_fetch _) Hs)|].
  eapply (wrote_app _ _ e [] [_]); [exact (bank_silent _ _ _ _ _ (silent_lift _) Hb)|].
  eapply (wrote_app _ _ e [] [_]); [exact (bank_silent _ _ _ _ _ (silent_print _) Hp)|].
  exact (bank_info_inr _ _ _ _ _ Hl).
Qed.

Lemma bank_load_to_csv_wrote df path e w w' :
  Bank.load_to_csv df path e w = (inr tt, w') ->
  bank_wrote e
    [(Bank.INFO, "Starting CSV loading.");
     (Bank.INFO, "Data saved to CSV file at " ++ path ++ ".")] w w'.
Proof.
  intros H. unfold Bank.load_to_csv in H. apply bank_stage_inr in H.
  apply bind_inr_inv in H. destruct H as [[] [w1 [H1 H]]].
  eapply (wrote_app _ _ e [_] [_]); [apply bank_wrote_one|].
  eapply (wrote_app _ _ e [] [_]); [exact (bank_silent _ _ _ _ _ (silent_to_csv _ _ _) H1)|].
  exact (bank_info_inr _ _ _ _ _ H).
Qed.

Lemma bank_load_to_db_wrote df db table e w w' :
  Bank.load_to_db df db table e w = (inr tt, w') ->
  bank_wrote e
    [(Bank.INFO, "Starting database loading.");
     (Bank.INFO, "Data loaded to database table '" ++ table ++ "'.")] w w'.
Proof.
  intros H. unfold Bank.load_to_db in H. apply bank_stage_inr in H.
  apply bind_inr_inv in H. destruct H as [conn [w1 [H1 H]]].
  apply bind_inr_inv in H. destruct H as [[] [w2 [H2 H]]].
  apply bind_inr_inv in H. destruct H as [[] [w3 [H3 H]]].
  eapply (wrote_app _ _ e [_] [_]); [apply bank_wrote_one|].
  eapply (wrote_app _ _ e [] [_]); [exact (bank_silent _ _ _ _ _ (silent_connect _) H1)|].
  eapply (wrote_app _ _ e [] [_]);
    [exact (bank_silent _ _ _ _ _ (silent_to_sql _ _ _ _) H2)|].
  eapply (wrote_app _ _ e [] [_]); [exact (bank_silent _ _ _ _ _ (silent_close _) H3)|].
  exact (bank_info_inr _ _ _ _ _ H).
Qed.

Lemma bank_run_queries_wrote q conn e w w' :
  Bank.run_queries q conn e w = (inr tt, w') ->
  bank_wrote e
    [(Bank.INFO, "Running query: " ++ q); (Bank.INFO, "Query executed successfully.")] w w'.
Proof.
  intros H. unfold Bank.run_queries in H. apply bank_stage_inr in H.
  apply bind_inr_inv in H. destruct H as [[] [w1 [H1 H]]].
  apply bind_inr_inv in H. destruct H as [answer [w2 [H2 H]]].
  apply bind_inr_inv in H. destruct H as [[] [w3 [H3 H]]].
  eapply (wrote_app _ _ e [_] [_]); [apply bank_wrote_one|].
  eapply (wrote_app _ _ e [] [_]); [exact (bank_silent _ _ _ _ _ (silent_print _) H1)|].
  eapply (wrote_app _ _ e [] [_]);
    [exact (bank_silent _ _ _ _ _ (silent_read_sql_query _ _) H2)|].
  eapply (wrote_app _ _ e [] [_]); [exact (bank_silent _ _ _ _ _ (silent_print _) H3)|].
  exact (bank_info_inr _ _ _ _ _ H).
Qed.

End BankLines.

Section GDPLines.
Import Effects Stages.

Lemma gdp_log_inr msg e w u w' :
  GDP.log_progress msg e w = (inr u, w') -> gdp_wrote e [msg] w w'.
Proof.
  intros H. pose proof (wrote_line GDP.log_file gdp_message e msg w) as Hw.
  unfold GDP.log_progress in H. unfold gdp_message in Hw at 2. now rewrite H in Hw.
Qed.

Lemma gdp_silent {A : Type} (m : M A) e w r w' :
  keeps same_log m -> m e w = (r, w') -> gdp_wrote e [] w w'.
Proof. intros Hm H. apply wrote_nothing. exact (keeps_run _ _ _ _ _ _ Hm H). Qed.

Lemma gdp_load_to_csv_wrote df path e w w' :
  GDP.load_to_csv df path e w = (inr tt, w') ->
  gdp_wrote e ["Data saved to CSV file: " ++ path] w w'.
Proof.
  intros H. unfold GDP.load_to_csv in H. apply logged_inr_inv in H.
  apply bind_inr_inv in H. destruct H as [[] [w1 [H1 H]]].
  eapply (wrote_app _ _ e [] [_]); [exact (gdp_silent _ _ _ _ _ (silent_to_csv _ _ _) H1)|].
  exact (gdp_log_inr _ _ _ _ _ H).
Qed.

Lemma gdp_load_to_db_wrote df conn table e w w' :
  GDP.load_to_db df conn table e w = (inr tt, w') ->
  gdp_wrote e ["Data loaded to Database as table: " ++ table] w w'.
Proof.
  intros H. unfold GDP.load_to_db in H. apply logged_inr_inv in H.
  apply bind_inr_inv in H. destruct H as [[] [w1 [H1 H]]].
  eapply (wrote_app _ _ e [] [_]);
    [exact (gdp_silent _ _ _ _ _ (silent_to_sql _ _ _ _) H1)|].
  exact (gdp_log_inr _ _ _ _ _ H).
Qed.

Lemma gdp_run_query_wrote q conn e w w' :
  GDP.run_query q conn e w = (inr tt, w') -> gdp_wrote e [] w w'.
Proof.
  intros H. unfold GDP.run_query in H. apply logged_inr_inv in H.
  apply bind_inr_inv in H. destruct H as [answer [w1 [H1 H]]].
  eapply (wrote_app _ _ e [] []);
    [exact (gdp_silent _ _ _ _ _ (silent_read_sql_query _ _) H1)|].
  exact (gdp_silent _ _ _ _ _ (silent_print _) H).
Qed.

End GDPLines.

Section WholeRuns.
Import Effects Stages.

Lemma len_frame_of banks : len (Bank.frame_of banks) = length banks.
Proof. destruct banks as [|b banks]; [reflexivity|]. simpl. now rewrite length_map. Qed.

(** [transform] of the GDP script writes no line when it returns. *)
Lemma gdp_transform_silent df e w df' w' :
  GDP.transform df e w = (inr df', w') -> same_log w w'.
Proof.
  intros H. unfold GDP.transform in H. apply logged_inr_inv in H.
  refine (keeps_run _ _ _ _ _ _ _ H).
  repeat (apply keeps_bind; [exact same_log_trans|apply silent_lift|intros ?]).
  apply silent_ret.
Qed.

Lemma bank_etl_wrote e w w' :
  Bank.etl e w = (inr tt, w') ->
  exists banks rates,
    (exists soup, http_get e Bank.url = inr soup /\ Bank.extract_banks soup = inr banks) /\
    read_rates e Bank.conversion_file = inr rates /\
    bank_wrote e
      ([(Bank.INFO, "Starting data extraction.");
        (Bank.INFO, ("Extracted " ++ str_nat (length banks) ++ " rows successfully.")%string)] ++
       BankFrame.transform_entries rates ++
       [(Bank.INFO, "Starting CSV loading.");
        (Bank.INFO, ("Data saved to CSV file at " ++ Bank.csv_file_path ++ ".")%string);
        (Bank.INFO, "Starting database loading.");
        (Bank.INFO, ("Data loaded to database table '" ++ Bank.db_table ++ "'.")%string);
        (Bank.INFO, "SQL Connection established for running queries.");
        (Bank.INFO, "Running query: SELECT * FROM Largest_banks");
        (Bank.INFO, "Query executed successfully.");
        (Bank.INFO,
         "Running query: SELECT AVG(`Market Cap (GBP)`) AS Avg_MC_GBP_Billion FROM Largest_banks");
        (Bank.INFO, "Query executed successfully.");
        (Bank.INFO, "Running query: SELECT `Bank Name` FROM Largest_banks LIMIT 5");
        (Bank.INFO, "Query executed successfully.");
        (Bank.INFO, "ETL process and queries completed successfully.")])%list w w'.
Proof.
  unfold Bank.etl. intros H.
  apply bind_inr_inv in H. destruct H as [df0 [w1 [H1 H]]].
  apply bind_inr_inv in H. destruct H as [df [w2 [H2 H]]].
  apply bind_inr_inv in H. destruct H as [[] [w3 [H3 H]]].
  apply bind_inr_inv in H. destruct H as [[] [w4 [H4 H]]].
  apply bind_inr_inv in H. destruct H as [conn [wa [Ha H]]].
  apply bind_inr_inv in H. destruct H as [[] [wb [Hb H]]].
  apply bind_inr_inv in H. destruct H as [[] [wc [Hc H]]].
  apply bind_inr_inv in H. destruct H as [[] [wd [Hd H]]].
  apply bind_inr_inv in H. destruct H as [[] [we [He H]]].
  apply bind_inr_inv in H. destruct H as [[] [wf [Hf H]]].
  pose proof (bank_extract_data_wrote _ _ _ _ _ H1) as W1.
  destruct (bank_extract_data_inr _ _ _ _ _ H1) as (soup & banks & w0 & Hs & Hbanks & -> & _).
  rewrite len_frame_of in W1.
  destruct (bank_transform_data_inr _ _ _ _ _ H2) as (Hne & rates & Hr & ->).
  rewrite (transform_data_run banks rates e w1 Hne Hr) in H2. injection H2 as <-.
  exists banks, rates. split; [eauto|]. split; [assumption|].
  pose proof (bank_info_inr _ _ _ _ _ H) as W.
  pose proof (wrote_app _ _ _ _ _ _ _ _ (bank_silent _ _ _ _ _ (silent_close _) Hf) W) as W'.
  clear W. rename W' into W.
  pose proof (wrote_app _ _ _ _ _ _ _ _ (bank_run_queries_wrote _ _ _ _ _ He) W) as W'.
  clear W. rename W' into W.
  pose proof (wrote_app _ _ _ _ _ _ _ _ (bank_run_queries_wrote _ _ _ _ _ Hd) W) as W'.
  clear W. rename W' into W.
  pose proof (wrote_app _ _ _ _ _ _ _ _ (bank_run_queries_wrote _ _ _ _ _ Hc) W) as W'.
  clear W. rename W' into W.
  pose proof (wrote_app _ _ _ _ _ _ _ _ (bank_info_inr _ _ _ _ _ Hb) W) as W'.
  clear W. rename W' into W.
  pose proof (wrote_app _ _ _ _ _ _ _ _ (bank_silent _ _ _ _ _ (silent_connect _) Ha) W) as W'.
  clear W. rename W' into W.
  pose proof (wrote_app _ _ _ _ _ _ _ _ (bank_load_to_db_wrote _ _ _ _ _ _ H4) W) as W'.
  clear W. rename W' into W.
  pose proof (wrote_app _ _ _ _ _ _ _ _ (bank_load_to_csv_wrote _ _ _ _ _ H3) W) as W'.
  clear W. rename W' into W.
  pose proof (wrote_app _ _ _ _ _ _ _ _ (bank_wrote_all (BankFrame.transform_entries rates) e w1) W)
    as W'.
  clear W. rename W' into W.
  exact (wrote_app _ _ _ _ _ _ _ _ W1 W).
Qed.

End WholeRuns.

(** ** What a whole run leaves in the store *)

Section StoreOfARun.
Import Effects Stages.

Lemma run_fst {A : Type} (m : M A) e w r :
  fst (m e w) = r -> m e w = (r, snd (m e w)).
Proof. intros <-. now destruct (m e w). Qed.

Lemma keeps_extract_data url : keeps same_store (Bank.extract_data url).
Proof. unfold Bank.extract_data, Bank.info, Bank.error. repeat keeps_step. Qed.

Lemma keeps_convert_all rates cs : forall df,
  keeps same_store (Bank.convert_all rates df cs).
Proof.
  induction cs as [|c rest IH]; intros df; simpl; [apply keeps_ret|].
  apply keeps_bind; [exact same_store_trans| |intros ?; apply IH].
  unfold Bank.convert, Bank.warning. destruct (Bank.rate_of rates c); repeat keeps_step.
Qed.

Lemma keeps_transform_data df file : keeps same_store (Bank.transform_data df file).
Proof.
  unfold Bank.transform_data, Bank.info, Bank.error.
  keeps_step; [keeps_step|]. keeps_step; [keeps_step|].
  keeps_step; [now apply keeps_quiet|].
  keeps_step; [apply keeps_convert_all|].
  repeat keeps_step.
Qed.

Lemma keeps_gdp_extract url attribs : keeps same_store (GDP.extract url attribs).
Proof. unfold GDP.extract. repeat keeps_step. Qed.

Lemma keeps_gdp_transform df : keeps same_store (GDP.transform df).
Proof. unfold GDP.transform. repeat keeps_step. Qed.

Lemma bank_extract_data_returns url e w soup banks :
  http_get e url = inr soup ->
  Bank.extract_banks soup = inr banks ->
  fst (Bank.extract_data url e w) = inr (Bank.frame_of banks).
Proof.
  intros Hs Hb. unfold Bank.extract_data, Bank.info, logged.
  erewrite bind_inr by apply log_run.
  erewrite try_except_inr; [reflexivity|].
  erewrite bind_inr by (unfold fetch; rewrite Hs; reflexivity).
  erewrite bind_inr by (unfold lift; rewrite Hb; reflexivity).
  erewrite bind_inr by reflexivity.
  erewrite bind_inr by apply log_run. reflexivity.
Qed.

Lemma bank_load_to_csv_returns df path e w :
  write_error e path = None -> fst (Bank.load_to_csv df path e w) = inr tt.
Proof.
  intros Hw. unfold Bank.load_to_csv, Bank.info, logged.
  erewrite bind_inr by apply log_run.
  erewrite try_except_inr; [reflexivity|].
  erewrite bind_inr by (unfold to_csv; rewrite Hw; reflexivity).
  apply log_run.
Qed.

Lemma gdp_load_to_csv_returns df path e w :
  write_error e path = None -> fst (GDP.load_to_csv df path e w) = inr tt.
Proof.
  intros Hw. unfold GDP.load_to_csv, logged.
  erewrite try_except_inr; [reflexivity|].
  erewrite bind_inr by (unfold to_csv; rewrite Hw; reflexivity).
  apply gdp_log_run.
Qed.

Lemma bank_load_to_db_cannot_connect df db table e w x :
  connect_error e db = Some x ->
  Bank.load_to_db df db table e w =
  (inl x,
   BankLog.logged_world Bank.ERROR ("Error during database loading: " ++ message x) e
     (BankLog.logged_world Bank.INFO "Starting database loading." e w)).
Proof.
  intros Hc. unfold Bank.load_to_db, Bank.info, Bank.error, logged.
  erewrite bind_inr by apply log_run.
  erewrite try_except_inl
    by (erewrite bind_inl; [reflexivity|unfold connect; rewrite Hc; reflexivity]).
  erewrite bind_inr by apply log_run. reflexivity.
Qed.

Lemma gdp_extract_returns url attribs e w soup df :
  http_get e url = inr soup ->
  GDP.extract_frame soup attribs = inr df ->
  GDP.extract url attribs e w = (inr df, w).
Proof.
  intros Hs Hf. unfold GDP.extract, logged.
  erewrite try_except_inr; [reflexivity|].
  unfold bind, fetch, lift. now rewrite Hs, Hf.
Qed.

Lemma same_store_logged l msg e w : same_store w (BankLog.logged_world l msg e w).
Proof. apply (keeps_bank_log l msg e w). Qed.

Lemma same_store_gdp_logged msg e w : same_store w (GDPLog.logged_world msg e w).
Proof. apply (keeps_log_progress msg e w). Qed.

(** The file and the table after the statements under [try]. *)
Lemma bank_etl_store e w w' :
  Bank.etl e w = (inr tt, w') ->
  exists soup banks rates,
    http_get e Bank.url = inr soup /\
    Bank.extract_banks soup = inr banks /\
    banks <> [] /\
    read_rates e Bank.conversion_file = inr rates /\
    csvs w' !! Bank.csv_file_path = Some (csv_of (BankFrame.transformed banks rates) false) /\
    tables_of Bank.database_file w' !! Bank.db_table = Some (BankFrame.transformed banks rates).
Proof.
  intros H.
  destruct (bank_etl_inr _ _ _ H)
    as (df0 & w1 & df & w2 & w3 & w4 & w5 & H1 & H2 & H3 & H4 & [Hc Ht] & ->).
  destruct (bank_extract_data_inr _ _ _ _ _ H1) as (soup & banks & w0 & Hs & Hb & -> & _).
  destruct (bank_transform_data_inr _ _ _ _ _ H2) as (Hne & rates & Hr & ->).
  exists soup, banks, rates.
  destruct (same_store_logged Bank.INFO "ETL process and queries completed successfully." e w5)
    as [Hc5 Ht5].
  destruct (keeps_run _ _ _ _ _ _ (keeps_bank_load_to_db _ _ _) H4) as [Hc4 _].
  split; [assumption|]. split; [assumption|]. split; [assumption|]. split; [assumption|].
  split.
  - rewrite Hc5, Hc, Hc4. apply (bank_load_to_csv_inr _ _ _ _ _ H3).
  - rewrite Ht5, Ht. apply (bank_load_to_db_inr _ _ _ _ _ _ H4).
Qed.

(** The frame [transform] of the GDP script makes of the records it is
    given. *)
Lemma gdp_main_store e w w' :
  GDP.main e w = (inr tt, w') ->
  exists soup records ms,
    http_get e GDP.url = inr soup /\
    GDP.extract_frame soup GDP.table_attribs = inr (GDPFrame.frame_of records) /\
    Forall2 (fun r m => float (GDPFrame.cleaned r) = Some m) records ms /\
    csvs w' !! GDP.csv_path =
    Some (csv_of [("Country", Object (map fst records));
                  ("GDP_USD_billions",
                   Float64 (map (fun m => round2 (truediv m (of_Z 1000))) ms))] false) /\
    tables_of GDP.db_name w' !! GDP.table_name =
    Some [("Country", Object (map fst records));
          ("GDP_USD_billions", Float64 (map (fun m => round2 (truediv m (of_Z 1000))) ms))].
Proof.
  unfold GDP.main. intros H.
  apply bind_inr_inv in H. destruct H as [[] [w1 [_ H]]].
  apply bind_inr_inv in H. destruct H as [df0 [w2 [H2 H]]].
  apply bind_inr_inv in H. destruct H as [[] [w3 [_ H]]].
  apply bind_inr_inv in H. destruct H as [df [w4 [H4 H]]].
  apply bind_inr_inv in H. destruct H as [[] [w5 [_ H]]].
  apply bind_inr_inv in H. destruct H as [[] [w6 [H6 H]]].
  apply bind_inr_inv in H. destruct H as [conn [w7 [H7 H]]].
  apply bind_inr_inv in H. destruct H as [[] [w8 [H8 H]]].
  apply bind_inr_inv in H. destruct H as [[] [w9 [H9 H]]].
  apply bind_inr_inv in H. destruct H as [[] [w10 [H10 H]]].
  apply bind_inr_inv in H. destruct H as [[] [w11 [H11 H]]].
  unfold close, ret in H. injection H as <-.
  apply gdp_extract_inr in H2. destruct H2 as (soup & Hs & Hf & ->).
  assert (Hrec : exists records, df0 = GDPFrame.frame_of records).
  { unfold GDP.extract_frame in Hf.
    destruct (getitem (find_all "tbody" soup) 2) as [|tbody]; [discriminate|].
    rewrite empty_frame_attribs in Hf.
    destruct (gdp_extract_rows_frame_of _ _ _ Hf) as [new [-> _]]. eauto. }
  destruct Hrec as [records ->].
  rewrite gdp_transform_cases in H4.
  destruct (astype_float_list _) as [y|ms] eqn:Hms; [discriminate|].
  injection H4 as <- <-.
  apply astype_float_records_inv in Hms.
  apply connect_inr in H7. destruct H7 as [-> [Hc7 Ht7]].
  apply gdp_load_to_csv_inr in H6. destruct H6 as [H6 _].
  destruct (keeps_run _ _ _ _ _ _ (keeps_log_progress _) H8) as [Hc8 Ht8].
  destruct (keeps_run _ _ _ _ _ _ (keeps_gdp_load_to_db _ _ _) H9) as [Hc9 _].
  apply gdp_load_to_db_inr in H9.
  destruct (keeps_run _ _ _ _ _ _ (keeps_run_query _ _) H10) as [Hc10 Ht10].
  destruct (keeps_run _ _ _ _ _ _ (keeps_log_progress _) H11) as [Hc11 Ht11].
  exists soup, records, ms.
  split; [assumption|]. split; [assumption|]. split; [assumption|]. split.
  - rewrite Hc11, Hc10, Hc9, Hc8, Hc7. exact H6.
  - rewrite Ht11, Ht10. exact H9.
Qed.

(** The numbers read from the texts of a frame are settled by the
    frame. *)
Lemma gdp_numbers_settled records1 records2 ms1 ms2 :
  GDPFrame.frame_of records1 = GDPFrame.frame_of records2 ->
  Forall2 (fun r m => float (GDPFrame.cleaned r) = Some m) records1 ms1 ->
  Forall2 (fun r m => float (GDPFrame.cleaned r) = Some m) records2 ms2 ->
  map fst records1 = map fst records2 /\ ms1 = ms2.
Proof.
  intros Hf H1 H2. unfold GDPFrame.frame_of in Hf. injection Hf as Hc Hm.
  split; [assumption|].
  assert (Ht : map snd records1 = map snd records2).
  { clear -Hm. revert records2 Hm.
    induction records1 as [|r1 rest1 IH]; intros [|r2 rest2] Hm; simpl in Hm;
      try discriminate; [reflexivity|].
    injection Hm as Hs Hrest. simpl. now rewrite Hs, (IH _ Hrest). }
  clear Hc Hm. revert records2 ms2 H2 Ht.
  induction H1 as [|r1 m1 rest1 ms1 Hr1 Hrest1 IH]; intros records2 ms2 H2 Ht.
  - destruct records2; [|discriminate]. now inversion H2.
  - destruct records2 as [|r2 rest2]; [discriminate|].
    simpl in Ht. injection Ht as Hs Hrest.
    inversion H2 as [|? m2 ? ms2' Hr2 Hrest2]; subst.
    unfold GDPFrame.cleaned in Hr1, Hr2. rewrite Hs in Hr1.
    rewrite Hr1 in Hr2. injection Hr2 as <-.
    now rewrite (IH _ _ Hrest2 Hrest).
Qed.

End StoreOfARun.

(** * The claims *)

(** ** The model at work *)

Example float_grouped :
  float (PyStr.replace "," "" (PyStr.strip " 1,000.00 ")) = Some 1000%float.
Proof. reflexivity. Qed.

(** The digits of any script are digits to [float], and a number beyond
    the largest is an infinity. *)
Example float_full_width : float "１２３" = Some 123%float.
Proof. reflexivity. Qed.

Example float_overflows : float "1e400" = Some infinity.
Proof. reflexivity. Qed.

(** The no-break space is white space to [strip] and to [float]. *)
Example strip_no_break_space :
  PyStr.strip (Scenario.nbsp ++ "Bank A" ++ Scenario.nbsp) = "Bank A" /\
  Bank.extract_banks (Scenario.page [Scenario.tbody [Scenario.padded]]) =
  inr [("Bank A", 1234%float)].
Proof. split; reflexivity. Qed.

(** The arithmetic is that of binary64: the product of 5.5 and 0.79 is a
    little above 4.345 and the quotient of 1015 by 1000 a little below
    1.015, and a value near the largest overflows when it is
    rounded. *)
Example product_rounds_up : round2 (mul 5.5%float 0.79%float) = 4.35%float.
Proof. reflexivity. Qed.

Example quotient_rounds_down : round2 (truediv 1015%float (of_Z 1000)) = 1.01%float.
Proof. reflexivity. Qed.

Example rounding_overflows : round2 7.9e306%float = infinity.
Proof. reflexivity. Qed.

Example half_goes_to_even :
  round2 (mul 500.5%float 0.79%float) = 395.4%float.
Proof. reflexivity. Qed.

(** The text of a [ValueError] shows the string as [repr] writes it:
    between double quotes when it holds an apostrophe. *)
Example value_error_shows_repr :
  message (ValueError "1'2") =
  "could not convert string to float: " ++
  String PyStr.double_quote "1'2" ++ String PyStr.double_quote "".
Proof. reflexivity. Qed.

(** A link whose first child is a tag: pandas takes the one child of
    the tag for the cell, and raises when the tag has none. *)
Example tag_with_one_child :
  GDP.extract_row (Scenario.bold "Tuvalu" "63") =
  inr (Some [("Country", OStr "Tuvalu"); ("GDP_USD_millions", OStr "63")]).
Proof. reflexivity. Qed.

Example tag_without_child :
  GDP.extract_row (Scenario.flag_only "63") = inl (GDP.length_mismatch 0) /\
  message (GDP.length_mismatch 0) =
  "Length of values (0) does not match length of index (1)".
Proof. split; reflexivity. Qed.

(** ** The claims of the specification *)

(** C1, as the code has it.  In the bank script every dictionary of
    magnitude [m] comes out with the primary field [round2 (m / 1000)]
    and, for every requested currency whose rate [r] the conversion
    file holds, the derived field [round2 (m * r)], computed from the
    magnitude before the division; in the GDP script the magnitude read
    from the text comes out as [round2 (m / 1000)].  On the rows
    Bank A 1,000.00 and Bank C 500.50 with GBP at 0.79 the bank script
    returns exactly (Bank A, 1.00, 790.00) and (Bank C, 0.50, 395.40);
    with the row Bank B in between, whose numeric cell is the em-dash,
    [float] raises [ValueError] and no frame is returned. *)
Theorem C1_values_from_unrescaled_magnitude :
  (forall banks rates e w i name m,
     read_rates e Bank.conversion_file = inr rates ->
     nth_error banks i = Some (name, m) ->
     exists df w',
       Bank.transform_data (Bank.frame_of banks) Bank.conversion_file e w = (inr df, w') /\
       cell df "Bank Name" i = Some (OStr name) /\
       cell df "MC_USD_Billion" i = Some (OFloat (round2 (truediv m (of_Z 1000)))) /\
       forall c r, In c Bank.currencies -> Bank.rate_of rates c = Some r ->
         cell df (Bank.derived_name c) i = Some (OFloat (round2 (mul m r)))) /\
  (forall records ms e w,
     Forall2 (fun r m => float (GDPFrame.cleaned r) = Some m) records ms ->
     exists df,
       GDP.transform (GDPFrame.frame_of records) e w = (inr df, w) /\
       forall i m, nth_error ms i = Some m ->
         cell df "GDP_USD_billions" i = Some (OFloat (round2 (truediv m (of_Z 1000))))) /\
  (exists df w',
     (df <- Bank.extract_data Bank.url ;; Bank.transform_data df Bank.conversion_file)
       (Scenario.env_of (Scenario.page [Scenario.tbody [Scenario.bank_a; Scenario.bank_c]])
          Scenario.gbp_only)
       Scenario.nothing = (inr df, w') /\
     columns df = ["Bank Name"; "MC_USD_Billion"; "Market Cap (GBP)"] /\
     rows df =
       [[Some (OStr "Bank A"); Some (OFloat 1%float);
         Some (OFloat 790%float)];
        [Some (OStr "Bank C"); Some (OFloat 0.5%float);
         Some (OFloat 395.4%float)]]) /\
  fst ((df <- Bank.extract_data Bank.url ;; Bank.transform_data df Bank.conversion_file)
         (Scenario.env_of
            (Scenario.page
               [Scenario.tbody [Scenario.bank_a; Scenario.bank_b; Scenario.bank_c]])
            Scenario.gbp_only)
         Scenario.nothing) = inl (ValueError "—").
Proof.
  split; [|split; [|split]].
  - intros banks rates e w i name m Hrates Hi.
    destruct banks as [|b banks]; [destruct i; discriminate|].
    exists (BankFrame.transformed (b :: banks) rates),
      (BankLog.logged_all (BankFrame.transform_entries rates) e w).
    split; [now apply transform_data_run|].
    unfold cell.
    rewrite lookup_transformed_name, lookup_transformed_usd.
    split; [|split].
    + unfold series_cells. now rewrite nth_error_map, Hi.
    + now apply (nth_error_cells_float (fun m => round2 (truediv m (of_Z 1000))) _ _ name).
    + intros c r Hc Hr. rewrite (lookup_transformed_found _ _ _ _ _ Hc Hr).
      now apply (nth_error_cells_float (fun m => round2 (mul m r)) _ _ name).
  - intros records ms e w H. eexists. split; [apply (gdp_transform_run _ _ _ _ H)|].
    intros i m Hi. unfold cell. cbn [lookup_column String.eqb Ascii.eqb Bool.eqb series_cells].
    now rewrite !nth_error_map, Hi.
  - eexists. eexists. split; [vm_compute; reflexivity|]. split; reflexivity.
  - reflexivity.
Qed.

(** C1 at the row Bank A, 1000, with GBP at 0.79. *)
Lemma C1_values_from_unrescaled_magnitude_witness :
  exists df w',
    Bank.transform_data (Bank.frame_of [("Bank A", 1000%float)]) Bank.conversion_file
      (Scenario.env_of (Scenario.page []) Scenario.gbp_only) Scenario.nothing = (inr df, w') /\
    cell df "Bank Name" 0 = Some (OStr "Bank A") /\
    cell df "MC_USD_Billion" 0 =
      Some (OFloat (round2 (truediv 1000%float (of_Z 1000)))) /\
    forall c r, In c Bank.currencies -> Bank.rate_of Scenario.gbp_only c = Some r ->
      cell df (Bank.derived_name c) 0 = Some (OFloat (round2 (mul 1000%float r))).
Proof.
  apply (proj1 C1_values_from_unrescaled_magnitude
           [("Bank A", 1000%float)] Scenario.gbp_only
           (Scenario.env_of (Scenario.page []) Scenario.gbp_only) Scenario.nothing
           0 "Bank A" 1000%float); reflexivity.
Defined.

(** C1 as stated fails on the code: on the three rows of the scenario
    the bank script returns no frame, hence not the two records. *)
Lemma C1_scenario_with_no_data_row_raises :
  fst ((df <- Bank.extract_data Bank.url ;; Bank.transform_data df Bank.conversion_file)
         (Scenario.env_of
            (Scenario.page
               [Scenario.tbody [Scenario.bank_a; Scenario.bank_b; Scenario.bank_c]])
            Scenario.gbp_only)
         Scenario.nothing) = inl (ValueError "—") /\
  ~ (exists df w',
       (df <- Bank.extract_data Bank.url ;; Bank.transform_data df Bank.conversion_file)
         (Scenario.env_of
            (Scenario.page
               [Scenario.tbody [Scenario.bank_a; Scenario.bank_b; Scenario.bank_c]])
            Scenario.gbp_only)
         Scenario.nothing = (inr df, w') /\
       rows df =
         [[Some (OStr "Bank A"); Some (OFloat 1%float);
           Some (OFloat 790%float)];
          [Some (OStr "Bank C"); Some (OFloat 0.5%float);
           Some (OFloat 395.4%float)]]).
Proof.
  split; [reflexivity|].
  intros [df [w' [H _]]]. apply (f_equal fst) in H. vm_compute in H. discriminate.
Qed.

(** C2, as the code has it.  In the GDP script the rows whose numeric
    cell holds the em-dash are passed over: the frame extracted from a
    page is the frame extracted from its other rows.  The bank script
    has no such test: a row of that kind makes [float] raise, so a table
    with one yields an exception and no frame.  In neither script does a
    record read from such a row reach a frame. *)
Theorem C2_sentinel_rows_yield_no_record (soup : node) :
  (forall table_attribs tbody,
     getitem (find_all "tbody" soup) 2 = inr tbody ->
     GDP.extract_frame soup table_attribs =
     GDP.extract_rows
       (List.filter (fun row => negb (Rows.has_sentinel row)) (find_all "tr" tbody))
       (GDP.empty_frame table_attribs)) /\
  (forall tbody,
     getitem (find_all "tbody" soup) 0 = inr tbody ->
     Exists (fun row => Rows.has_sentinel row = true) (find_all "tr" tbody) ->
     exists x, Bank.extract_banks soup = inl x) /\
  (forall row,
     Rows.has_sentinel row = true ->
     GDP.extract_row row = inr None /\
     exists t, Bank.extract_row row = inl (ValueError t)).
Proof.
  split; [|split].
  - intros attribs tbody H. unfold GDP.extract_frame. rewrite H.
    apply gdp_extract_rows_filter.
  - intros tbody H Hex. unfold Bank.extract_banks. rewrite H.
    now apply bank_extract_rows_sentinel.
  - intros row H. split.
    + now apply gdp_extract_row_sentinel.
    + now apply bank_extract_row_sentinel.
Qed.

(** C2 on the GDP page of one country with an estimate and one
    without. *)
Lemma C2_sentinel_rows_yield_no_record_witness :
  GDP.extract_frame
    (Scenario.gdp_page [Scenario.country "Tuvalu" "63"; Scenario.country "Eritrea" "—"])
    GDP.table_attribs =
  GDP.extract_rows [Scenario.country "Tuvalu" "63"] (GDP.empty_frame GDP.table_attribs).
Proof.
  apply (proj1 (C2_sentinel_rows_yield_no_record
                  (Scenario.gdp_page
                     [Scenario.country "Tuvalu" "63"; Scenario.country "Eritrea" "—"]))
           GDP.table_attribs
           (Tag "tbody" [Scenario.country "Tuvalu" "63"; Scenario.country "Eritrea" "—"])).
  reflexivity.
Defined.

(** C2 as stated fails on the bank script: the row with the em-dash is
    not left out, the extraction of the whole table is lost with it. *)
Lemma C2_bank_extraction_aborts_on_sentinel_row :
  Rows.has_sentinel Scenario.bank_b = true /\
  Bank.extract_banks
    (Scenario.page [Scenario.tbody [Scenario.bank_a; Scenario.bank_b; Scenario.bank_c]]) =
  inl (ValueError "—") /\
  Bank.extract_banks
    (Scenario.page [Scenario.tbody [Scenario.bank_a; Scenario.bank_c]]) =
  inr [("Bank A", 1000%float); ("Bank C", 500.5%float)].
Proof. repeat split. Qed.

(** C3, as the code has it.  Neither extractor checks the name or the
    number: every record of the frame was read from a row of the chosen
    table that has at least three cells, in the bank script its name is
    the trimmed text of the second cell and its number whatever [float]
    read from the third, in the GDP script its country is the cell
    pandas makes of the first child of the link of the first cell (that
    string, or the one child of that tag) and its number the trimmed
    text of the third, which holds no em-dash. *)
Theorem C3_records_come_from_rows_of_three_cells (soup : node) :
  (forall banks,
     Bank.extract_banks soup = inr banks ->
     exists tbody,
       nth_error (find_all "tbody" soup) 0 = Some tbody /\
       Forall (fun b => exists row, In row (find_all "tr" tbody) /\
                                    3 <= length (find_all "td" row) /\
                                    Rows.bank_from_row row b) banks) /\
  (forall df,
     GDP.extract_frame soup GDP.table_attribs = inr df ->
     exists tbody records,
       nth_error (find_all "tbody" soup) 2 = Some tbody /\
       df = GDPFrame.frame_of records /\
       Forall (fun r => exists row, In row (find_all "tr" tbody) /\
                                    3 <= length (find_all "td" row) /\
                                    Rows.gdp_from_row row r) records).
Proof.
  split.
  - intros banks H. unfold Bank.extract_banks in H.
    destruct (getitem (find_all "tbody" soup) 0) as [|tbody] eqn:Ht; [discriminate|].
    exists tbody. split; [now apply getitem_inr|].
    destruct (bank_extract_rows_from _ _ _ H) as [new [-> Hnew]]. simpl.
    eapply Forall_impl; [exact Hnew|].
    intros b [row [Hin Hb]]. exists row. repeat split; try assumption.
    destruct Hb as [c1 [c2 [_ [H2 _]]]].
    assert (2 < length (find_all "td" row)) by (apply nth_error_Some; congruence). lia.
  - intros df H. unfold GDP.extract_frame in H.
    destruct (getitem (find_all "tbody" soup) 2) as [|tbody] eqn:Ht; [discriminate|].
    rewrite empty_frame_attribs in H.
    destruct (gdp_extract_rows_frame_of _ _ _ H) as [new [-> Hnew]].
    exists tbody, new. split; [now apply getitem_inr|]. split; [reflexivity|].
    eapply Forall_impl; [exact Hnew|].
    intros r [row [Hin Hr]]. exists row. repeat split; try assumption.
    destruct Hr as [c0 [c2 [a [first [_ [H2 _]]]]]].
    assert (2 < length (find_all "td" row)) by (apply nth_error_Some; congruence). lia.
Qed.

(** C3 on the page of the banks A and C. *)
Lemma C3_records_come_from_rows_of_three_cells_witness :
  exists tbody,
    nth_error
      (find_all "tbody" (Scenario.page [Scenario.tbody [Scenario.bank_a; Scenario.bank_c]]))
      0 = Some tbody /\
    Forall (fun b => exists row, In row (find_all "tr" tbody) /\
                                 3 <= length (find_all "td" row) /\
                                 Rows.bank_from_row row b)
      [("Bank A", 1000%float); ("Bank C", 500.5%float)].
Proof.
  apply (proj1 (C3_records_come_from_rows_of_three_cells
                  (Scenario.page [Scenario.tbody [Scenario.bank_a; Scenario.bank_c]]))).
  reflexivity.
Defined.

(** C3 as stated fails on the code: the bank script makes a record of a
    row whose name is blank and whose number is negative. *)
Lemma C3_bank_emits_blank_name_and_negative_number :
  Bank.extract_banks (Scenario.page [Scenario.tbody [Scenario.blank_negative]]) =
  inr [("", (-5)%float)] /\
  ~ Rows.record_invariant ("", (-5)%float).
Proof.
  split; [reflexivity|].
  intros [Hname _]. now apply Hname.
Qed.

(** C4, as the code has it.  For every frame of at least one dictionary
    and every conversion file that could be read, [transform_data]
    returns; for a requested currency without a rate a warning is
    logged and the frame has no column of its name, and for a requested
    currency with a rate the column is there, computed from the
    magnitudes. *)
Theorem C4_missing_rate_skips_one_column
    (banks : list Bank.bank) (rates : list (string * pyfloat)) (e : env) (w : world) :
  banks <> [] ->
  read_rates e Bank.conversion_file = inr rates ->
  exists df w',
    Bank.transform_data (Bank.frame_of banks) Bank.conversion_file e w = (inr df, w') /\
    forall c, In c Bank.currencies ->
      (Bank.rate_of rates c = None ->
       (exists t,
          In (Bank.format t Bank.WARNING ("No conversion rate found for " ++ c ++ ". Skipping."))
             (read_lines Bank.log_file w')) /\
       ~ In (Bank.derived_name c) (columns df)) /\
      (forall r, Bank.rate_of rates c = Some r ->
         lookup_column (Bank.derived_name c) df =
         Some (Float64 (map (fun m => round2 (mul m r)) (map snd banks)))).
Proof.
  intros Hne Hrates.
  exists (BankFrame.transformed banks rates),
    (BankLog.logged_all (BankFrame.transform_entries rates) e w).
  split; [now apply transform_data_run|].
  destruct banks as [|b banks]; [contradiction|].
  intros c Hc. split.
  - intros Hr. split.
    + rewrite read_lines_logged_all.
      destruct (stamp_In e (ticks w) _ _ _ (warning_logged rates c Hc Hr)) as [t Ht].
      exists t. apply in_or_app. now right.
    + apply lookup_column_None. now apply lookup_transformed_missing.
  - intros r Hr. now apply lookup_transformed_found.
Qed.

(** C4 on the two banks of the scenario, GBP the only rate. *)
Lemma C4_missing_rate_skips_one_column_witness :
  exists df w',
    Bank.transform_data
      (Bank.frame_of [("Bank A", 1000%float); ("Bank C", 500.5%float)])
      Bank.conversion_file
      (Scenario.env_of (Scenario.page []) Scenario.gbp_only) Scenario.nothing = (inr df, w') /\
    forall c, In c Bank.currencies ->
      (Bank.rate_of Scenario.gbp_only c = None ->
       (exists t,
          In (Bank.format t Bank.WARNING ("No conversion rate found for " ++ c ++ ". Skipping."))
             (read_lines Bank.log_file w')) /\
       ~ In (Bank.derived_name c) (columns df)) /\
      (forall r, Bank.rate_of Scenario.gbp_only c = Some r ->
         lookup_column (Bank.derived_name c) df =
         Some (Float64 (map (fun m => round2 (mul m r))
                          (map snd [("Bank A", 1000%float);
                                    ("Bank C", 500.5%float)])))).
Proof.
  apply (C4_missing_rate_skips_one_column
           [("Bank A", 1000%float); ("Bank C", 500.5%float)]
           Scenario.gbp_only (Scenario.env_of (Scenario.page []) Scenario.gbp_only)
           Scenario.nothing).
  - discriminate.
  - reflexivity.
Defined.

(** C4 as stated fails on the frame of no record, which [extract_data]
    returns for a table without data rows: it has no column at all and
    [transform_data] raises [KeyError], whatever the rates. *)
Lemma C4_frame_of_no_record_raises :
  fst (Bank.extract_data Bank.url
         (Scenario.env_of (Scenario.page [Scenario.tbody [Scenario.heading]]) Scenario.gbp_only)
         Scenario.nothing) = inr [] /\
  Bank.rate_of Scenario.gbp_only "EUR" = None /\
  fst (Bank.transform_data (Bank.frame_of []) Bank.conversion_file
         (Scenario.env_of (Scenario.page [Scenario.tbody [Scenario.heading]]) Scenario.gbp_only)
         Scenario.nothing) = inl (KeyError "Market Cap (USD)").
Proof. repeat split. Qed.



(** C5: the load into the store is idempotent.  In both scripts, writing
    a frame to its table twice in succession leaves the databases as one
    write leaves them; when the engine takes the write, the table holds
    the frame itself after one write and after two: the same rows in the
    same number, nothing appended. *)
Theorem C5_load_to_db_is_idempotent (df : DataFrame) (db table : string) (e : env) (w : world) :
  let bank_once := snd (Bank.load_to_db df db table e w) in
  let bank_twice :=
    snd ((Bank.load_to_db df db table ;; Bank.load_to_db df db table) e w) in
  let gdp_once := snd (GDP.load_to_db df db table e w) in
  let gdp_twice :=
    snd ((GDP.load_to_db df db table ;; GDP.load_to_db df db table) e w) in
  (databases bank_twice = databases bank_once /\
   (connect_error e db = None -> to_sql_error e db table = None ->
    tables_of db bank_once !! table = Some df /\
    tables_of db bank_twice !! table = Some df)) /\
  (databases gdp_twice = databases gdp_once /\
   (to_sql_error e db table = None ->
    tables_of db gdp_once !! table = Some df /\
    tables_of db gdp_twice !! table = Some df)).
Proof.
  cbv zeta. split; split.
  - apply bank_twice.
  - intros Hc Hs. unfold tables_of. rewrite bank_twice.
    destruct (bank_load_to_db_ok df db table e w Hc Hs) as [_ Hw].
    rewrite Hw. split; apply lookup_written.
  - apply gdp_twice.
  - intros Hs. unfold tables_of. rewrite gdp_twice.
    destruct (gdp_load_to_db_ok df db table e w Hs) as [_ Hw].
    rewrite Hw. split; apply lookup_written.
Qed.

(** C5 on the frame of one bank and the database of the bank script,
    nothing written before. *)
Lemma C5_load_to_db_is_idempotent_witness :
  tables_of Bank.database_file
    (snd ((Bank.load_to_db (Bank.frame_of [("Bank A", 1000%float)])
             Bank.database_file Bank.db_table ;;
           Bank.load_to_db (Bank.frame_of [("Bank A", 1000%float)])
             Bank.database_file Bank.db_table)
            (Scenario.env_of (Scenario.page []) []) Scenario.nothing))
    !! Bank.db_table = Some (Bank.frame_of [("Bank A", 1000%float)]).
Proof.
  apply (proj2 (proj1 (C5_load_to_db_is_idempotent
                         (Bank.frame_of [("Bank A", 1000%float)])
                         Bank.database_file Bank.db_table
                         (Scenario.env_of (Scenario.page []) []) Scenario.nothing))
           eq_refl eq_refl).
Defined.





(** C8, as the code has it.  [main] of the bank script returns normally
    whatever happens: an exception of any statement under its [try] (a
    failing fetch, for one) is caught and logged as CRITICAL, the last
    line of the log.  [main] of the GDP script has no handler: an
    exception of extraction, transformation, either load or the query
    (the stage has logged it) goes on to the caller of [main]. *)
Theorem C8_bank_main_catches_gdp_main_propagates (e : env) (w : world) :
  fst (Bank.main e w) = inr tt /\
  (forall x w1,
     Bank.etl e (BankLog.logged_world Bank.INFO "ETL process initiated." e w) = (inl x, w1) ->
     read_lines Bank.log_file (snd (Bank.main e w)) =
     (read_lines Bank.log_file w1 ++
      [Bank.format (clock e (ticks w1)) Bank.CRITICAL ("ETL process failed: " ++ message x)])%list) /\
  (forall x, http_get e Bank.url = inl x ->
     exists w1,
       Bank.etl e (BankLog.logged_world Bank.INFO "ETL process initiated." e w) = (inl x, w1)) /\
  (forall x w1,
     GDP.extract GDP.url GDP.table_attribs e
       (GDPLog.logged_world "Preliminaries complete. Initiating ETL process" e w) = (inl x, w1) ->
     GDP.main e w = (inl x, w1)) /\
  (forall df w1 x w2,
     GDP.extract GDP.url GDP.table_attribs e
       (GDPLog.logged_world "Preliminaries complete. Initiating ETL process" e w) = (inr df, w1) ->
     GDP.transform df e
       (GDPLog.logged_world "Data extraction complete. Initiating Transformation process" e w1)
       = (inl x, w2) ->
     GDP.main e w = (inl x, w2)) /\
  (forall df w1 df' w2 x w3,
     GDP.extract GDP.url GDP.table_attribs e
       (GDPLog.logged_world "Preliminaries complete. Initiating ETL process" e w) = (inr df, w1) ->
     GDP.transform df e
       (GDPLog.logged_world "Data extraction complete. Initiating Transformation process" e w1)
       = (inr df', w2) ->
     GDP.load_to_csv df' GDP.csv_path e
       (GDPLog.logged_world "Data transformation complete. Initiating loading process" e w2)
       = (inl x, w3) ->
     GDP.main e w = (inl x, w3)) /\
  (forall df w1 df' w2 w3 conn w4,
     GDP.extract GDP.url GDP.table_attribs e
       (GDPLog.logged_world "Preliminaries complete. Initiating ETL process" e w) = (inr df, w1) ->
     GDP.transform df e
       (GDPLog.logged_world "Data extraction complete. Initiating Transformation process" e w1)
       = (inr df', w2) ->
     GDP.load_to_csv df' GDP.csv_path e
       (GDPLog.logged_world "Data transformation complete. Initiating loading process" e w2)
       = (inr tt, w3) ->
     connect GDP.db_name e w3 = (inr conn, w4) ->
     (forall x w5,
        GDP.load_to_db df' conn GDP.table_name e
          (GDPLog.logged_world "SQL Connection initiated." e w4) = (inl x, w5) ->
        GDP.main e w = (inl x, w5)) /\
     (forall w5 x w6,
        GDP.load_to_db df' conn GDP.table_name e
          (GDPLog.logged_world "SQL Connection initiated." e w4) = (inr tt, w5) ->
        GDP.run_query "SELECT * from Countries_by_GDP WHERE GDP_USD_billions >= 100" conn e w5
          = (inl x, w6) ->
        GDP.main e w = (inl x, w6))).
Proof.
  split; [apply bank_main_returns|]. split; [|split; [|split; [|split; [|split]]]].
  - intros x w1 H. rewrite (bank_main_catches _ _ _ _ H). apply read_lines_logged.
  - intros x H.
    pose proof (bank_etl_fetch_fails e
                  (BankLog.logged_world Bank.INFO "ETL process initiated." e w) x H) as Hf.
    destruct (Bank.etl e _) as [r w1]. simpl in Hf. subst r. eauto.
  - intros x w1 H. unfold GDP.main.
    erewrite bind_inr by apply gdp_log_run. now erewrite bind_inl by exact H.
  - intros df w1 x w2 H1 H2. unfold GDP.main.
    erewrite bind_inr by apply gdp_log_run. erewrite bind_inr by exact H1.
    erewrite bind_inr by apply gdp_log_run. now erewrite bind_inl by exact H2.
  - intros df w1 df' w2 x w3 H1 H2 H3. unfold GDP.main.
    erewrite bind_inr by apply gdp_log_run. erewrite bind_inr by exact H1.
    erewrite bind_inr by apply gdp_log_run. erewrite bind_inr by exact H2.
    erewrite bind_inr by apply gdp_log_run. now erewrite bind_inl by exact H3.
  - intros df w1 df' w2 w3 conn w4 H1 H2 H3 H4. split.
    + intros x w5 H5. unfold GDP.main.
      erewrite bind_inr by apply gdp_log_run. erewrite bind_inr by exact H1.
      erewrite bind_inr by apply gdp_log_run. erewrite bind_inr by exact H2.
      erewrite bind_inr by apply gdp_log_run. erewrite bind_inr by exact H3.
      erewrite bind_inr by exact H4.
      erewrite bind_inr by apply gdp_log_run. now erewrite bind_inl by exact H5.
    + intros w5 x w6 H5 H6. unfold GDP.main.
      erewrite bind_inr by apply gdp_log_run. erewrite bind_inr by exact H1.
      erewrite bind_inr by apply gdp_log_run. erewrite bind_inr by exact H2.
      erewrite bind_inr by apply gdp_log_run. erewrite bind_inr by exact H3.
      erewrite bind_inr by exact H4.
      erewrite bind_inr by apply gdp_log_run. erewrite bind_inr by exact H5.
      now erewrite bind_inl by exact H6.
Qed.

(** C8 when the archive does not answer: the bank script logs the
    failure as CRITICAL. *)
Lemma C8_bank_main_catches_gdp_main_propagates_witness :
  exists w1,
    Bank.etl Scenario.env_down
      (BankLog.logged_world Bank.INFO "ETL process initiated." Scenario.env_down
         Scenario.nothing) = (inl Scenario.unreachable, w1).
Proof.
  apply (proj1 (proj2 (proj2 (C8_bank_main_catches_gdp_main_propagates
                                Scenario.env_down Scenario.nothing)))
           Scenario.unreachable).
  reflexivity.
Defined.

(** C8 as stated fails on the GDP script: when the archive does not
    answer, [main] hands the exception of the fetch to its caller. *)
Lemma C8_gdp_main_propagates_fetch_failure :
  fst (GDP.main Scenario.env_down Scenario.nothing) = inl Scenario.unreachable /\
  read_lines GDP.log_file (snd (GDP.main Scenario.env_down Scenario.nothing)) =
  ["2023-Sep-08-12:00:00 : Preliminaries complete. Initiating ETL process";
   "2023-Sep-08-12:00:00 : Error in data extraction: Max retries exceeded"].
Proof. split; vm_compute; reflexivity. Qed.

(** C9, as the code has it.  [log_progress] of the GDP script appends
    one line, the time as year, month name, day, hour, minute and
    second, then [" : "] and the message.  The logger of the bank script
    appends one line as well, but of the form [time - LEVEL - message],
    the time as year, month, day, hour, minute and second.  Through the
    whole of either [main] the log file of the script only grows by
    lines of its form, and no other text file changes. *)
Theorem C9_log_lines_are_appended :
  (forall message e w,
     read_lines GDP.log_file (snd (GDP.log_progress message e w)) =
     (read_lines GDP.log_file w ++
      [(strftime_Yhd_HMS (clock e (ticks w)) ++ " : " ++ message)%string])%list) /\
  (forall l message e w,
     read_lines Bank.log_file (snd (Bank.log l message e w)) =
     (read_lines Bank.log_file w ++
      [(strftime_Ymd_HMS (clock e (ticks w)) ++ " - " ++ Bank.levelname l ++ " - " ++
        message)%string])%list) /\
  LogDiscipline.appends GDP.log_file LogDiscipline.gdp_line GDP.main /\
  LogDiscipline.appends Bank.log_file LogDiscipline.bank_line Bank.main.
Proof.
  split; [|split; [|split]].
  - intros message e w. unfold GDP.log_progress, bind, now, append_line, read_lines. cbn.
    now rewrite lookup_insert_eq.
  - intros l message e w. apply (read_lines_logged l message e w).
  - apply appends_gdp_main.
  - apply appends_bank_main.
Qed.

(** C9 as stated fails on the bank script: its line carries the level
    between dashes and is not of the form [timestamp : message]. *)
Lemma C9_bank_line_is_not_timestamp_colon_message :
  read_lines Bank.log_file
    (snd (Bank.info "Starting data extraction." (Scenario.env_of (Scenario.page []) [])
            Scenario.nothing)) =
  ["2023-09-08 12:00:00 - INFO - Starting data extraction."] /\
  ~ LogDiscipline.timestamp_colon_message
      "2023-09-08 12:00:00 - INFO - Starting data extraction.".
Proof.
  split; [vm_compute; reflexivity|].
  intros H. apply colon_form_contains in H. vm_compute in H. discriminate.
Qed.

(** C10: the order of the columns.  Whatever frame [transform_data]
    returns for the dictionaries of an extraction has "Bank Name" first,
    "MC_USD_Billion" second, in the place of the column it renames, and
    then one "Market Cap (C)" per currency with a rate, in the order
    GBP, EUR, INR of the request; and it returns one whenever the
    extraction read at least one dictionary and the conversion file
    could be read. *)
Theorem C10_columns_in_request_order
    (banks : list Bank.bank) (rates : list (string * pyfloat)) (e : env) (w : world) :
  read_rates e Bank.conversion_file = inr rates ->
  (forall df w',
     Bank.transform_data (Bank.frame_of banks) Bank.conversion_file e w = (inr df, w') ->
     columns df =
     "Bank Name" :: "MC_USD_Billion" ::
       map (fun c => "Market Cap (" ++ c ++ ")")
         (List.filter (BankFrame.found rates) ["GBP"; "EUR"; "INR"])) /\
  (banks <> [] ->
   exists df w',
     Bank.transform_data (Bank.frame_of banks) Bank.conversion_file e w = (inr df, w')).
Proof.
  intros Hrates. split.
  - intros df w' H. destruct banks as [|b banks].
    + destruct (transform_data_empty e w) as [w1 H1].
      rewrite H1 in H. discriminate.
    + rewrite (transform_data_run (b :: banks) rates e w) in H by (congruence || discriminate).
      injection H as <- _. apply columns_transformed.
  - intros Hne. eexists. eexists. exact (transform_data_run banks rates e w Hne Hrates).
Qed.

(** C10 on the two banks of the scenario, with rates for INR and GBP,
    in that order in the file. *)
Lemma C10_columns_in_request_order_witness :
  (forall df w',
     Bank.transform_data
       (Bank.frame_of [("Bank A", 1000%float); ("Bank C", 500.5%float)])
       Bank.conversion_file
       (Scenario.env_of (Scenario.page [])
          [("INR", 82.95%float); ("GBP", 0.79%float)])
       Scenario.nothing = (inr df, w') ->
     columns df = ["Bank Name"; "MC_USD_Billion"; "Market Cap (GBP)"; "Market Cap (INR)"]) /\
  (([("Bank A", 1000%float); ("Bank C", 500.5%float)] : list Bank.bank)
     <> [] ->
   exists df w',
     Bank.transform_data
       (Bank.frame_of [("Bank A", 1000%float); ("Bank C", 500.5%float)])
       Bank.conversion_file
       (Scenario.env_of (Scenario.page [])
          [("INR", 82.95%float); ("GBP", 0.79%float)])
       Scenario.nothing = (inr df, w')).
Proof.
  apply (C10_columns_in_request_order
           [("Bank A", 1000%float); ("Bank C", 500.5%float)]
           [("INR", 82.95%float); ("GBP", 0.79%float)]
           (Scenario.env_of (Scenario.page [])
              [("INR", 82.95%float); ("GBP", 0.79%float)])
           Scenario.nothing).
  reflexivity.
Defined.

(** ** Further properties *)

(** X1: the file both scripts write holds the names of the columns as its
    header and the rows of the frame below it, in the order of the
    frame and without a column of row labels; what the file held before
    is gone. *)
Lemma load_to_csv_writes_header_and_rows (df : DataFrame) (path : string) (e : env) (w : world) :
  write_error e path = None ->
  csvs (snd (Bank.load_to_csv df path e w)) !! path = Some (columns df, rows df) /\
  csvs (snd (GDP.load_to_csv df path e w)) !! path = Some (columns df, rows df).
Proof.
  intros H.
  unfold Bank.load_to_csv, GDP.load_to_csv, logged, try_except, bind, Bank.info, Bank.log,
    GDP.log_progress, now, append_line, to_csv. cbn.
  rewrite H. cbn. now rewrite lookup_insert_eq.
Qed.

Lemma load_to_csv_writes_header_and_rows_witness :
  csvs (snd (Bank.load_to_csv
               [("Bank Name", Object [OStr "Bank A"]);
                ("MC_USD_Billion", Float64 [1%float])]
               Bank.csv_file_path
               (Scenario.env_of (Scenario.page []) []) Scenario.nothing))
    !! Bank.csv_file_path =
  Some (["Bank Name"; "MC_USD_Billion"],
        [[Some (OStr "Bank A"); Some (OFloat 1%float)]]).
Proof.
  apply (proj1 (load_to_csv_writes_header_and_rows
                  [("Bank Name", Object [OStr "Bank A"]);
                   ("MC_USD_Billion", Float64 [1%float])]
                  Bank.csv_file_path
                  (Scenario.env_of (Scenario.page []) []) Scenario.nothing eq_refl)).
Defined.

(** X2: a row of the GDP table whose first cell holds no link is passed
    over, whatever its numeric cell. *)
Lemma gdp_row_without_link_is_passed_over (row c0 : node) :
  nth_error (find_all "td" row) 0 = Some c0 ->
  find "a" c0 = None ->
  GDP.extract_row row = inr None.
Proof.
  intros H0 Ha. unfold GDP.extract_row.
  destruct (find_all "td" row) as [|c rest]; [discriminate|].
  injection H0 as ->. simpl length. simpl Nat.eqb. cbv iota.
  change (getitem (c0 :: rest) 0) with (@inr exn _ c0). cbv iota.
  now rewrite Ha.
Qed.

Lemma gdp_row_without_link_is_passed_over_witness :
  GDP.extract_row (Scenario.tr ["World"; "Region"; "105,568,776"]) = inr None.
Proof.
  apply (gdp_row_without_link_is_passed_over
           (Scenario.tr ["World"; "Region"; "105,568,776"]) (Scenario.td "World"));
    reflexivity.
Defined.

(** X3: a page without the table the script reads (no table body for the
    bank script, fewer than three for the GDP script) makes the
    extraction raise [IndexError]. *)
Lemma extraction_needs_its_table (soup : node) :
  (find_all "tbody" soup = [] -> Bank.extract_banks soup = inl IndexError) /\
  (forall table_attribs,
     length (find_all "tbody" soup) < 3 ->
     GDP.extract_frame soup table_attribs = inl IndexError).
Proof.
  split.
  - intros H. unfold Bank.extract_banks. now rewrite H.
  - intros attribs H. unfold GDP.extract_frame, getitem.
    destruct (nth_error (find_all "tbody" soup) 2) eqn:E; [|reflexivity].
    assert (2 < length (find_all "tbody" soup)) by (apply nth_error_Some; congruence).
    lia.
Qed.

Lemma extraction_needs_its_table_witness :
  Bank.extract_banks (Scenario.page []) = inl IndexError /\
  GDP.extract_frame (Scenario.page [Scenario.tbody []; Scenario.tbody []]) GDP.table_attribs =
  inl IndexError.
Proof.
  split.
  - apply (proj1 (extraction_needs_its_table (Scenario.page []))). reflexivity.
  - apply (proj2 (extraction_needs_its_table
                    (Scenario.page [Scenario.tbody []; Scenario.tbody []]))).
    simpl. lia.
Defined.

(** X4: the bank extractor neither drops nor reorders a row: when it
    returns, its dictionaries stand one for one, in the order of the
    page, for the rows of the first table body that have cells; the
    rows without cells, such as the heading, are the only ones passed
    over. *)
Lemma bank_records_follow_the_rows (soup : node) (banks : list Bank.bank) :
  Bank.extract_banks soup = inr banks ->
  exists tbody,
    nth_error (find_all "tbody" soup) 0 = Some tbody /\
    Forall2 Rows.bank_from_row
      (List.filter Selection.has_cells (find_all "tr" tbody)) banks.
Proof.
  intros H. unfold Bank.extract_banks in H.
  destruct (getitem (find_all "tbody" soup) 0) as [|tbody] eqn:Ht; [discriminate|].
  exists tbody. split; [now apply getitem_inr|].
  destruct (bank_rows_in_order _ _ _ H) as [new [-> Hnew]]. exact Hnew.
Qed.

Lemma bank_records_follow_the_rows_witness :
  exists tbody,
    nth_error
      (find_all "tbody"
         (Scenario.page [Scenario.tbody [Scenario.heading; Scenario.bank_a; Scenario.bank_c]]))
      0 = Some tbody /\
    Forall2 Rows.bank_from_row
      (List.filter Selection.has_cells (find_all "tr" tbody))
      [("Bank A", 1000%float); ("Bank C", 500.5%float)].
Proof.
  apply (bank_records_follow_the_rows
           (Scenario.page [Scenario.tbody [Scenario.heading; Scenario.bank_a; Scenario.bank_c]])).
  reflexivity.
Defined.

(** X5: the GDP extractor keeps the order of the page too: the records
    of the frame it returns stand one for one, in order, for the rows
    of the third table body that have cells, a link in the first cell
    and no em-dash in the numeric cell; the country of each is the
    cell pandas makes of the first child of the link, a name set in
    bold being stored as the name. *)
Lemma gdp_records_follow_the_rows (soup : node) (df : DataFrame) :
  GDP.extract_frame soup GDP.table_attribs = inr df ->
  exists tbody records,
    nth_error (find_all "tbody" soup) 2 = Some tbody /\
    df = GDPFrame.frame_of records /\
    Forall2 Rows.gdp_from_row
      (List.filter Selection.qualifies (find_all "tr" tbody)) records.
Proof.
  intros H. unfold GDP.extract_frame in H.
  destruct (getitem (find_all "tbody" soup) 2) as [|tbody] eqn:Ht; [discriminate|].
  rewrite empty_frame_attribs in H.
  destruct (gdp_rows_in_order _ _ _ H) as [new [-> Hnew]].
  exists tbody, new. split; [now apply getitem_inr|]. split; [reflexivity|exact Hnew].
Qed.

Lemma gdp_records_follow_the_rows_witness :
  exists tbody records,
    nth_error
      (find_all "tbody"
         (Scenario.gdp_page
            [Scenario.bold "Tuvalu" "63"; Scenario.tr ["World"; "Region"; "105,568,776"];
             Scenario.country "Eritrea" "—"; Scenario.country "Nauru" "151"]))
      2 = Some tbody /\
    GDPFrame.frame_of [(OStr "Tuvalu", "63"); (OStr "Nauru", "151")] =
    GDPFrame.frame_of records /\
    Forall2 Rows.gdp_from_row
      (List.filter Selection.qualifies (find_all "tr" tbody)) records.
Proof.
  apply (gdp_records_follow_the_rows
           (Scenario.gdp_page
              [Scenario.bold "Tuvalu" "63"; Scenario.tr ["World"; "Region"; "105,568,776"];
               Scenario.country "Eritrea" "—"; Scenario.country "Nauru" "151"])).
  reflexivity.
Defined.

(** X6: what the extractors raise.  An exception that leaves
    [extract_data] is the one of the fetch, an [IndexError] (no table
    body, or a row of one or two cells) or the [ValueError] of [float];
    one that leaves [extract] of the GDP script is the one of the
    fetch, an [IndexError], or the [ValueError] of pandas for a link
    whose first child is a tag with no child or with more than one:
    that script reads no number while it extracts. *)
Lemma extractors_raise_fetch_index_or_value_errors (url : string) (e : env) (w w' : world) (x : exn) :
  (Bank.extract_data url e w = (inl x, w') ->
   http_get e url = inl x \/ x = IndexError \/ exists t, x = ValueError t) /\
  (forall table_attribs,
     GDP.extract url table_attribs e w = (inl x, w') ->
     http_get e url = inl x \/ x = IndexError \/
     exists n, n <> 1 /\ x = GDP.length_mismatch n).
Proof.
  split.
  - apply bank_extract_data_inl.
  - intros attribs. apply gdp_extract_inl.
Qed.

(** X6 on a country whose link holds a flag and no text. *)
Lemma extractors_raise_fetch_index_or_value_errors_witness :
  http_get (Scenario.env_of (Scenario.gdp_page [Scenario.flag_only "63"]) []) GDP.url =
    inl (GDP.length_mismatch 0) \/
  GDP.length_mismatch 0 = IndexError \/
  exists n, n <> 1 /\ GDP.length_mismatch 0 = GDP.length_mismatch n.
Proof.
  apply (proj2 (extractors_raise_fetch_index_or_value_errors GDP.url
                  (Scenario.env_of (Scenario.gdp_page [Scenario.flag_only "63"]) [])
                  Scenario.nothing
                  (snd (GDP.extract GDP.url GDP.table_attribs
                          (Scenario.env_of (Scenario.gdp_page [Scenario.flag_only "63"]) [])
                          Scenario.nothing))
                  (GDP.length_mismatch 0))
           GDP.table_attribs).
  reflexivity.
Defined.

(** X7: the texts the extractors keep are trimmed: the name of every
    bank, and the numeric text of every record of the GDP frame, has no
    white space, of ASCII or of the rest of Unicode, left at either
    end, so that trimming it again changes nothing. *)
Lemma extracted_texts_are_trimmed (soup : node) :
  (forall banks,
     Bank.extract_banks soup = inr banks ->
     Forall (fun b => Trimmed.trimmed (fst b) /\ PyStr.strip (fst b) = fst b) banks) /\
  (forall df,
     GDP.extract_frame soup GDP.table_attribs = inr df ->
     exists records,
       df = GDPFrame.frame_of records /\
       Forall (fun r => Trimmed.trimmed (snd r) /\ PyStr.strip (snd r) = snd r) records).
Proof.
  split.
  - intros banks H. unfold Bank.extract_banks in H.
    destruct (getitem (find_all "tbody" soup) 0) as [|tbody]; [discriminate|].
    destruct (bank_extract_rows_from _ _ _ H) as [new [-> Hnew]]. simpl.
    eapply Forall_impl; [exact Hnew|].
    intros b [row [_ [c1 [c2 [_ [_ [-> _]]]]]]].
    split; [apply trimmed_strip|apply strip_idempotent].
  - intros df H. unfold GDP.extract_frame in H.
    destruct (getitem (find_all "tbody" soup) 2) as [|tbody]; [discriminate|].
    rewrite empty_frame_attribs in H.
    destruct (gdp_extract_rows_frame_of _ _ _ H) as [new [-> Hnew]].
    exists new. split; [reflexivity|].
    eapply Forall_impl; [exact Hnew|].
    intros r [row [_ [c0 [c2 [a [first [_ [_ [_ [_ [_ [_ ->]]]]]]]]]]]].
    split; [apply trimmed_strip|apply strip_idempotent].
Qed.

(** X7 on a name and a number between no-break spaces. *)
Lemma extracted_texts_are_trimmed_witness :
  Forall (fun b : Bank.bank => Trimmed.trimmed (fst b) /\ PyStr.strip (fst b) = fst b)
    [("Bank A", 1234%float)].
Proof.
  apply (proj1 (extracted_texts_are_trimmed
                  (Scenario.page [Scenario.tbody [Scenario.padded]]))).
  reflexivity.
Defined.

(** X8: [transform_data] keeps the rows: the frame it returns has as
    many rows as the one it was given, every one of its columns has
    that length, and the column of the names is the one it was
    given. *)
Lemma transform_data_keeps_the_rows
    (banks : list Bank.bank) (rates : list (string * pyfloat)) (e : env) (w : world) :
  banks <> [] ->
  read_rates e Bank.conversion_file = inr rates ->
  exists df w',
    Bank.transform_data (Bank.frame_of banks) Bank.conversion_file e w = (inr df, w') /\
    len df = len (Bank.frame_of banks) /\
    (forall name s, lookup_column name df = Some s -> series_len s = length banks) /\
    lookup_column "Bank Name" df = lookup_column "Bank Name" (Bank.frame_of banks).
Proof.
  intros Hne Hrates. eexists _, _.
  split; [apply (transform_data_run banks rates e w Hne Hrates)|].
  destruct banks as [|b banks]; [contradiction|].
  split; [|split].
  - unfold BankFrame.transformed, Bank.currencies, BankFrame.apply_rate. simpl fold_left.
    destruct (Bank.rate_of rates "GBP"), (Bank.rate_of rates "EUR"),
      (Bank.rate_of rates "INR"); reflexivity.
  - intros name s H. pose proof (lookup_column_Some_In _ _ _ H) as Hin.
    rewrite columns_transformed in Hin.
    destruct Hin as [<-|[<-|Hin]].
    + rewrite lookup_transformed_name in H. injection H as <-.
      simpl. now rewrite length_map.
    + rewrite lookup_transformed_usd in H. injection H as <-.
      simpl. now rewrite !length_map.
    + apply in_map_iff in Hin. destruct Hin as [c [<- Hc]].
      apply filter_In in Hc. destruct Hc as [Hc Hfound].
      unfold BankFrame.found in Hfound.
      destruct (Bank.rate_of rates c) as [r|] eqn:Hr; [|discriminate].
      rewrite (lookup_transformed_found _ _ _ _ _ Hc Hr) in H. injection H as <-.
      simpl. now rewrite !length_map.
  - apply lookup_transformed_name.
Qed.

Lemma transform_data_keeps_the_rows_witness :
  exists df w',
    Bank.transform_data
      (Bank.frame_of [("Bank A", 1000%float); ("Bank C", 500.5%float)])
      Bank.conversion_file
      (Scenario.env_of (Scenario.page []) Scenario.gbp_only) Scenario.nothing = (inr df, w') /\
    len df =
    len (Bank.frame_of [("Bank A", 1000%float); ("Bank C", 500.5%float)]) /\
    (forall name s, lookup_column name df = Some s -> series_len s = 2) /\
    lookup_column "Bank Name" df =
    lookup_column "Bank Name"
      (Bank.frame_of [("Bank A", 1000%float); ("Bank C", 500.5%float)]).
Proof.
  apply (transform_data_keeps_the_rows
           [("Bank A", 1000%float); ("Bank C", 500.5%float)]
           Scenario.gbp_only
           (Scenario.env_of (Scenario.page []) Scenario.gbp_only) Scenario.nothing).
  - discriminate.
  - reflexivity.
Defined.

(** X9: what [transform] of the GDP script returns, whenever it
    returns: a frame of exactly the columns [Country] and
    [GDP_USD_billions], in that order (the column of the millions is
    gone), with the countries as they were and as many rows as before;
    and nothing was written to the log or anywhere else. *)
Lemma gdp_transform_returns_two_columns
    (records : list GDPFrame.record) (e : env) (w : world) (df : DataFrame) (w' : world) :
  GDP.transform (GDPFrame.frame_of records) e w = (inr df, w') ->
  columns df = ["Country"; "GDP_USD_billions"] /\
  lookup_column "Country" df = lookup_column "Country" (GDPFrame.frame_of records) /\
  len df = length records /\
  (forall name s, lookup_column name df = Some s -> series_len s = length records) /\
  w' = w.
Proof.
  rewrite gdp_transform_cases.
  destruct (astype_float_list _) as [x|ms] eqn:Hms; [discriminate|].
  intros H. injection H as <- <-.
  apply astype_float_records_inv in Hms. apply Forall2_length in Hms.
  repeat split.
  - simpl. now rewrite length_map.
  - intros name s. cbn [lookup_column].
    destruct (String.eqb "Country" name); cbv iota.
    + intros H. injection H as <-. simpl. now rewrite length_map.
    + destruct (String.eqb "GDP_USD_billions" name); cbv iota; [|discriminate].
      intros H. injection H as <-. simpl. rewrite length_map. now symmetry.
Qed.

Lemma gdp_transform_returns_two_columns_witness :
  columns [("Country", Object [OStr "Tuvalu"]);
           ("GDP_USD_billions", Float64 [0.06%float])] =
  ["Country"; "GDP_USD_billions"] /\
  lookup_column "Country"
    [("Country", Object [OStr "Tuvalu"]); ("GDP_USD_billions", Float64 [0.06%float])] =
  lookup_column "Country" (GDPFrame.frame_of [(OStr "Tuvalu", "63")]) /\
  len [("Country", Object [OStr "Tuvalu"]); ("GDP_USD_billions", Float64 [0.06%float])] =
  length [(OStr "Tuvalu", "63")] /\
  (forall name s,
     lookup_column name
       [("Country", Object [OStr "Tuvalu"]); ("GDP_USD_billions", Float64 [0.06%float])] =
     Some s -> series_len s = length [(OStr "Tuvalu", "63")]) /\
  Scenario.nothing = Scenario.nothing.
Proof.
  apply (gdp_transform_returns_two_columns [(OStr "Tuvalu", "63")]
           (Scenario.env_of (Scenario.page []) []) Scenario.nothing).
  reflexivity.
Defined.

(** X10: [transform] of the GDP script stops at the first numeric text
    that is no number: it raises the [ValueError] of that text, commas
    removed, after one line in the log that shows the text as [repr]
    writes it, and returns no frame, whatever the rows after it
    hold. *)
Lemma gdp_transform_stops_at_first_bad_text
    (before after : list GDPFrame.record) (r : GDPFrame.record) (ms : list pyfloat)
    (e : env) (w : world) :
  Forall2 (fun r m => float (GDPFrame.cleaned r) = Some m) before ms ->
  float (GDPFrame.cleaned r) = None ->
  GDP.transform (GDPFrame.frame_of (before ++ r :: after)) e w =
  (inl (ValueError (GDPFrame.cleaned r)),
   GDPLog.logged_world
     ("Error in transformation: could not convert string to float: " ++
      PyStr.repr (GDPFrame.cleaned r)) e w).
Proof.
  intros Hbefore Hr. rewrite gdp_transform_cases.
  now rewrite (astype_float_first_bad _ _ _ _ Hbefore Hr).
Qed.

(** X10 on a text with an apostrophe in it, which [repr] sets between
    double quotes; the full-width digits before it are a number. *)
Lemma gdp_transform_stops_at_first_bad_text_witness :
  GDP.transform
    (GDPFrame.frame_of ([(OStr "Tuvalu", "６３")] ++ (OStr "Atlantis", "1,2'x") ::
                        [(OStr "Nauru", "n/a")]))
    (Scenario.env_of (Scenario.page []) []) Scenario.nothing =
  (inl (ValueError "12'x"),
   GDPLog.logged_world
     ("Error in transformation: could not convert string to float: " ++
      String PyStr.double_quote "12'x" ++ String PyStr.double_quote "")
     (Scenario.env_of (Scenario.page []) []) Scenario.nothing).
Proof.
  apply (gdp_transform_stops_at_first_bad_text
           [(OStr "Tuvalu", "６３")] [(OStr "Nauru", "n/a")] (OStr "Atlantis", "1,2'x")
           [63%float]).
  - repeat constructor.
  - reflexivity.
Defined.

(** X11: a stage of the bank script that raises has logged it: when
    [extract_data], [transform_data], [load_to_csv], [load_to_db] or
    [run_queries] lets an exception out, the last line of the log is
    the ERROR record of that stage with the text of that exception. *)
Lemma bank_stage_that_raises_has_logged_it (e : env) (w w' : world) (x : exn) :
  (forall url,
     Bank.extract_data url e w = (inl x, w') ->
     exists t, Effects.last_line Bank.log_file w' =
               Some (Bank.format t Bank.ERROR ("Error during extraction: " ++ message x))) /\
  (forall df file,
     Bank.transform_data df file e w = (inl x, w') ->
     exists t, Effects.last_line Bank.log_file w' =
               Some (Bank.format t Bank.ERROR ("Error during transformation: " ++ message x))) /\
  (forall df path,
     Bank.load_to_csv df path e w = (inl x, w') ->
     exists t, Effects.last_line Bank.log_file w' =
               Some (Bank.format t Bank.ERROR ("Error during CSV loading: " ++ message x))) /\
  (forall df db table,
     Bank.load_to_db df db table e w = (inl x, w') ->
     exists t, Effects.last_line Bank.log_file w' =
               Some (Bank.format t Bank.ERROR ("Error during database loading: " ++ message x))) /\
  (forall q conn,
     Bank.run_queries q conn e w = (inl x, w') ->
     exists t, Effects.last_line Bank.log_file w' =
               Some (Bank.format t Bank.ERROR ("Error executing query: " ++ message x))).
Proof.
  repeat split; intros; eapply bank_stage_last; eassumption.
Qed.

Lemma bank_stage_that_raises_has_logged_it_witness :
  exists t,
    Effects.last_line Bank.log_file
      (snd (Bank.extract_data Bank.url Scenario.env_down Scenario.nothing)) =
    Some (Bank.format t Bank.ERROR "Error during extraction: Max retries exceeded").
Proof.
  apply (proj1 (bank_stage_that_raises_has_logged_it Scenario.env_down Scenario.nothing
                  (snd (Bank.extract_data Bank.url Scenario.env_down Scenario.nothing))
                  Scenario.unreachable) Bank.url).
  reflexivity.
Defined.

(** X12: the same of the GDP script: when [extract], [transform],
    [load_to_csv], [load_to_db] or [run_query] lets an exception out,
    the last line of the log is the line of that stage with the text of
    that exception. *)
Lemma gdp_stage_that_raises_has_logged_it (e : env) (w w' : world) (x : exn) :
  (forall url table_attribs,
     GDP.extract url table_attribs e w = (inl x, w') ->
     exists t, Effects.last_line GDP.log_file w' =
               Some (strftime_Yhd_HMS t ++ " : " ++ "Error in data extraction: " ++ message x)) /\
  (forall df,
     GDP.transform df e w = (inl x, w') ->
     exists t, Effects.last_line GDP.log_file w' =
               Some (strftime_Yhd_HMS t ++ " : " ++ "Error in transformation: " ++ message x)) /\
  (forall df path,
     GDP.load_to_csv df path e w = (inl x, w') ->
     exists t, Effects.last_line GDP.log_file w' =
               Some (strftime_Yhd_HMS t ++ " : " ++ "Error in saving to CSV: " ++ message x)) /\
  (forall df conn table,
     GDP.load_to_db df conn table e w = (inl x, w') ->
     exists t, Effects.last_line GDP.log_file w' =
               Some (strftime_Yhd_HMS t ++ " : " ++ "Error in saving to Database: " ++ message x)) /\
  (forall q conn,
     GDP.run_query q conn e w = (inl x, w') ->
     exists t, Effects.last_line GDP.log_file w' =
               Some (strftime_Yhd_HMS t ++ " : " ++ "Error in running query: " ++ message x)).
Proof.
  repeat split; intros; eapply gdp_stage_last; eassumption.
Qed.

Lemma gdp_stage_that_raises_has_logged_it_witness :
  exists t,
    Effects.last_line GDP.log_file
      (snd (GDP.extract GDP.url GDP.table_attribs Scenario.env_down Scenario.nothing)) =
    Some (strftime_Yhd_HMS t ++ " : " ++ "Error in data extraction: " ++
          message Scenario.unreachable).
Proof.
  apply (proj1 (gdp_stage_that_raises_has_logged_it Scenario.env_down Scenario.nothing
                  (snd (GDP.extract GDP.url GDP.table_attribs Scenario.env_down Scenario.nothing))
                  Scenario.unreachable) GDP.url GDP.table_attribs).
  reflexivity.
Defined.

(** X13: [main] of the GDP script has no handler of its own, and
    [sqlite3.connect] stands outside every stage: an exception that
    leaves [main] was logged by the stage it came from, as the last
    line of the log, unless it is a failure to open the database, which
    leaves no line: the log then ends at the line of the CSV file
    saved. *)
Lemma gdp_main_logs_its_failure_unless_connect_fails (e : env) (w w' : world) (x : exn) :
  GDP.main e w = (inl x, w') ->
  (exists prefix t,
     In prefix Stages.gdp_prefixes /\
     Effects.last_line GDP.log_file w' =
     Some (strftime_Yhd_HMS t ++ " : " ++ prefix ++ message x)) \/
  (connect_error e GDP.db_name = Some x /\
   exists t,
     Effects.last_line GDP.log_file w' =
     Some (strftime_Yhd_HMS t ++ " : " ++ "Data saved to CSV file: " ++ GDP.csv_path)).
Proof.
  unfold GDP.main. intros H.
  apply bind_inl_inv in H. destruct H as [H|[[] [w1 [_ H]]]]; [now apply gdp_log_inl in H|].
  apply bind_inl_inv in H. destruct H as [H|[df0 [w2 [_ H]]]].
  { left. destruct (gdp_stage_last _ _ _ _ _ _ H) as [t Ht].
    exists "Error in data extraction: ", t. split; [simpl; auto 10|exact Ht]. }
  apply bind_inl_inv in H. destruct H as [H|[[] [w3 [_ H]]]]; [now apply gdp_log_inl in H|].
  apply bind_inl_inv in H. destruct H as [H|[df [w4 [_ H]]]].
  { left. destruct (gdp_stage_last _ _ _ _ _ _ H) as [t Ht].
    exists "Error in transformation: ", t. split; [simpl; auto 10|exact Ht]. }
  apply bind_inl_inv in H. destruct H as [H|[[] [w5 [_ H]]]]; [now apply gdp_log_inl in H|].
  apply bind_inl_inv in H. destruct H as [H|[[] [w6 [Hcsv H]]]].
  { left. destruct (gdp_stage_last _ _ _ _ _ _ H) as [t Ht].
    exists "Error in saving to CSV: ", t. split; [simpl; auto 10|exact Ht]. }
  apply bind_inl_inv in H. destruct H as [H|[conn [w7 [_ H]]]].
  { right. apply connect_inl in H. destruct H as [Hc ->]. split; [assumption|].
    apply gdp_load_to_csv_inr in Hcsv. destruct Hcsv as [_ [w0 ->]].
    eexists. apply gdp_last_line. }
  apply bind_inl_inv in H. destruct H as [H|[[] [w8 [_ H]]]]; [now apply gdp_log_inl in H|].
  apply bind_inl_inv in H. destruct H as [H|[[] [w9 [_ H]]]].
  { left. destruct (gdp_stage_last _ _ _ _ _ _ H) as [t Ht].
    exists "Error in saving to Database: ", t. split; [simpl; auto 10|exact Ht]. }
  apply bind_inl_inv in H. destruct H as [H|[[] [w10 [_ H]]]].
  { left. destruct (gdp_stage_last _ _ _ _ _ _ H) as [t Ht].
    exists "Error in running query: ", t. split; [simpl; auto 10|exact Ht]. }
  apply bind_inl_inv in H. destruct H as [H|[[] [w11 [_ H]]]]; [now apply gdp_log_inl in H|].
  discriminate.
Qed.

Lemma gdp_main_logs_its_failure_unless_connect_fails_witness :
  (exists prefix t,
     In prefix Stages.gdp_prefixes /\
     Effects.last_line GDP.log_file (snd (GDP.main Scenario.env_down Scenario.nothing)) =
     Some (strftime_Yhd_HMS t ++ " : " ++ prefix ++ message Scenario.unreachable)) \/
  (connect_error Scenario.env_down GDP.db_name = Some Scenario.unreachable /\
   exists t,
     Effects.last_line GDP.log_file (snd (GDP.main Scenario.env_down Scenario.nothing)) =
     Some (strftime_Yhd_HMS t ++ " : " ++ "Data saved to CSV file: " ++ GDP.csv_path)).
Proof.
  apply (gdp_main_logs_its_failure_unless_connect_fails Scenario.env_down Scenario.nothing).
  reflexivity.
Defined.

(** X14: every run of [main] of the bank script is accounted for in its
    log: the first line it appends is the record that the process was
    initiated, and the last line of the log when it returns is the
    record of the completion when the statements under [try] all
    returned, and else the CRITICAL record with the text of the
    exception that stopped them. *)
Lemma bank_main_opens_and_closes_its_log (e : env) (w : world) :
  (exists rest,
     read_lines Bank.log_file (snd (Bank.main e w)) =
     (read_lines Bank.log_file w ++
      Bank.format (clock e (ticks w)) Bank.INFO "ETL process initiated." :: rest)%list) /\
  exists t,
    Effects.last_line Bank.log_file (snd (Bank.main e w)) =
    Some (match fst (Bank.etl e (BankLog.logged_world Bank.INFO "ETL process initiated." e w)) with
          | inr _ =>
              Bank.format t Bank.INFO "ETL process and queries completed successfully."
          | inl x =>
              Bank.format t Bank.CRITICAL ("ETL process failed: " ++ message x)
          end).
Proof.
  split.
  - unfold Bank.main, Bank.info. erewrite bind_inr by apply log_run.
    destruct (appends_bank_try e (BankLog.logged_world Bank.INFO "ETL process initiated." e w))
      as [added [Hlines _]].
    exists added. rewrite Hlines, read_lines_logged, <- app_assoc. reflexivity.
  - destruct (Bank.etl e (BankLog.logged_world Bank.INFO "ETL process initiated." e w))
      as [[x|[]] w1] eqn:H.
    + rewrite (bank_main_catches _ _ _ _ H). eexists. apply bank_last_line.
    + unfold Bank.main, Bank.info. erewrite bind_inr by apply log_run.
      erewrite try_except_inr by exact H.
      destruct (bank_etl_inr _ _ _ H) as (df0 & w2 & df & w3 & w4 & w5 & w6 & _ & _ & _ & _ & _ & ->).
      eexists. apply bank_last_line.
Qed.

(** X15: what the query functions print and return.  [run_queries]
    prints the statement and then, when the engine answers, the frame
    of the answer, and returns; when the engine fails it raises that
    failure with only the statement printed.  [run_query] prints the
    frame alone, and nothing on a failure. *)
Lemma queries_print_the_answer_or_raise (q : string) (conn : connection) (e : env) (w : world) :
  (fst (Bank.run_queries q conn e w) =
   match read_sql e q (tables_of conn w) with inl x => inl x | inr _ => inr tt end /\
   stdout (snd (Bank.run_queries q conn e w)) =
   (stdout w ++ PText ("Query: " ++ q) ::
    match read_sql e q (tables_of conn w) with inl _ => [] | inr df => [PFrame df] end)%list) /\
  (fst (GDP.run_query q conn e w) =
   match read_sql e q (tables_of conn w) with inl x => inl x | inr _ => inr tt end /\
   stdout (snd (GDP.run_query q conn e w)) =
   (stdout w ++
    match read_sql e q (tables_of conn w) with inl _ => [] | inr df => [PFrame df] end)%list).
Proof.
  unfold Bank.run_queries, GDP.run_query, logged, Bank.info, Bank.error,
    Bank.log, GDP.log_progress, try_except, bind, now, append_line, print, read_sql_query,
    raise, tables_of.
  cbn.
  match goal with
  | |- context [read_sql e q ?tables] => destruct (read_sql e q tables) as [x|df]; cbn
  end.
  - rewrite app_nil_r. repeat split.
  - rewrite <- app_assoc. repeat split.
Qed.

(** X16: the loaders write their target and nothing else: after
    [load_to_db] of either script every CSV file and every other table,
    of this database and of any other, is what it was, and after
    [load_to_csv] every other file and every table; this holds whether
    they return or raise. *)
Lemma loaders_write_only_their_target
    (df : DataFrame) (db table path : string) (e : env) (w : world) :
  Effects.same_but_table db table w (snd (Bank.load_to_db df db table e w)) /\
  Effects.same_but_table db table w (snd (GDP.load_to_db df db table e w)) /\
  Effects.same_but_file path w (snd (Bank.load_to_csv df path e w)) /\
  Effects.same_but_file path w (snd (GDP.load_to_csv df path e w)).
Proof.
  split; [apply keeps_bank_load_to_db|].
  split; [apply keeps_gdp_load_to_db|].
  split; [apply keeps_bank_load_to_csv|apply keeps_gdp_load_to_csv].
Qed.

(** X17: the bank script loads what it transformed.  Whenever the
    statements under [try] in [main] all return, [main] returns in the
    same world, the page was fetched, its first table gave at least one
    dictionary, the conversion file was read, and the CSV file and the
    table of the database both hold the frame [transform_data] makes of
    those dictionaries and those rates: the file and the table
    agree. *)
Lemma bank_file_and_table_hold_the_transformed_frame (e : env) (w w' : world) :
  Bank.etl e (BankLog.logged_world Bank.INFO "ETL process initiated." e w) = (inr tt, w') ->
  Bank.main e w = (inr tt, w') /\
  exists soup banks rates,
    http_get e Bank.url = inr soup /\
    Bank.extract_banks soup = inr banks /\
    banks <> [] /\
    read_rates e Bank.conversion_file = inr rates /\
    csvs w' !! Bank.csv_file_path =
    Some (columns (BankFrame.transformed banks rates), rows (BankFrame.transformed banks rates)) /\
    tables_of Bank.database_file w' !! Bank.db_table = Some (BankFrame.transformed banks rates).
Proof.
  intros H. split.
  - unfold Bank.main, Bank.info. erewrite bind_inr by apply log_run.
    now erewrite try_except_inr by exact H.
  - exact (bank_etl_store _ _ _ H).
Qed.

Lemma bank_file_and_table_hold_the_transformed_frame_witness :
  exists soup banks rates,
    http_get
      (Scenario.env_of
         (Scenario.page [Scenario.tbody [Scenario.heading; Scenario.bank_a; Scenario.bank_c]])
         Scenario.gbp_only) Bank.url = inr soup /\
    Bank.extract_banks soup = inr banks /\
    banks <> [] /\
    read_rates
      (Scenario.env_of
         (Scenario.page [Scenario.tbody [Scenario.heading; Scenario.bank_a; Scenario.bank_c]])
         Scenario.gbp_only) Bank.conversion_file = inr rates /\
    csvs
      (snd (Bank.main
              (Scenario.env_of
                 (Scenario.page
                    [Scenario.tbody [Scenario.heading; Scenario.bank_a; Scenario.bank_c]])
                 Scenario.gbp_only) Scenario.nothing)) !! Bank.csv_file_path =
    Some (columns (BankFrame.transformed banks rates), rows (BankFrame.transformed banks rates)) /\
    tables_of Bank.database_file
      (snd (Bank.main
              (Scenario.env_of
                 (Scenario.page
                    [Scenario.tbody [Scenario.heading; Scenario.bank_a; Scenario.bank_c]])
                 Scenario.gbp_only) Scenario.nothing)) !! Bank.db_table =
    Some (BankFrame.transformed banks rates).
Proof.
  apply (proj2 (bank_file_and_table_hold_the_transformed_frame
                  (Scenario.env_of
                     (Scenario.page
                        [Scenario.tbody [Scenario.heading; Scenario.bank_a; Scenario.bank_c]])
                     Scenario.gbp_only) Scenario.nothing
                  (snd (Bank.main
                          (Scenario.env_of
                             (Scenario.page
                                [Scenario.tbody
                                   [Scenario.heading; Scenario.bank_a; Scenario.bank_c]])
                             Scenario.gbp_only) Scenario.nothing))
                  ltac:(vm_compute; reflexivity))).
Defined.

(** X18: the GDP script loads what it transformed.  Whenever [main]
    returns, the page was fetched, its third table gave the records of
    a frame, every numeric text of them read as a number once its
    commas were removed, and the CSV file and the table of the database
    both hold the frame of the countries and of those numbers divided
    by a thousand and rounded to two places. *)
Lemma gdp_file_and_table_hold_the_transformed_frame (e : env) (w w' : world) :
  GDP.main e w = (inr tt, w') ->
  exists soup records ms,
    http_get e GDP.url = inr soup /\
    GDP.extract_frame soup GDP.table_attribs = inr (GDPFrame.frame_of records) /\
    Forall2 (fun r m => float (GDPFrame.cleaned r) = Some m) records ms /\
    csvs w' !! GDP.csv_path =
    Some (["Country"; "GDP_USD_billions"],
          rows [("Country", Object (map fst records));
                ("GDP_USD_billions",
                 Float64 (map (fun m => round2 (truediv m (of_Z 1000))) ms))]) /\
    tables_of GDP.db_name w' !! GDP.table_name =
    Some [("Country", Object (map fst records));
          ("GDP_USD_billions", Float64 (map (fun m => round2 (truediv m (of_Z 1000))) ms))].
Proof.
  intros H. exact (gdp_main_store _ _ _ H).
Qed.

Lemma gdp_file_and_table_hold_the_transformed_frame_witness :
  exists soup records ms,
    http_get
      (Scenario.env_of
         (Scenario.gdp_page [Scenario.country "Tuvalu" "63"; Scenario.country "Eritrea" "—"])
         []) GDP.url = inr soup /\
    GDP.extract_frame soup GDP.table_attribs = inr (GDPFrame.frame_of records) /\
    Forall2 (fun r m => float (GDPFrame.cleaned r) = Some m) records ms /\
    csvs
      (snd (GDP.main
              (Scenario.env_of
                 (Scenario.gdp_page
                    [Scenario.country "Tuvalu" "63"; Scenario.country "Eritrea" "—"])
                 []) Scenario.nothing)) !! GDP.csv_path =
    Some (["Country"; "GDP_USD_billions"],
          rows [("Country", Object (map fst records));
                ("GDP_USD_billions",
                 Float64 (map (fun m => round2 (truediv m (of_Z 1000))) ms))]) /\
    tables_of GDP.db_name
      (snd (GDP.main
              (Scenario.env_of
                 (Scenario.gdp_page
                    [Scenario.country "Tuvalu" "63"; Scenario.country "Eritrea" "—"])
                 []) Scenario.nothing)) !! GDP.table_name =
    Some [("Country", Object (map fst records));
          ("GDP_USD_billions", Float64 (map (fun m => round2 (truediv m (of_Z 1000))) ms))].
Proof.
  apply (gdp_file_and_table_hold_the_transformed_frame
           (Scenario.env_of
              (Scenario.gdp_page
                 [Scenario.country "Tuvalu" "63"; Scenario.country "Eritrea" "—"])
              []) Scenario.nothing).
  vm_compute. reflexivity.
Defined.

(** X19: the rate of a currency is the one of its first row in the
    conversion file: rows of other currencies before it and any row
    after it, of the same currency or not, do not count; and there is
    no rate exactly when no row names the currency. *)
Lemma first_row_of_a_currency_gives_its_rate
    (before after : list (string * pyfloat)) (c : string) (r : pyfloat) :
  Forall (fun row => fst row <> c) before ->
  Bank.rate_of (before ++ (c, r) :: after) c = Some r /\
  Bank.rate_of before c = None.
Proof.
  intros H. induction H as [|[c' r'] rest Hc' Hrest IH]; simpl.
  - now rewrite String.eqb_refl.
  - destruct (String.eqb c' c) eqn:E; [|exact IH].
    apply String.eqb_eq in E. contradiction.
Qed.

Lemma first_row_of_a_currency_gives_its_rate_witness :
  Bank.rate_of ([("EUR", 0.93%float)] ++ ("GBP", 0.8%float) ::
                [("GBP", 0.79%float)]) "GBP" = Some 0.8%float /\
  Bank.rate_of [("EUR", 0.93%float)] "GBP" = None.
Proof.
  apply (first_row_of_a_currency_gives_its_rate
           [("EUR", 0.93%float)] [("GBP", 0.79%float)] "GBP" 0.8%float).
  repeat constructor. discriminate.
Defined.

(** X20: the bounds of a row.  A row of one or two cells makes the bank
    extractor raise [IndexError]; it makes the GDP extractor raise it
    too when its first cell holds a link, since the numeric cell is
    then looked at. *)
Lemma short_row_raises_index_error (row : node) :
  0 < length (find_all "td" row) < 3 ->
  Bank.extract_row row = inl IndexError /\
  (forall c0,
     nth_error (find_all "td" row) 0 = Some c0 ->
     find "a" c0 <> None ->
     GDP.extract_row row = inl IndexError).
Proof.
  intros [Hpos Hlt]. unfold Bank.extract_row, GDP.extract_row.
  destruct (find_all "td" row) as [|c [|c1 [|c2 rest]]]; simpl in Hpos, Hlt; try lia.
  - split; [reflexivity|]. intros c0 H0 Ha. injection H0 as ->. simpl.
    destruct (find "a" c0); [reflexivity|contradiction].
  - split; [reflexivity|]. intros c0 H0 Ha. injection H0 as ->. simpl.
    destruct (find "a" c0); [reflexivity|contradiction].
Qed.

Lemma short_row_raises_index_error_witness :
  Bank.extract_row (Scenario.tr ["9"; "Bank Z"]) = inl IndexError /\
  GDP.extract_row (Tag "tr" [Tag "td" [Tag "a" [NavigableString "Tuvalu"]]; Scenario.td "63"]) =
  inl IndexError.
Proof.
  split.
  - apply (proj1 (short_row_raises_index_error (Scenario.tr ["9"; "Bank Z"])
                    ltac:(simpl; lia))).
  - apply (proj2 (short_row_raises_index_error
                    (Tag "tr" [Tag "td" [Tag "a" [NavigableString "Tuvalu"]]; Scenario.td "63"])
                    ltac:(simpl; lia))
             (Tag "td" [Tag "a" [NavigableString "Tuvalu"]])).
    + reflexivity.
    + discriminate.
Defined.

(** X21: the number in the record [extract_data] logs when it returns
    is the number of rows of the first table body that have cells, and
    that record is the last line of the log. *)
Lemma extract_data_logs_the_number_of_rows_with_cells
    (url : string) (e : env) (w : world) (df : DataFrame) (w' : world) :
  Bank.extract_data url e w = (inr df, w') ->
  exists soup tbody t,
    http_get e url = inr soup /\
    nth_error (find_all "tbody" soup) 0 = Some tbody /\
    len df = length (List.filter Selection.has_cells (find_all "tr" tbody)) /\
    Effects.last_line Bank.log_file w' =
    Some (Bank.format t Bank.INFO
            ("Extracted " ++ str_nat (len df) ++ " rows successfully.")).
Proof.
  intros H.
  destruct (bank_extract_data_inr _ _ _ _ _ H) as (soup & banks & w1 & Hs & Hb & -> & ->).
  unfold Bank.extract_banks in Hb.
  destruct (getitem (find_all "tbody" soup) 0) as [|tbody] eqn:Ht; [discriminate|].
  destruct (bank_rows_in_order _ _ _ Hb) as [new [-> Hnew]]. simpl app.
  exists soup, tbody. eexists.
  split; [assumption|]. split; [now apply getitem_inr|]. split; [|apply bank_last_line].
  apply Forall2_length in Hnew. rewrite Hnew.
  destruct new as [|b new]; [reflexivity|]. simpl. now rewrite length_map.
Qed.

Lemma extract_data_logs_the_number_of_rows_with_cells_witness :
  exists soup tbody t,
    http_get
      (Scenario.env_of
         (Scenario.page [Scenario.tbody [Scenario.heading; Scenario.bank_a; Scenario.bank_c]]) [])
      Bank.url = inr soup /\
    nth_error (find_all "tbody" soup) 0 = Some tbody /\
    len (Bank.frame_of [("Bank A", 1000%float); ("Bank C", 500.5%float)]) =
    length (List.filter Selection.has_cells (find_all "tr" tbody)) /\
    Effects.last_line Bank.log_file
      (snd (Bank.extract_data Bank.url
              (Scenario.env_of
                 (Scenario.page
                    [Scenario.tbody [Scenario.heading; Scenario.bank_a; Scenario.bank_c]]) [])
              Scenario.nothing)) =
    Some (Bank.format t Bank.INFO
            ("Extracted " ++
             str_nat (len (Bank.frame_of [("Bank A", 1000%float);
                                          ("Bank C", 500.5%float)])) ++
             " rows successfully.")).
Proof.
  apply (extract_data_logs_the_number_of_rows_with_cells Bank.url
           (Scenario.env_of
              (Scenario.page [Scenario.tbody [Scenario.heading; Scenario.bank_a; Scenario.bank_c]])
              [])
           Scenario.nothing).
  reflexivity.
Defined.

(** X22: a link without children.  In a row of the GDP table that
    passes the tests, the country is the first child of the link; a
    link that has none makes the extractor raise [IndexError]. *)
Lemma gdp_link_without_children_raises (row c0 c2 a : node) :
  nth_error (find_all "td" row) 0 = Some c0 ->
  nth_error (find_all "td" row) 2 = Some c2 ->
  find "a" c0 = Some a ->
  contents a = [] ->
  PyStr.contains PyStr.em_dash (PyStr.strip (text c2)) = false ->
  GDP.extract_row row = inl IndexError.
Proof.
  intros H0 H2 Ha Hkids Hdash. unfold GDP.extract_row.
  destruct (find_all "td" row) as [|c rest] eqn:Hcols; [discriminate|].
  simpl length. simpl Nat.eqb. cbv iota.
  rewrite (getitem_Some _ _ _ H0), Ha, (getitem_Some _ _ _ H2), Hdash, Hkids.
  reflexivity.
Qed.

Lemma gdp_link_without_children_raises_witness :
  GDP.extract_row
    (Tag "tr" [Tag "td" [Tag "a" []]; Scenario.td "Region"; Scenario.td "63"]) =
  inl IndexError.
Proof.
  apply (gdp_link_without_children_raises
           (Tag "tr" [Tag "td" [Tag "a" []]; Scenario.td "Region"; Scenario.td "63"])
           (Tag "td" [Tag "a" []]) (Scenario.td "63") (Tag "a" []));
    reflexivity.
Defined.

(** X23: the log of a run of the bank script in which nothing fails.
    Whenever the statements under [try] in [main] all return, the lines
    [main] appended to the log are exactly the records of the stages in
    their order, each with its own reading of the clock: the process
    initiated, the extraction with the number of dictionaries, the
    transformation with one warning for each requested currency that
    has no rate, both loads, the connection, the three queries and the
    completion. *)
Lemma bank_log_of_a_run_without_failure (e : env) (w w' : world) :
  Bank.etl e (BankLog.logged_world Bank.INFO "ETL process initiated." e w) = (inr tt, w') ->
  exists banks rates,
    (exists soup, http_get e Bank.url = inr soup /\ Bank.extract_banks soup = inr banks) /\
    read_rates e Bank.conversion_file = inr rates /\
    read_lines Bank.log_file (snd (Bank.main e w)) =
    (read_lines Bank.log_file w ++
     Effects.stamped Stages.bank_record e (ticks w)
       (Stages.bank_entries (length banks) rates))%list.
Proof.
  intros H.
  assert (Hmain : Bank.main e w = (inr tt, w')).
  { unfold Bank.main, Bank.info. erewrite bind_inr by apply log_run.
    now erewrite try_except_inr by exact H. }
  rewrite Hmain.
  destruct (bank_etl_wrote _ _ _ H) as (banks & rates & Hpage & Hrates & W).
  exists banks, rates. split; [assumption|]. split; [assumption|].
  exact (proj1 (wrote_app _ _ _ _ _ _ _ _
                  (bank_wrote_one Bank.INFO "ETL process initiated." e w) W)).
Qed.

Lemma bank_log_of_a_run_without_failure_witness :
  exists banks rates,
    (exists soup,
       http_get
         (Scenario.env_of
            (Scenario.page [Scenario.tbody [Scenario.heading; Scenario.bank_a; Scenario.bank_c]])
            Scenario.gbp_only) Bank.url = inr soup /\
       Bank.extract_banks soup = inr banks) /\
    read_rates
      (Scenario.env_of
         (Scenario.page [Scenario.tbody [Scenario.heading; Scenario.bank_a; Scenario.bank_c]])
         Scenario.gbp_only) Bank.conversion_file = inr rates /\
    read_lines Bank.log_file
      (snd (Bank.main
              (Scenario.env_of
                 (Scenario.page
                    [Scenario.tbody [Scenario.heading; Scenario.bank_a; Scenario.bank_c]])
                 Scenario.gbp_only) Scenario.nothing)) =
    (read_lines Bank.log_file Scenario.nothing ++
     Effects.stamped Stages.bank_record
       (Scenario.env_of
          (Scenario.page [Scenario.tbody [Scenario.heading; Scenario.bank_a; Scenario.bank_c]])
          Scenario.gbp_only) (ticks Scenario.nothing)
       (Stages.bank_entries (length banks) rates))%list.
Proof.
  apply (bank_log_of_a_run_without_failure
           (Scenario.env_of
              (Scenario.page [Scenario.tbody [Scenario.heading; Scenario.bank_a; Scenario.bank_c]])
              Scenario.gbp_only) Scenario.nothing
           (snd (Bank.etl
                   (Scenario.env_of
                      (Scenario.page
                         [Scenario.tbody [Scenario.heading; Scenario.bank_a; Scenario.bank_c]])
                      Scenario.gbp_only)
                   (BankLog.logged_world Bank.INFO "ETL process initiated."
                      (Scenario.env_of
                         (Scenario.page
                            [Scenario.tbody [Scenario.heading; Scenario.bank_a; Scenario.bank_c]])
                         Scenario.gbp_only) Scenario.nothing)))).
  vm_compute. reflexivity.
Defined.

(** X24: the log of a run of the GDP script in which nothing fails.
    Whenever [main] returns, the lines it appended to the log are
    exactly its seven messages in their order, each with its own
    reading of the clock; extraction, transformation and the query
    write no line of their own. *)
Lemma gdp_log_of_a_run_without_failure (e : env) (w w' : world) :
  GDP.main e w = (inr tt, w') ->
  read_lines GDP.log_file w' =
  (read_lines GDP.log_file w ++
   Effects.stamped Stages.gdp_message e (ticks w) Stages.gdp_messages)%list.
Proof.
  unfold GDP.main. intros H.
  apply bind_inr_inv in H. destruct H as [[] [w1 [H1 H]]].
  apply bind_inr_inv in H. destruct H as [df0 [w2 [H2 H]]].
  apply bind_inr_inv in H. destruct H as [[] [w3 [H3 H]]].
  apply bind_inr_inv in H. destruct H as [df [w4 [H4 H]]].
  apply bind_inr_inv in H. destruct H as [[] [w5 [H5 H]]].
  apply bind_inr_inv in H. destruct H as [[] [w6 [H6 H]]].
  apply bind_inr_inv in H. destruct H as [conn [w7 [H7 H]]].
  apply bind_inr_inv in H. destruct H as [[] [w8 [H8 H]]].
  apply bind_inr_inv in H. destruct H as [[] [w9 [H9 H]]].
  apply bind_inr_inv in H. destruct H as [[] [w10 [H10 H]]].
  apply bind_inr_inv in H. destruct H as [[] [w11 [H11 H]]].
  apply gdp_extract_inr in H2. destruct H2 as (soup & _ & _ & ->).
  pose proof (gdp_silent _ _ _ _ _ (silent_close _) H) as W.
  pose proof (wrote_app _ _ _ _ _ _ _ _ (gdp_log_inr _ _ _ _ _ H11) W) as W'.
  clear W. rename W' into W.
  pose proof (wrote_app _ _ _ _ _ _ _ _ (gdp_run_query_wrote _ _ _ _ _ H10) W) as W'.
  clear W. rename W' into W.
  pose proof (wrote_app _ _ _ _ _ _ _ _ (gdp_load_to_db_wrote _ _ _ _ _ _ H9) W) as W'.
  clear W. rename W' into W.
  pose proof (wrote_app _ _ _ _ _ _ _ _ (gdp_log_inr _ _ _ _ _ H8) W) as W'.
  clear W. rename W' into W.
  pose proof (wrote_app _ _ _ _ _ _ _ _ (gdp_silent _ _ _ _ _ (silent_connect _) H7) W) as W'.
  clear W. rename W' into W.
  pose proof (wrote_app _ _ _ _ _ _ _ _ (gdp_load_to_csv_wrote _ _ _ _ _ H6) W) as W'.
  clear W. rename W' into W.
  pose proof (wrote_app _ _ _ _ _ _ _ _ (gdp_log_inr _ _ _ _ _ H5) W) as W'.
  clear W. rename W' into W.
  pose proof (wrote_app _ _ _ _ _ _ _ _
                (wrote_nothing GDP.log_file Stages.gdp_message e _ _
                   (gdp_transform_silent _ _ _ _ _ H4)) W) as W'.
  clear W. rename W' into W.
  pose proof (wrote_app _ _ _ _ _ _ _ _ (gdp_log_inr _ _ _ _ _ H3) W) as W'.
  clear W. rename W' into W.
  exact (proj1 (wrote_app _ _ _ _ _ _ _ _ (gdp_log_inr _ _ _ _ _ H1) W)).
Qed.

Lemma gdp_log_of_a_run_without_failure_witness :
  read_lines GDP.log_file
    (snd (GDP.main
            (Scenario.env_of (Scenario.gdp_page [Scenario.country "Tuvalu" "63"]) [])
            Scenario.nothing)) =
  (read_lines GDP.log_file Scenario.nothing ++
   Effects.stamped Stages.gdp_message
     (Scenario.env_of (Scenario.gdp_page [Scenario.country "Tuvalu" "63"]) [])
     (ticks Scenario.nothing) Stages.gdp_messages)%list.
Proof.
  apply (gdp_log_of_a_run_without_failure
           (Scenario.env_of (Scenario.gdp_page [Scenario.country "Tuvalu" "63"]) [])
           Scenario.nothing).
  vm_compute. reflexivity.
Defined.

(** X25: when [transform_data] returns and when it raises, on a frame
    [extract_data] can return.  It raises the failure of reading the
    conversion file when there is one; else, on the frame of no
    dictionary, which has no column of magnitudes, [KeyError]; and else
    it returns the transformed frame. *)
Lemma transform_data_raises_on_a_missing_file_or_column
    (banks : list Bank.bank) (e : env) (w : world) :
  fst (Bank.transform_data (Bank.frame_of banks) Bank.conversion_file e w) =
  match read_rates e Bank.conversion_file with
  | inl x => inl x
  | inr rates =>
      match banks with
      | [] => inl (KeyError "Market Cap (USD)")
      | _ :: _ => inr (BankFrame.transformed banks rates)
      end
  end.
Proof.
  destruct (read_rates e Bank.conversion_file) as [x|rates] eqn:Hrates.
  - unfold Bank.transform_data, Bank.info, Bank.error, logged.
    erewrite bind_inr by apply log_run.
    erewrite try_except_inl
      by (erewrite bind_inl by (rewrite Hrates; reflexivity); reflexivity).
    erewrite bind_inr by apply log_run. reflexivity.
  - destruct banks as [|b banks].
    + destruct (transform_data_empty e w) as [w1 Hw]. rewrite Hw, Hrates. reflexivity.
    + now rewrite (transform_data_run (b :: banks) rates e w ltac:(discriminate) Hrates).
Qed.

(** X26: nothing is rolled back in the bank script.  When the page
    and the conversion file are read and the CSV file is written but
    the database cannot be opened, [main] still returns: the CSV file
    holds the transformed frame, no table of any database was written,
    and the log ends with the CRITICAL record of that failure. *)
Lemma bank_csv_file_stays_when_the_database_cannot_be_opened
    (e : env) (w : world) (soup : node) (banks : list Bank.bank)
    (rates : list (string * pyfloat)) (x : exn) :
  http_get e Bank.url = inr soup ->
  Bank.extract_banks soup = inr banks ->
  banks <> [] ->
  read_rates e Bank.conversion_file = inr rates ->
  write_error e Bank.csv_file_path = None ->
  connect_error e Bank.database_file = Some x ->
  fst (Bank.main e w) = inr tt /\
  csvs (snd (Bank.main e w)) !! Bank.csv_file_path =
  Some (columns (BankFrame.transformed banks rates), rows (BankFrame.transformed banks rates)) /\
  (forall db, tables_of db (snd (Bank.main e w)) = tables_of db w) /\
  exists t,
    Effects.last_line Bank.log_file (snd (Bank.main e w)) =
    Some (Bank.format t Bank.CRITICAL ("ETL process failed: " ++ message x)).
Proof.
  intros Hs Hb Hne Hr Hw Hc.
  set (w0 := BankLog.logged_world Bank.INFO "ETL process initiated." e w).
  pose proof (run_fst _ _ _ _ (bank_extract_data_returns Bank.url e w0 soup banks Hs Hb)) as E1.
  set (w1 := snd (Bank.extract_data Bank.url e w0)) in E1.
  pose proof (transform_data_run banks rates e w1 Hne Hr) as E2.
  set (w2 := BankLog.logged_all (BankFrame.transform_entries rates) e w1) in E2.
  pose proof (run_fst _ _ _ _
                (bank_load_to_csv_returns (BankFrame.transformed banks rates)
                   Bank.csv_file_path e w2 Hw)) as E3.
  set (w3 := snd (Bank.load_to_csv (BankFrame.transformed banks rates)
                    Bank.csv_file_path e w2)) in E3.
  pose proof (bank_load_to_db_cannot_connect (BankFrame.transformed banks rates)
                Bank.database_file Bank.db_table e w3 x Hc) as E4.
  assert (Hetl : Bank.etl e w0 =
                 (inl x,
                  BankLog.logged_world Bank.ERROR
                    ("Error during database loading: " ++ message x) e
                    (BankLog.logged_world Bank.INFO "Starting database loading." e w3))).
  { unfold Bank.etl.
    erewrite bind_inr by exact E1. erewrite bind_inr by exact E2.
    erewrite bind_inr by exact E3. erewrite bind_inl by exact E4. reflexivity. }
  rewrite (bank_main_catches _ _ _ _ Hetl). cbn [fst snd].
  assert (Hstore3 : Effects.same_but_file Bank.csv_file_path w w3).
  { apply (same_but_file_trans _ w w2 w3).
    - apply same_store_but_file.
      apply (same_store_trans w w0 w2); [apply same_store_logged|].
      apply (same_store_trans w0 w1 w2).
      + apply (keeps_extract_data Bank.url e w0).
      + exact (keeps_run _ _ _ _ _ _
                 (keeps_transform_data (Bank.frame_of banks) Bank.conversion_file) E2).
    - apply (keeps_bank_load_to_csv (BankFrame.transformed banks rates)
               Bank.csv_file_path e w2). }
  assert (Hlast : Effects.same_store w3
                    (BankLog.logged_world Bank.CRITICAL ("ETL process failed: " ++ message x) e
                       (BankLog.logged_world Bank.ERROR
                          ("Error during database loading: " ++ message x) e
                          (BankLog.logged_world Bank.INFO "Starting database loading." e w3)))).
  { eapply same_store_trans; [apply same_store_logged|].
    eapply same_store_trans; apply same_store_logged. }
  destruct Hlast as [Hcsv Htab]. destruct Hstore3 as [_ Htab3].
  split; [reflexivity|]. split; [|split].
  - rewrite Hcsv. exact (bank_load_to_csv_inr _ _ _ _ _ E3).
  - intros db. now rewrite Htab, Htab3.
  - eexists. apply bank_last_line.
Qed.

Lemma bank_csv_file_stays_when_the_database_cannot_be_opened_witness :
  fst (Bank.main
         {| http_get := fun _ =>
              inr (Scenario.page [Scenario.tbody [Scenario.bank_a; Scenario.bank_c]]);
            read_rates := fun _ => inr Scenario.gbp_only;
            clock := fun _ => Scenario.noon;
            write_error := fun _ => None;
            connect_error := fun _ => Some (Exception "OperationalError" "unable to open database file");
            to_sql_error := fun _ _ => None;
            read_sql := fun _ _ => inr [] |} Scenario.nothing) = inr tt /\
  csvs (snd (Bank.main
         {| http_get := fun _ =>
              inr (Scenario.page [Scenario.tbody [Scenario.bank_a; Scenario.bank_c]]);
            read_rates := fun _ => inr Scenario.gbp_only;
            clock := fun _ => Scenario.noon;
            write_error := fun _ => None;
            connect_error := fun _ => Some (Exception "OperationalError" "unable to open database file");
            to_sql_error := fun _ _ => None;
            read_sql := fun _ _ => inr [] |} Scenario.nothing)) !! Bank.csv_file_path =
  Some (columns (BankFrame.transformed
                   [("Bank A", 1000%float); ("Bank C", 500.5%float)]
                   Scenario.gbp_only),
        rows (BankFrame.transformed
                [("Bank A", 1000%float); ("Bank C", 500.5%float)]
                Scenario.gbp_only)) /\
  (forall db,
     tables_of db (snd (Bank.main
         {| http_get := fun _ =>
              inr (Scenario.page [Scenario.tbody [Scenario.bank_a; Scenario.bank_c]]);
            read_rates := fun _ => inr Scenario.gbp_only;
            clock := fun _ => Scenario.noon;
            write_error := fun _ => None;
            connect_error := fun _ => Some (Exception "OperationalError" "unable to open database file");
            to_sql_error := fun _ _ => None;
            read_sql := fun _ _ => inr [] |} Scenario.nothing)) =
     tables_of db Scenario.nothing) /\
  exists t,
    Effects.last_line Bank.log_file (snd (Bank.main
         {| http_get := fun _ =>
              inr (Scenario.page [Scenario.tbody [Scenario.bank_a; Scenario.bank_c]]);
            read_rates := fun _ => inr Scenario.gbp_only;
            clock := fun _ => Scenario.noon;
            write_error := fun _ => None;
            connect_error := fun _ => Some (Exception "OperationalError" "unable to open database file");
            to_sql_error := fun _ _ => None;
            read_sql := fun _ _ => inr [] |} Scenario.nothing)) =
    Some (Bank.format t Bank.CRITICAL
            ("ETL process failed: " ++
             message (Exception "OperationalError" "unable to open database file"))).
Proof.
  apply (bank_csv_file_stays_when_the_database_cannot_be_opened _ Scenario.nothing
           (Scenario.page [Scenario.tbody [Scenario.bank_a; Scenario.bank_c]])
           [("Bank A", 1000%float); ("Bank C", 500.5%float)]
           Scenario.gbp_only
           (Exception "OperationalError" "unable to open database file"));
    first [reflexivity | discriminate].
Defined.

(** X27: nor in the GDP script.  When the page is read, every numeric
    text is a number and the CSV file is written but the database
    cannot be opened, the failure leaves [main]; the CSV file holds the
    transformed frame and no table of any database was written. *)
Lemma gdp_csv_file_stays_when_the_database_cannot_be_opened
    (e : env) (w : world) (soup : node) (records : list GDPFrame.record)
    (ms : list pyfloat) (x : exn) :
  http_get e GDP.url = inr soup ->
  GDP.extract_frame soup GDP.table_attribs = inr (GDPFrame.frame_of records) ->
  Forall2 (fun r m => float (GDPFrame.cleaned r) = Some m) records ms ->
  write_error e GDP.csv_path = None ->
  connect_error e GDP.db_name = Some x ->
  fst (GDP.main e w) = inl x /\
  csvs (snd (GDP.main e w)) !! GDP.csv_path =
  Some (["Country"; "GDP_USD_billions"],
        rows [("Country", Object (map fst records));
              ("GDP_USD_billions",
               Float64 (map (fun m => round2 (truediv m (of_Z 1000))) ms))]) /\
  (forall db, tables_of db (snd (GDP.main e w)) = tables_of db w).
Proof.
  intros Hs Hf Hms Hw Hc.
  set (df := [("Country", Object (map fst records));
              ("GDP_USD_billions",
               Float64 (map (fun m => round2 (truediv m (of_Z 1000))) ms))]).
  set (w1 := GDPLog.logged_world "Preliminaries complete. Initiating ETL process" e w).
  set (w2 := GDPLog.logged_world
               "Data extraction complete. Initiating Transformation process" e w1).
  set (w3 := GDPLog.logged_world
               "Data transformation complete. Initiating loading process" e w2).
  pose proof (run_fst _ _ _ _ (gdp_load_to_csv_returns df GDP.csv_path e w3 Hw)) as E3.
  set (w4 := snd (GDP.load_to_csv df GDP.csv_path e w3)) in E3.
  assert (Hmain : GDP.main e w = (inl x, w4)).
  { unfold GDP.main.
    erewrite bind_inr by apply gdp_log_run.
    erewrite bind_inr by (apply (gdp_extract_returns _ _ _ _ _ _ Hs Hf)).
    erewrite bind_inr by apply gdp_log_run.
    erewrite bind_inr by (apply (gdp_transform_run _ _ _ _ Hms)).
    erewrite bind_inr by apply gdp_log_run.
    erewrite bind_inr by exact E3.
    erewrite bind_inl; [reflexivity|]. unfold connect. now rewrite Hc. }
  rewrite Hmain. cbn [fst snd].
  split; [reflexivity|]. split.
  - exact (proj1 (gdp_load_to_csv_inr _ _ _ _ _ E3)).
  - intros db.
    destruct (keeps_gdp_load_to_csv df GDP.csv_path e w3) as [_ Ht4].
    fold w4 in Ht4. rewrite Ht4.
    destruct (same_store_gdp_logged
                "Data transformation complete. Initiating loading process" e w2) as [_ Ht3].
    destruct (same_store_gdp_logged
                "Data extraction complete. Initiating Transformation process" e w1)
      as [_ Ht2].
    destruct (same_store_gdp_logged "Preliminaries complete. Initiating ETL process" e w)
      as [_ Ht1].
    fold w3 in Ht3. fold w2 in Ht2, Ht3. fold w1 in Ht1, Ht2.
    now rewrite Ht3, Ht2, Ht1.
Qed.

Lemma gdp_csv_file_stays_when_the_database_cannot_be_opened_witness :
  fst (GDP.main
         {| http_get := fun _ => inr (Scenario.gdp_page [Scenario.country "Tuvalu" "63"]);
            read_rates := fun _ => inr [];
            clock := fun _ => Scenario.noon;
            write_error := fun _ => None;
            connect_error := fun _ => Some (Exception "OperationalError" "unable to open database file");
            to_sql_error := fun _ _ => None;
            read_sql := fun _ _ => inr [] |} Scenario.nothing) =
  inl (Exception "OperationalError" "unable to open database file") /\
  csvs (snd (GDP.main
         {| http_get := fun _ => inr (Scenario.gdp_page [Scenario.country "Tuvalu" "63"]);
            read_rates := fun _ => inr [];
            clock := fun _ => Scenario.noon;
            write_error := fun _ => None;
            connect_error := fun _ => Some (Exception "OperationalError" "unable to open database file");
            to_sql_error := fun _ _ => None;
            read_sql := fun _ _ => inr [] |} Scenario.nothing)) !! GDP.csv_path =
  Some (["Country"; "GDP_USD_billions"],
        rows [("Country", Object (map fst [(OStr "Tuvalu", "63")]));
              ("GDP_USD_billions",
               Float64 (map (fun m => round2 (truediv m (of_Z 1000))) [63%float]))]) /\
  (forall db,
     tables_of db (snd (GDP.main
         {| http_get := fun _ => inr (Scenario.gdp_page [Scenario.country "Tuvalu" "63"]);
            read_rates := fun _ => inr [];
            clock := fun _ => Scenario.noon;
            write_error := fun _ => None;
            connect_error := fun _ => Some (Exception "OperationalError" "unable to open database file");
            to_sql_error := fun _ _ => None;
            read_sql := fun _ _ => inr [] |} Scenario.nothing)) =
     tables_of db Scenario.nothing).
Proof.
  apply (gdp_csv_file_stays_when_the_database_cannot_be_opened _ Scenario.nothing
           (Scenario.gdp_page [Scenario.country "Tuvalu" "63"])
           [(OStr "Tuvalu", "63")] [63%float]
           (Exception "OperationalError" "unable to open database file"));
    try reflexivity.
  repeat constructor.
Defined.

(** X28: a script can be run again.  When two runs in the same
    environment both go through, the second leaves in the CSV file and
    in the table what the first left there: the data written does not
    depend on what the store or the log held before, nor on the
    clock. *)
Lemma a_second_run_writes_the_same_data (e : env) (w1 w1' w2 w2' : world) :
  (Bank.etl e w1 = (inr tt, w1') ->
   Bank.etl e w2 = (inr tt, w2') ->
   csvs w2' !! Bank.csv_file_path = csvs w1' !! Bank.csv_file_path /\
   tables_of Bank.database_file w2' !! Bank.db_table =
   tables_of Bank.database_file w1' !! Bank.db_table) /\
  (GDP.main e w1 = (inr tt, w1') ->
   GDP.main e w2 = (inr tt, w2') ->
   csvs w2' !! GDP.csv_path = csvs w1' !! GDP.csv_path /\
   tables_of GDP.db_name w2' !! GDP.table_name =
   tables_of GDP.db_name w1' !! GDP.table_name).
Proof.
  split; intros H1 H2.
  - destruct (bank_etl_store _ _ _ H1)
      as (soup1 & banks1 & rates1 & Hs1 & Hb1 & _ & Hr1 & Hc1 & Ht1).
    destruct (bank_etl_store _ _ _ H2)
      as (soup2 & banks2 & rates2 & Hs2 & Hb2 & _ & Hr2 & Hc2 & Ht2).
    rewrite Hs1 in Hs2. injection Hs2 as <-.
    rewrite Hb1 in Hb2. injection Hb2 as <-.
    rewrite Hr1 in Hr2. injection Hr2 as <-.
    now rewrite Hc1, Hc2, Ht1, Ht2.
  - destruct (gdp_main_store _ _ _ H1)
      as (soup1 & records1 & ms1 & Hs1 & Hf1 & Hm1 & Hc1 & Ht1).
    destruct (gdp_main_store _ _ _ H2)
      as (soup2 & records2 & ms2 & Hs2 & Hf2 & Hm2 & Hc2 & Ht2).
    rewrite Hs1 in Hs2. injection Hs2 as <-.
    rewrite Hf1 in Hf2. injection Hf2 as Hcountry Hmillions.
    assert (Hframe : GDPFrame.frame_of records1 = GDPFrame.frame_of records2)
      by (unfold GDPFrame.frame_of; now rewrite Hcountry, Hmillions).
    destruct (gdp_numbers_settled _ _ _ _ Hframe Hm1 Hm2) as [Hfst <-].
    split.
    + rewrite Hc1, Hc2, Hfst. reflexivity.
    + etransitivity; [exact Ht2|]. symmetry. etransitivity; [exact Ht1|].
      now rewrite Hfst.
Qed.

Lemma a_second_run_writes_the_same_data_witness :
  csvs (snd (Bank.etl
               (Scenario.env_of
                  (Scenario.page [Scenario.tbody [Scenario.bank_a; Scenario.bank_c]])
                  Scenario.gbp_only)
               (snd (Bank.etl
                       (Scenario.env_of
                          (Scenario.page [Scenario.tbody [Scenario.bank_a; Scenario.bank_c]])
                          Scenario.gbp_only) Scenario.nothing)))) !! Bank.csv_file_path =
  csvs (snd (Bank.etl
               (Scenario.env_of
                  (Scenario.page [Scenario.tbody [Scenario.bank_a; Scenario.bank_c]])
                  Scenario.gbp_only) Scenario.nothing)) !! Bank.csv_file_path /\
  tables_of Bank.database_file
    (snd (Bank.etl
            (Scenario.env_of
               (Scenario.page [Scenario.tbody [Scenario.bank_a; Scenario.bank_c]])
               Scenario.gbp_only)
            (snd (Bank.etl
                    (Scenario.env_of
                       (Scenario.page [Scenario.tbody [Scenario.bank_a; Scenario.bank_c]])
                       Scenario.gbp_only) Scenario.nothing)))) !! Bank.db_table =
  tables_of Bank.database_file
    (snd (Bank.etl
            (Scenario.env_of
               (Scenario.page [Scenario.tbody [Scenario.bank_a; Scenario.bank_c]])
               Scenario.gbp_only) Scenario.nothing)) !! Bank.db_table.
Proof.
  apply (proj1 (a_second_run_writes_the_same_data
                  (Scenario.env_of
                     (Scenario.page [Scenario.tbody [Scenario.bank_a; Scenario.bank_c]])
                     Scenario.gbp_only)
                  Scenario.nothing
                  (snd (Bank.etl (Scenario.env_of
                     (Scenario.page [Scenario.tbody [Scenario.bank_a; Scenario.bank_c]])
                     Scenario.gbp_only) Scenario.nothing))
                  (snd (Bank.etl (Scenario.env_of
                     (Scenario.page [Scenario.tbody [Scenario.bank_a; Scenario.bank_c]])
                     Scenario.gbp_only) Scenario.nothing))
                  (snd (Bank.etl (Scenario.env_of
                     (Scenario.page [Scenario.tbody [Scenario.bank_a; Scenario.bank_c]])
                     Scenario.gbp_only)
                          (snd (Bank.etl (Scenario.env_of
                     (Scenario.page [Scenario.tbody [Scenario.bank_a; Scenario.bank_c]])
                     Scenario.gbp_only) Scenario.nothing)))))).
  - vm_compute. reflexivity.
  - vm_compute. reflexivity.
Defined.
